(** * KIOSQUE DU PARC backend: the admin authentication core

    A shallow embedding of [backend/app/auth.py], [backend/app/settings.py]
    and the login routes of [backend/app/routers/admin.py], together with a
    model of the two third-party libraries the module delegates to
    (the [URLSafeTimedSerializer] of itsdangerous and [bcrypt.checkpw]).

    Conventions.
    - A Python [str] is a [string]; a Python [bytes] is a [list ascii].
      [str.encode('utf-8')] is [list_ascii_of_string]: a [string] stands for
      the UTF-8 encoding of the text it holds.
    - [time.time()] is an explicit argument [now : Z] (whole seconds).
    - A Python exception is a value of [exn]; fallible code returns
      [result A] and is sequenced with the monad notation [x ← e; k]. *)

From Stdlib Require Import ZArith NArith Ascii String DecimalString Lia.
From Stdlib Require SpecFloat DecimalN.
From stdpp Require Import base option list gmap strings sorting.

Local Open Scope string_scope.
Local Open Scope list_scope.
Local Open Scope nat_scope.

(** ** Exceptions and results *)

(** The exception classes that can reach the code of [auth.py].  The first
    five are the classes of [itsdangerous.exc]. *)
Inductive exn : Type :=
  | BadData
  | BadSignature
  | BadTimeSignature
  | SignatureExpired
  | BadPayload
  | ValueError
  | StructError
  | HTTPException (status_code : Z) (location : string).

(** [issubclass e c]: the class hierarchy of [itsdangerous.exc]
    ([SignatureExpired < BadTimeSignature < BadSignature < BadData] and
    [BadPayload < BadData]); every other class is only a subclass of
    itself. *)
Definition issubclass (e c : exn) : bool :=
  match c, e with
  | BadData, (BadData | BadSignature | BadTimeSignature | SignatureExpired | BadPayload) => true
  | BadSignature, (BadSignature | BadTimeSignature | SignatureExpired) => true
  | BadTimeSignature, (BadTimeSignature | SignatureExpired) => true
  | SignatureExpired, SignatureExpired => true
  | BadPayload, BadPayload => true
  | ValueError, ValueError => true
  | StructError, StructError => true
  | HTTPException s l, HTTPException s' l' => bool_decide (s = s' ∧ l = l')
  | _, _ => false
  end.

Inductive result (A : Type) : Type :=
  | Return (a : A)
  | Raise (e : exn).
Arguments Return {A} a.
Arguments Raise {A} e.

Global Instance result_ret : MRet result := fun A a => Return a.
Global Instance result_bind : MBind result := fun A B k r =>
  match r with
  | Return a => k a
  | Raise e => Raise e
  end.

(** [try: body except classes: handler]. *)
Definition try_except {A} (body : result A) (classes : list exn) (handler : result A)
  : result A :=
  match body with
  | Return a => Return a
  | Raise e => if existsb (issubclass e) classes then handler else Raise e
  end.

(** ** Bytes *)

Definition bytes := list ascii.

Definition want_bytes (s : string) : bytes := list_ascii_of_string s.
Definition decode_utf8 (b : bytes) : string := string_of_list_ascii b.

Notation "'b[' s ']'" := (list_ascii_of_string s) (at level 0, s at level 0, only parsing).

Definition byte_of_N (n : N) : ascii := ascii_of_N n.
Definition N_of_byte (c : ascii) : N := N_of_ascii c.

(** ** itsdangerous.encoding *)

Module Encoding.

(** The url-safe alphabet of [base64.urlsafe_b64encode]. *)
Definition alphabet : bytes :=
  b["ABCDEFGHIJKLMNOPQRSTUVWXYZabcdefghijklmnopqrstuvwxyz0123456789-_"].

Definition b64_char (v : N) : ascii := nth (N.to_nat v) alphabet "A"%char.

(** [base64_encode]: [base64.urlsafe_b64encode(string).rstrip(b"=")], that
    is the 3-bytes-to-4-characters encoding without the padding. *)
Fixpoint base64_encode (bs : bytes) : bytes :=
  match bs with
  | [] => []
  | [a] =>
      let x := N_of_byte a in
      [b64_char (N.shiftr x 2); b64_char (N.shiftl (N.land x 3) 4)]
  | [a; b] =>
      let x := N_of_byte a in
      let y := N_of_byte b in
      [b64_char (N.shiftr x 2);
       b64_char (N.lor (N.shiftl (N.land x 3) 4) (N.shiftr y 4));
       b64_char (N.shiftl (N.land y 15) 2)]
  | a :: b :: c :: rest =>
      let x := N_of_byte a in
      let y := N_of_byte b in
      let z := N_of_byte c in
      b64_char (N.shiftr x 2)
      :: b64_char (N.lor (N.shiftl (N.land x 3) 4) (N.shiftr y 4))
      :: b64_char (N.lor (N.shiftl (N.land y 15) 2) (N.shiftr z 6))
      :: b64_char (N.land z 63)
      :: base64_encode rest
  end.

(** The decoding table of [binascii.a2b_base64] seen through the
    translation of [base64.urlsafe_b64decode], which maps ['-'] to ['+']
    and ['_'] to ['/'] and leaves ['+'] and ['/'] as they are: both
    spellings of 62 and of 63 decode. *)
Definition b64_value (c : ascii) : option N :=
  let n := N_of_byte c in
  if (65 <=? n)%N && (n <=? 90)%N then Some (n - 65)%N
  else if (97 <=? n)%N && (n <=? 122)%N then Some (n - 71)%N
  else if (48 <=? n)%N && (n <=? 57)%N then Some (n + 4)%N
  else if (n =? 43)%N || (n =? 45)%N then Some 62%N
  else if (n =? 47)%N || (n =? 95)%N then Some 63%N
  else None.

(** The loop of [binascii.a2b_base64] in its default, non-strict mode.
    [quad_pos] is the position inside the current group of four,
    [leftchar] the bits left over from the previous character and [pads]
    the number of ['='] seen since the last data character.  Characters
    outside the alphabet are skipped; a complete pad sequence stops the
    decoding; input that ends inside a group is an error ([None]). *)
Fixpoint a2b_base64 (s : bytes) (quad_pos : nat) (leftchar : N) (pads : nat)
  : option bytes :=
  match s with
  | [] => if decide (quad_pos = 0) then Some [] else None
  | c :: rest =>
      if decide (c = "="%char) then
        if decide (2 ≤ quad_pos) then
          if decide (4 ≤ quad_pos + S pads) then Some []
          else a2b_base64 rest quad_pos leftchar (S pads)
        else a2b_base64 rest quad_pos leftchar pads
      else
        match b64_value c with
        | None => a2b_base64 rest quad_pos leftchar pads
        | Some v =>
            match quad_pos with
            | 0 => a2b_base64 rest 1 v 0
            | 1 =>
                cons (byte_of_N (N.lor (N.shiftl leftchar 2) (N.shiftr v 4)))
                  <$> a2b_base64 rest 2 (N.land v 15) 0
            | 2 =>
                cons (byte_of_N (N.lor (N.shiftl leftchar 4) (N.shiftr v 2)))
                  <$> a2b_base64 rest 3 (N.land v 3) 0
            | _ =>
                cons (byte_of_N (N.lor (N.shiftl leftchar 6) v))
                  <$> a2b_base64 rest 0 0 0
            end
        end
  end.

(** [base64_decode]: pad to a multiple of four with ['='], then
    [base64.urlsafe_b64decode]; [None] stands for the [BadData] it raises
    when the standard library rejects the input. *)
Definition base64_decode (s : bytes) : option bytes :=
  a2b_base64 (s ++ replicate ((4 - length s mod 4) mod 4) "="%char) 0 0 0.

(** [int_to_bytes]: [struct.pack(">Q", num).lstrip(b"\x00")]; packing
    raises [struct.error] outside [0 .. 2^64 - 1]. *)
Fixpoint be_bytes (n : nat) (z : Z) : bytes :=
  match n with
  | O => []
  | S n' => be_bytes n' (z / 256) ++ [byte_of_N (Z.to_N (z mod 256))]
  end.

Fixpoint lstrip0 (b : bytes) : bytes :=
  match b with
  | c :: rest => if decide (c = "000"%char) then lstrip0 rest else b
  | [] => []
  end.

Definition int_to_bytes (num : Z) : result bytes :=
  if decide (0 ≤ num < 2 ^ 64)%Z then Return (lstrip0 (be_bytes 8 num))
  else Raise StructError.

(** [bytes_to_int]: [struct.unpack(">Q", bytestr.rjust(8, b"\x00"))[0]];
    unpacking raises [struct.error] when more than eight bytes are
    given. *)
Definition be_int (b : bytes) : Z :=
  fold_left (fun acc c => (acc * 256 + Z.of_N (N_of_byte c))%Z) b 0%Z.

Definition bytes_to_int (b : bytes) : result Z :=
  if decide (length b ≤ 8) then Return (be_int b) else Raise StructError.

End Encoding.

(** ** Python values *)

(** The values a JSON document decodes to (floats are not modelled); a
    [dict] keeps its insertion order. *)
#[warnings="-register-all"] Inductive pyval : Type :=
  | PyNone
  | PyBool (b : bool)
  | PyInt (z : Z)
  | PyStr (s : string)
  | PyList (l : list pyval)
  | PyDict (d : list (string * pyval)).

(** Truth value testing, as in [if not x:]. *)
Definition truthy (v : pyval) : bool :=
  match v with
  | PyNone => false
  | PyBool b => b
  | PyInt z => negb (z =? 0)%Z
  | PyStr s => negb (bool_decide (s = EmptyString))
  | PyList l => negb (bool_decide (length l = 0))
  | PyDict d => negb (bool_decide (length d = 0))
  end.

(** [d.get(k)] on a [dict] value. *)
Fixpoint assoc_get (k : string) (d : list (string * pyval)) : option pyval :=
  match d with
  | [] => None
  | (k', v) :: rest => if decide (k' = k) then Some v else assoc_get k rest
  end.

(** ** The platform: library primitives taken as given

    The digest, the JSON codec, the compressor and the bcrypt key
    derivation are used as black boxes.  [None] stands for "raises". *)
Class Platform : Type := {
  (** [hashlib.sha1(m).digest()] *)
  sha1_digest : bytes → bytes;
  (** [hmac.new(key, msg=m, digestmod=hashlib.sha1).digest()] *)
  hmac_sha1 : bytes → bytes → bytes;
  (** [json.dumps(obj, ensure_ascii=False, separators=(",", ":"))], encoded *)
  json_dumps : pyval → bytes;
  (** [json.loads(payload.decode("utf-8"))] *)
  json_loads : bytes → option pyval;
  (** [zlib.compress] and [zlib.decompress] *)
  zlib_compress : bytes → bytes;
  zlib_decompress : bytes → option bytes;
  (** The bcrypt key derivation: from the cost, the 22 characters of the
      salt and the password to the 53 characters (salt and digest) that
      follow the last ['$'] of a hash string; [None] when the derivation
      refuses its input. *)
  bcrypt_core : N → bytes → bytes → option bytes;
}.

(** ** itsdangerous (2.x): Signer, TimestampSigner, URLSafeTimedSerializer *)

Module ItsDangerous.
Import Encoding.

Definition sep : ascii := "."%char.

(** [s.rsplit(sep, 1)] when [sep in s], [None] otherwise. *)
Fixpoint rsplit_sep (s : bytes) : option (bytes * bytes) :=
  match s with
  | [] => None
  | c :: rest =>
      match rsplit_sep rest with
      | Some (v, t) => Some (c :: v, t)
      | None => if decide (c = sep) then Some ([], rest) else None
      end
  end.

(** [datetime.fromtimestamp(ts, tz=timezone.utc)]: defined up to the last
    second of year 9999, an error ([ValueError] or [OverflowError],
    modelled by one class) beyond. *)
Definition MAX_TIMESTAMP : Z := 253402300799.

Definition timestamp_to_datetime (ts : Z) : result Z :=
  if decide (ts ≤ MAX_TIMESTAMP)%Z then Return ts else Raise ValueError.

(** A [digest_method], with the HMAC built on it. *)
Record digest_method : Type := {
  md_digest : bytes → bytes;
  md_hmac : bytes → bytes → bytes;
}.

Definition sha1 `{Platform} : digest_method :=
  {| md_digest := sha1_digest; md_hmac := hmac_sha1 |}.

(** [Signer.unsign]: the value, or a [BadSignature] carrying its [payload]
    attribute. *)
Inductive unsigned : Type :=
  | Unsigned (value : bytes)
  | SigError (payload : option bytes).

Section Serializer.
Context `{Platform}.
(** The serializer is built as [URLSafeTimedSerializer(secret_key)]: one
    secret key, salt [b"itsdangerous"], key derivation ["django-concat"],
    digest SHA-1, no fallback signers. *)
Variable secret_key : bytes.

Definition salt : bytes := b["itsdangerous"].

Section Signer.
Variable digest : digest_method.

Definition derive_key : bytes :=
  md_digest digest (salt ++ b["signer"] ++ secret_key).

(** [Signer.get_signature] *)
Definition get_signature (value : bytes) : bytes :=
  base64_encode (md_hmac digest derive_key value).

(** [Signer.verify_signature] *)
Definition verify_signature (value sig : bytes) : bool :=
  match base64_decode sig with
  | None => false
  | Some s => bool_decide (s = md_hmac digest derive_key value)
  end.

Definition Signer_unsign (signed_value : bytes) : unsigned :=
  match rsplit_sep signed_value with
  | None => SigError None
  | Some (value, sig) =>
      if verify_signature value sig then Unsigned value
      else SigError (Some value)
  end.

(** [TimestampSigner.sign] at time [now]. *)
Definition sign (now : Z) (value : bytes) : result bytes :=
  ts ← int_to_bytes now;
  let timestamp := base64_encode ts in
  let value := value ++ [sep] ++ timestamp in
  Return (value ++ [sep] ++ get_signature value).

(** The timestamp field: [bytes_to_int(base64_decode(ts_bytes))] inside a
    [try] that swallows every exception. *)
Definition read_timestamp (ts_bytes : bytes) : option Z :=
  match base64_decode ts_bytes with
  | None => None
  | Some b =>
      match bytes_to_int b with
      | Return z => Some z
      | Raise _ => None
      end
  end.

(** [TimestampSigner.unsign(signed_value, max_age, return_timestamp=True)]
    at time [now]. *)
Definition unsign (now max_age : Z) (signed_value : bytes) : result (bytes * Z) :=
  let '(result, sig_error) :=
    match Signer_unsign signed_value with
    | Unsigned v => (v, false)
    | SigError p => (default [] p, true)
    end in
  match rsplit_sep result with
  | None => if sig_error then Raise BadSignature else Raise BadTimeSignature
  | Some (value, ts_bytes) =>
      let ts_int := read_timestamp ts_bytes in
      if sig_error then Raise BadTimeSignature
      else
        match ts_int with
        | None => Raise BadTimeSignature
        | Some ts_int =>
            let age := (now - ts_int)%Z in
            if decide (age > max_age)%Z then
              _ ← timestamp_to_datetime ts_int; Raise SignatureExpired
            else if decide (age < 0)%Z then
              _ ← timestamp_to_datetime ts_int; Raise SignatureExpired
            else
              dt ← timestamp_to_datetime ts_int; Return (value, dt)
        end
  end.

End Signer.

(** [URLSafeSerializerMixin.dump_payload] *)
Definition dump_payload (obj : pyval) : bytes :=
  let json := json_dumps obj in
  let compressed := zlib_compress json in
  if decide (Z.of_nat (length compressed) < Z.of_nat (length json) - 1)%Z
  then sep :: base64_encode compressed
  else base64_encode json.

(** [URLSafeSerializerMixin.load_payload] *)
Definition load_payload (payload : bytes) : result pyval :=
  let '(payload, decompress) :=
    match payload with
    | c :: rest => if decide (c = sep) then (rest, true) else (payload, false)
    | [] => (payload, false)
    end in
  match base64_decode payload with
  | None => Raise BadPayload
  | Some json =>
      match (if decompress then zlib_decompress json else Some json) with
      | None => Raise BadPayload
      | Some json =>
          match json_loads json with
          | None => Raise BadPayload
          | Some obj => Return obj
          end
      end
  end.

(** [Serializer.dumps] at time [now]: signed by the first signer. *)
Definition dumps (now : Z) (obj : pyval) : result string :=
  rv ← sign sha1 now (dump_payload obj);
  Return (decode_utf8 rv).

(** [Serializer.iter_unsigners]: one signer per secret key and fallback;
    here the signer itself and nothing else. *)
Definition iter_unsigners : list digest_method := [sha1].

(** The loop of [TimedSerializer.loads]: a [SignatureExpired] is raised at
    once, any other [BadSignature] is kept while the next signer is tried
    and raised when none is left; other exceptions are not caught. *)
Fixpoint loads_loop (unsigners : list digest_method) (last_exception : exn)
    (now max_age : Z) (s : bytes) : result pyval :=
  match unsigners with
  | [] => Raise last_exception
  | signer :: rest =>
      match ('(base64d, _) ← unsign signer now max_age s; load_payload base64d) with
      | Return payload => Return payload
      | Raise e =>
          if issubclass e SignatureExpired then Raise e
          else if issubclass e BadSignature then loads_loop rest e now max_age s
          else Raise e
      end
  end.

(** [TimedSerializer.loads(s, max_age=max_age)] at time [now]. *)
Definition loads (now : Z) (s : string) (max_age : Z) : result pyval :=
  loads_loop iter_unsigners BadSignature now max_age (want_bytes s).

End Serializer.
End ItsDangerous.

(** ** bcrypt (4.x): [hashpw] and [checkpw] *)

Module Bcrypt.

(** [s.split(c)] *)
Fixpoint split_on (c : ascii) (s : bytes) : list bytes :=
  match s with
  | [] => [[]]
  | x :: rest =>
      if decide (x = c) then [] :: split_on c rest
      else
        match split_on c rest with
        | p :: ps => (x :: p) :: ps
        | [] => [[x]]
        end
  end.

Definition digit_value (c : ascii) : option N :=
  let n := N_of_byte c in
  if (48 <=? n)%N && (n <=? 57)%N then Some (n - 48)%N else None.

(** The cost field, read as an unsigned 32-bit decimal number (an optional
    leading ['+'], then at least one digit). *)
Definition parse_digits (s : bytes) : option N :=
  foldl (fun acc c => a ← acc; d ← digit_value c; Some (10 * a + d)%N) (Some 0%N) s.

Definition parse_u32 (s : bytes) : option N :=
  let digits :=
    match s with
    | c :: rest => if decide (c = "+"%char) then rest else s
    | [] => s
    end in
  match digits with
  | [] => None
  | _ => n ← parse_digits digits; if decide (n < 2 ^ 32)%N then Some n else None
  end.

(** The cost is written back with two digits at least. *)
Definition format_cost (cost : N) : bytes :=
  let d := list_ascii_of_string (DecimalString.NilZero.string_of_uint (N.to_uint cost)) in
  if decide (cost < 10)%N then "0"%char :: d else d.

(** The fields of a salt or hash string [$version$cost$rest]: the version
    tag, the cost and the characters after the last ['$']. *)
Definition parse_salt (salt : bytes) : option (bytes * N * bytes) :=
  match filter (fun p => p ≠ []) (split_on "$"%char salt) with
  | [version; cost; remaining] =>
      if decide (version ∈ [b["2a"]; b["2b"]; b["2x"]; b["2y"]]) then
        c ← parse_u32 cost;
        if decide (22 ≤ length remaining) then Some (version, c, remaining)
        else None
      else None
  | _ => None
  end.

Section Hashing.
Context `{Platform}.

(** [bcrypt.hashpw(password, salt)]; every failure is the [ValueError]
    "Invalid salt". *)
Definition hashpw (password salt : bytes) : result bytes :=
  match parse_salt salt with
  | None => Raise ValueError
  | Some (version, cost, remaining) =>
      match bcrypt_core cost (take 22 remaining) password with
      | None => Raise ValueError
      | Some hashed =>
          Return (b["$"] ++ version ++ b["$"] ++ format_cost cost ++ b["$"] ++ hashed)
      end
  end.

(** [bcrypt.checkpw(password, hashed_password)]: hash again with the stored
    string as the salt and compare. *)
Definition checkpw (password hashed_password : bytes) : result bool :=
  ret ← hashpw password hashed_password;
  Return (bool_decide (ret = hashed_password)).

End Hashing.
End Bcrypt.

(** ** app/settings.py *)

(** The two settings the authentication code reads; both come from the
    environment. *)
Record Settings : Type := {
  SECRET_KEY : string;
  ADMIN_SESSION_EXPIRE_MINUTES : Z;
}.

(** The values used when the environment sets nothing. *)
Definition default_settings : Settings := {|
  SECRET_KEY := "change-this-secret-key-in-production-kiosque-du-parc-2024";
  ADMIN_SESSION_EXPIRE_MINUTES := 480;
|}.

(** ** app/models.py, and the web framework's requests and responses *)

Record Admin : Type := {
  id : Z;
  username : string;
  password_hash : string;
  is_active : bool;
}.

(** The [admins] table as the rows a query visits, in order. *)
Definition Session := list Admin.

Record Request : Type := {
  cookies : gmap string string;
}.

Record Cookie : Type := {
  cookie_value : string;
  cookie_max_age : option Z;
  cookie_expires : option Z;
  cookie_httponly : bool;
  cookie_samesite : option string;
}.

Inductive Content : Type :=
  | Redirect (url : string)
  | Template (name : string) (request : Request) (error : option string).

(** A response: what it shows, its status and the [Set-Cookie] headers in
    the order they were added. *)
Record Response : Type := {
  content : Content;
  status_code : Z;
  set_cookie_headers : list (string * Cookie);
}.

Definition RedirectResponse (url : string) (status : Z) : Response :=
  {| content := Redirect url; status_code := status; set_cookie_headers := [] |}.

Definition TemplateResponse (name : string) (request : Request) (error : option string)
  : Response :=
  {| content := Template name request error; status_code := 200;
     set_cookie_headers := [] |}.

(** [response.set_cookie(key, value, max_age, httponly, samesite)] *)
Definition set_cookie (response : Response) (key : string) (c : Cookie) : Response :=
  {| content := content response; status_code := status_code response;
     set_cookie_headers := set_cookie_headers response ++ [(key, c)] |}.

(** [response.delete_cookie(key)]: an empty cookie that has already
    expired. *)
Definition delete_cookie (response : Response) (key : string) : Response :=
  set_cookie response key
    {| cookie_value := EmptyString; cookie_max_age := Some 0%Z; cookie_expires := Some 0%Z;
       cookie_httponly := false; cookie_samesite := Some "lax" |}.

(** ** app/auth.py *)

Section Auth.
Context `{Platform}.
Variable settings : Settings.

(** [serializer = URLSafeTimedSerializer(SECRET_KEY)] *)
Definition serializer_key : bytes := want_bytes (SECRET_KEY settings).

Definition SESSION_COOKIE_NAME : string := "kdp_admin_session".

(** [hash_password], with the salt that [bcrypt.gensalt()] drew. *)
Definition hash_password (gensalt : bytes) (password : string) : result string :=
  let password_bytes := want_bytes password in
  hashed ← Bcrypt.hashpw password_bytes gensalt;
  Return (decode_utf8 hashed).

Definition verify_password (plain_password hashed_password : string) : result bool :=
  let password_bytes := want_bytes plain_password in
  let hashed_bytes := want_bytes hashed_password in
  Bcrypt.checkpw password_bytes hashed_bytes.

Definition create_session_token (now : Z) (admin_id : Z) (username : string)
  : result string :=
  let data := PyDict [("admin_id", PyInt admin_id); ("username", PyStr username)] in
  ItsDangerous.dumps serializer_key now data.

Definition verify_session_token (now : Z) (token : string) : result pyval :=
  try_except
    (let max_age := (ADMIN_SESSION_EXPIRE_MINUTES settings * 60)%Z in
     data ← ItsDangerous.loads serializer_key now token max_age;
     Return data)
    [BadSignature; SignatureExpired]
    (Return PyNone).

Definition authenticate_admin (db : Session) (username_ password : string)
  : result (option Admin) :=
  let admin := find (fun a => bool_decide (username a = username_)) db in
  match admin with
  | None => Return None
  | Some a =>
      if negb (is_active a) then Return None
      else
        ok ← verify_password password (password_hash a);
        if negb ok then Return None
        else Return (Some a)
  end.

Definition get_current_admin (now : Z) (request : Request) : result pyval :=
  match cookies request !! SESSION_COOKIE_NAME with
  | None => Return PyNone
  | Some token =>
      if bool_decide (token = EmptyString) then Return PyNone
      else verify_session_token now token
  end.

Definition require_admin (now : Z) (request : Request) : result pyval :=
  admin_data ← get_current_admin now request;
  if negb (truthy admin_data) then Raise (HTTPException 303 "/admin/login")
  else Return admin_data.

Definition set_session_cookie (now : Z) (response : Response) (admin : Admin)
  : result Response :=
  token ← create_session_token now (id admin) (username admin);
  Return (set_cookie response SESSION_COOKIE_NAME
            {| cookie_value := token;
               cookie_max_age := Some (ADMIN_SESSION_EXPIRE_MINUTES settings * 60)%Z;
               cookie_expires := None;
               cookie_httponly := true;
               cookie_samesite := Some "lax" |}).

Definition clear_session_cookie (response : Response) : Response :=
  delete_cookie response SESSION_COOKIE_NAME.

(** ** app/routers/admin.py: the authentication routes *)

Definition admin_required (now : Z) (request : Request) : result pyval :=
  admin_data ← get_current_admin now request;
  if negb (truthy admin_data) then Raise (HTTPException 303 "/admin/login")
  else Return admin_data.

(** [GET /admin/login] *)
Definition login_page (now : Z) (request : Request) : result Response :=
  current ← get_current_admin now request;
  if truthy current then Return (RedirectResponse "/admin" 303)
  else Return (TemplateResponse "admin/login.html" request None).

(** [POST /admin/login] *)
Definition login_submit (now : Z) (db : Session) (request : Request)
    (username_ password : string) : result Response :=
  admin ← authenticate_admin db username_ password;
  match admin with
  | None =>
      Return (TemplateResponse "admin/login.html" request
                (Some "Identifiants invalides"))
  | Some a =>
      let response := RedirectResponse "/admin" 303 in
      set_session_cookie now response a
  end.

(** [GET /admin/logout] *)
Definition logout (request : Request) : Response :=
  let response := RedirectResponse "/admin/login" 303 in
  clear_session_cookie response.

End Auth.

(** ** A reference platform

    Executable versions of the primitives, used to run the model on
    concrete inputs: SHA-1 (FIPS 180-4) and HMAC (RFC 2104) as specified,
    compact JSON for the values of [pyval], zlib's stored (level 0) format
    for the compressor, and for bcrypt a keyed digest of the same shape in
    place of the Blowfish key schedule, which is not transcribed. *)

Module SHA1.

Definition mask32 : N := 0xFFFFFFFF.
Definition add32 (x y : N) : N := N.land (x + y) mask32.
Definition rotl (n x : N) : N :=
  N.land (N.lor (N.shiftl x n) (N.shiftr x (32 - n))) mask32.
Definition not32 (x : N) : N := N.lxor x mask32.

(** Big-endian words. *)
Definition be_N (b : bytes) : N :=
  fold_left (fun acc c => (acc * 256 + N_of_byte c)%N) b 0%N.

Fixpoint N_be (n : nat) (x : N) : bytes :=
  match n with
  | O => []
  | S n' => N_be n' (N.shiftr x 8) ++ [byte_of_N (N.land x 255)]
  end.

(** Padding: a one bit, zeros up to 56 modulo 64, the bit length on 8
    bytes. *)
Definition pad (m : bytes) : bytes :=
  let l := length m in
  m ++ ["128"%char] ++ replicate ((119 - l mod 64) mod 64) "000"%char
    ++ N_be 8 (8 * N.of_nat l).

Fixpoint chunks (fuel n : nat) (b : bytes) : list bytes :=
  match fuel, b with
  | O, _ | _, [] => []
  | S f, _ => take n b :: chunks f n (drop n b)
  end.

(** The message schedule, most recent word first. *)
Fixpoint schedule (n : nat) (w : list N) : list N :=
  match n with
  | O => w
  | S n' =>
      let x := N.lxor (N.lxor (nth 2 w 0%N) (nth 7 w 0%N))
                      (N.lxor (nth 13 w 0%N) (nth 15 w 0%N)) in
      schedule n' (rotl 1 x :: w)
  end.

Definition state : Type := N * N * N * N * N.

Definition round (t : nat) (st : state) (w : N) : state :=
  let '(a, b, c, d, e) := st in
  let '(f, k) :=
    if decide (t < 20) then
      (N.lor (N.land b c) (N.land (not32 b) d), 0x5A827999%N)
    else if decide (t < 40) then
      (N.lxor (N.lxor b c) d, 0x6ED9EBA1%N)
    else if decide (t < 60) then
      (N.lor (N.lor (N.land b c) (N.land b d)) (N.land c d), 0x8F1BBCDC%N)
    else
      (N.lxor (N.lxor b c) d, 0xCA62C1D6%N) in
  let temp := add32 (add32 (add32 (add32 (rotl 5 a) f) e) k) w in
  (temp, a, rotl 30 b, c, d).

Fixpoint rounds (t : nat) (ws : list N) (st : state) : state :=
  match ws with
  | [] => st
  | w :: ws' => rounds (S t) ws' (round t st w)
  end.

Definition compress (h : state) (block : bytes) : state :=
  let w16 := be_N <$> chunks 16 4 block in
  let ws := rev (schedule 64 (rev w16)) in
  let '(a, b, c, d, e) := rounds 0 ws h in
  let '(h0, h1, h2, h3, h4) := h in
  (add32 h0 a, add32 h1 b, add32 h2 c, add32 h3 d, add32 h4 e).

Definition init : state :=
  (0x67452301, 0xEFCDAB89, 0x98BADCFE, 0x10325476, 0xC3D2E1F0)%N.

Definition digest (m : bytes) : bytes :=
  let p := pad m in
  let '(h0, h1, h2, h3, h4) := fold_left compress (chunks (length p) 64 p) init in
  N_be 4 h0 ++ N_be 4 h1 ++ N_be 4 h2 ++ N_be 4 h3 ++ N_be 4 h4.

(** HMAC with SHA-1 (block size 64). *)
Definition xor_pad (p : N) (key : bytes) : bytes :=
  (fun c => byte_of_N (N.lxor (N_of_byte c) p)) <$> key.

Definition hmac (key m : bytes) : bytes :=
  let k := if decide (64 < length key) then digest key else key in
  let k := k ++ replicate (64 - length k) "000"%char in
  digest (xor_pad 0x5c k ++ digest (xor_pad 0x36 k ++ m)).

End SHA1.

Module JSON.

Definition quote : ascii := "034"%char.
Definition backslash : ascii := "092"%char.

Definition hex_digit (n : N) : ascii :=
  nth (N.to_nat n) b["0123456789abcdef"] "0"%char.

(** The escapes of [json.dumps(..., ensure_ascii=False)]. *)
Definition escape_char (c : ascii) : bytes :=
  let n := N_of_byte c in
  if decide (c = quote) then [backslash; quote]
  else if decide (c = backslash) then [backslash; backslash]
  else if decide (n = 8)%N then [backslash; "b"%char]
  else if decide (n = 12)%N then [backslash; "f"%char]
  else if decide (n = 10)%N then [backslash; "n"%char]
  else if decide (n = 13)%N then [backslash; "r"%char]
  else if decide (n = 9)%N then [backslash; "t"%char]
  else if decide (n < 32)%N then
    [backslash; "u"%char; "0"%char; "0"%char; hex_digit (n / 16); hex_digit (n mod 16)]
  else [c].

Definition dump_string (s : string) : bytes :=
  quote :: concat (escape_char <$> list_ascii_of_string s) ++ [quote].

Definition dump_int (z : Z) : bytes :=
  list_ascii_of_string (NilZero.string_of_int (Z.to_int z)).

(** Compact JSON: separators [","] and [":"], no spaces. *)
Fixpoint dumps (v : pyval) : bytes :=
  match v with
  | PyNone => b["null"]
  | PyBool true => b["true"]
  | PyBool false => b["false"]
  | PyInt z => dump_int z
  | PyStr s => dump_string s
  | PyList l =>
      "["%char ::
      (fix items (l : list pyval) : bytes :=
         match l with
         | [] => []
         | [x] => dumps x
         | x :: rest => dumps x ++ ","%char :: items rest
         end) l ++ ["]"%char]
  | PyDict d =>
      "{"%char ::
      (fix members (d : list (string * pyval)) : bytes :=
         match d with
         | [] => []
         | [(k, x)] => dump_string k ++ ":"%char :: dumps x
         | (k, x) :: rest => dump_string k ++ ":"%char :: dumps x ++ ","%char :: members rest
         end) d ++ ["}"%char]
  end.

Definition hex_value (c : ascii) : option N :=
  let n := N_of_byte c in
  if (48 <=? n)%N && (n <=? 57)%N then Some (n - 48)%N
  else if (97 <=? n)%N && (n <=? 102)%N then Some (n - 87)%N
  else if (65 <=? n)%N && (n <=? 70)%N then Some (n - 55)%N
  else None.

Definition unescape (c : ascii) : option ascii :=
  if decide (c = quote) then Some quote
  else if decide (c = backslash) then Some backslash
  else if decide (c = "/"%char) then Some "/"%char
  else if decide (c = "b"%char) then Some "008"%char
  else if decide (c = "f"%char) then Some "012"%char
  else if decide (c = "n"%char) then Some "010"%char
  else if decide (c = "r"%char) then Some "013"%char
  else if decide (c = "t"%char) then Some "009"%char
  else None.

(** The characters of a string literal after its opening quote, and what
    follows its closing quote.  Only the [\u00XX] escapes below 128 are
    read. *)
Fixpoint parse_string (s : bytes) : option (bytes * bytes) :=
  match s with
  | [] => None
  | c :: rest =>
      if decide (c = quote) then Some ([], rest)
      else if decide (c = backslash) then
        match rest with
        | [] => None
        | e :: rest' =>
            if decide (e = "u"%char) then
              match rest' with
              | h1 :: h2 :: h3 :: h4 :: rest'' =>
                  a ← hex_value h1; b ← hex_value h2;
                  c ← hex_value h3; d ← hex_value h4;
                  let code := (((a * 16 + b) * 16 + c) * 16 + d)%N in
                  if decide (code < 128)%N then
                    '(t, r) ← parse_string rest''; Some (byte_of_N code :: t, r)
                  else None
              | _ => None
              end
            else
              x ← unescape e;
              '(t, r) ← parse_string rest'; Some (x :: t, r)
        end
      else if decide (N_of_byte c < 32)%N then None
      else '(t, r) ← parse_string rest; Some (c :: t, r)
  end.

Definition is_digit (c : ascii) : bool :=
  let n := N_of_byte c in (48 <=? n)%N && (n <=? 57)%N.

Fixpoint span_digits (s : bytes) : bytes * bytes :=
  match s with
  | c :: rest =>
      if is_digit c then let '(d, r) := span_digits rest in (c :: d, r)
      else ([], s)
  | [] => ([], [])
  end.

Definition digits_value (d : bytes) : Z :=
  fold_left (fun acc c => (acc * 10 + (Z.of_N (N_of_byte c) - 48))%Z) d 0%Z.

(** An integer literal: no leading zero, and not the start of a float. *)
Definition parse_nat (s : bytes) : option (Z * bytes) :=
  let '(d, r) := span_digits s in
  match d with
  | [] => None
  | c :: d' =>
      if decide (c = "0"%char ∧ d' ≠ []) then None
      else
        match r with
        | x :: _ =>
            if decide (x ∈ [("."%char : ascii); "e"%char; "E"%char]) then None
            else Some (digits_value d, r)
        | [] => Some (digits_value d, r)
        end
  end.

Fixpoint parse_value (fuel : nat) (s : bytes) : option (pyval * bytes) :=
  match fuel with
  | O => None
  | S f =>
      match s with
      | [] => None
      | c :: rest =>
          if decide (c = quote) then
            '(t, r) ← parse_string rest; Some (PyStr (string_of_list_ascii t), r)
          else if decide (c = "-"%char) then
            '(z, r) ← parse_nat rest; Some (PyInt (- z), r)
          else if is_digit c then
            '(z, r) ← parse_nat s; Some (PyInt z, r)
          else if decide (c = "["%char) then
            match rest with
            | x :: rest' =>
                if decide (x = "]"%char) then Some (PyList [], rest')
                else '(l, r) ← parse_items f rest; Some (PyList l, r)
            | [] => None
            end
          else if decide (c = "{"%char) then
            match rest with
            | x :: rest' =>
                if decide (x = "}"%char) then Some (PyDict [], rest')
                else '(d, r) ← parse_members f rest; Some (PyDict d, r)
            | [] => None
            end
          else
            match s with
            | "n"%char :: "u"%char :: "l"%char :: "l"%char :: r => Some (PyNone, r)
            | "t"%char :: "r"%char :: "u"%char :: "e"%char :: r => Some (PyBool true, r)
            | "f"%char :: "a"%char :: "l"%char :: "s"%char :: "e"%char :: r =>
                Some (PyBool false, r)
            | _ => None
            end
      end
  end
with parse_items (fuel : nat) (s : bytes) : option (list pyval * bytes) :=
  match fuel with
  | O => None
  | S f =>
      '(v, r) ← parse_value f s;
      match r with
      | x :: r' =>
          if decide (x = ","%char) then
            '(l, r'') ← parse_items f r'; Some (v :: l, r'')
          else if decide (x = "]"%char) then Some ([v], r')
          else None
      | [] => None
      end
  end
with parse_members (fuel : nat) (s : bytes) : option (list (string * pyval) * bytes) :=
  match fuel with
  | O => None
  | S f =>
      match s with
      | q :: s' =>
          if decide (q = quote) then
            '(k, r) ← parse_string s';
            match r with
            | colon :: r0 =>
                if decide (colon = ":"%char) then
                  '(v, r1) ← parse_value f r0;
                  match r1 with
                  | x :: r' =>
                      if decide (x = ","%char) then
                        '(d, r'') ← parse_members f r';
                        Some ((string_of_list_ascii k, v) :: d, r'')
                      else if decide (x = "}"%char) then
                        Some ([(string_of_list_ascii k, v)], r')
                      else None
                  | [] => None
                  end
                else None
            | [] => None
            end
          else None
      | [] => None
      end
  end.

(** A whole document, without surrounding white space. *)
Definition loads (s : bytes) : option pyval :=
  match parse_value (S (length s)) s with
  | Some (v, []) => Some v
  | _ => None
  end.

End JSON.

Module Zlib.

(** Adler-32 of the data. *)
Definition adler32 (b : bytes) : N :=
  let '(s1, s2) :=
    fold_left (fun '(s1, s2) c =>
                 let s1' := ((s1 + N_of_byte c) mod 65521)%N in
                 (s1', ((s2 + s1') mod 65521)%N)) b (1%N, 0%N) in
  (s2 * 65536 + s1)%N.

Definition le16 (n : N) : bytes := [byte_of_N (N.land n 255); byte_of_N (N.shiftr n 8)].

(** Stored deflate blocks of at most 65535 bytes, the last one flagged. *)
Fixpoint stored_blocks (fuel : nat) (b : bytes) : bytes :=
  match fuel with
  | O => []
  | S f =>
      let chunk := take (N.to_nat 65535) b in
      let rest := drop (N.to_nat 65535) b in
      let final := bool_decide (rest = []) in
      let n := N.of_nat (length chunk) in
      [if final then "001"%char else "000"%char]
        ++ le16 n ++ le16 (N.lxor n 65535) ++ chunk
        ++ (if final then [] else stored_blocks f rest)
  end.

(** [zlib.compress(data, 0)] *)
Definition compress (b : bytes) : bytes :=
  ["120"%char; "001"%char] ++ stored_blocks (S (length b)) b ++ SHA1.N_be 4 (adler32 b).

Fixpoint read_blocks (fuel : nat) (s : bytes) : option (bytes * bytes) :=
  match fuel with
  | O => None
  | S f =>
      match s with
      | hd :: l0 :: l1 :: n0 :: n1 :: rest =>
          let n := (N_of_byte l0 + 256 * N_of_byte l1)%N in
          let m := (N_of_byte n0 + 256 * N_of_byte n1)%N in
          if decide (m = N.lxor n 65535 ∧ N.to_nat n ≤ length rest) then
            let chunk := take (N.to_nat n) rest in
            let rest' := drop (N.to_nat n) rest in
            if decide (hd = "001"%char) then Some (chunk, rest')
            else if decide (hd = "000"%char) then
              '(more, r) ← read_blocks f rest'; Some (chunk ++ more, r)
            else None
          else None
      | _ => None
      end
  end.

(** [zlib.decompress], for streams made of stored blocks. *)
Definition decompress (s : bytes) : option bytes :=
  match s with
  | "120"%char :: flg :: body =>
      if decide ((30720 + N_of_byte flg) mod 31 = 0)%N then
        '(data, trailer) ← read_blocks (length body) body;
        if decide (trailer = SHA1.N_be 4 (adler32 data)) then Some data else None
      else None
  | _ => None
  end.

End Zlib.

Module BcryptStandIn.

Definition bcrypt_alphabet : bytes :=
  b["./ABCDEFGHIJKLMNOPQRSTUVWXYZabcdefghijklmnopqrstuvwxyz0123456789"].

(** Same interface as the bcrypt derivation: cost between 4 and 31, a salt
    of 22 characters of the bcrypt alphabet, and 53 characters out (the
    salt, then 31 characters of digest). *)
Definition core (cost : N) (salt password : bytes) : option bytes :=
  if decide ((4 ≤ cost ≤ 31)%N ∧ length salt = 22
             ∧ Forall (fun c => c ∈ bcrypt_alphabet) salt) then
    let d := SHA1.hmac (salt ++ [byte_of_N cost]) password in
    Some (salt ++ Encoding.base64_encode (d ++ take 3 (SHA1.digest d)))
  else None.

End BcryptStandIn.

Definition reference_platform : Platform := {|
  sha1_digest := SHA1.digest;
  hmac_sha1 := SHA1.hmac;
  json_dumps := JSON.dumps;
  json_loads := JSON.loads;
  zlib_compress := Zlib.compress;
  zlib_decompress := Zlib.decompress;
  bcrypt_core := BcryptStandIn.core;
|}.



(** * Definitions used by the statements and their proofs *)

Module Support.
Import Encoding ItsDangerous.

(** ** Bytes, exhaustively *)

Definition all_bytes : list ascii := ascii_of_nat <$> seq 0 256.

(** ** The decoder, character by character *)

Definition pad_char : ascii := "="%char.

(** What the decoder needs to know about one character of the encoder's
    output: it is a data character, and its value. *)
Definition writes (c : ascii) (v : N) : bool :=
  bool_decide (c ≠ pad_char) && bool_decide (b64_value c = Some v).


Definition sextet2 (x y : N) : N := N.lor (N.shiftl (N.land x 3) 4) (N.shiftr y 4).
Definition sextet3 (y z : N) : N := N.lor (N.shiftl (N.land y 15) 2) (N.shiftr z 6).

Definition char1_ok (a : ascii) : bool :=
  let x := N_of_byte a in writes (b64_char (N.shiftr x 2)) (N.shiftr x 2).

Definition char2_ok (a b : ascii) : bool :=
  let x := N_of_byte a in
  let y := N_of_byte b in
  let v := sextet2 x y in
  writes (b64_char v) v
  && bool_decide (byte_of_N (N.lor (N.shiftl (N.shiftr x 2) 2) (N.shiftr v 4)) = a)
  && bool_decide (N.land v 15 = N.shiftr y 4).

Definition char3_ok (b c : ascii) : bool :=
  let y := N_of_byte b in
  let z := N_of_byte c in
  let v := sextet3 y z in
  writes (b64_char v) v
  && bool_decide (byte_of_N (N.lor (N.shiftl (N.shiftr y 4) 4) (N.shiftr v 2)) = b)
  && bool_decide (N.land v 3 = N.shiftr z 6).

Definition char4_ok (c : ascii) : bool :=
  let z := N_of_byte c in
  writes (b64_char (N.land z 63)) (N.land z 63)
  && bool_decide (byte_of_N (N.lor (N.shiftl (N.shiftr z 6) 6) (N.land z 63)) = c).

(** The pad [base64_decode] appends to a string of [n] characters. *)
Definition padding (n : nat) : bytes := replicate ((4 - n mod 4) mod 4) pad_char.


(** Bytes in hexadecimal, to state test vectors. *)
Definition hex (b : bytes) : string :=
  string_of_list_ascii
    (concat ((fun c =>
                let n := N_of_byte c in
                [JSON.hex_digit (n / 16); JSON.hex_digit (n mod 16)]) <$> b)).

(** ** Tokens *)

(** The two library contracts a payload relies on: JSON reads back what it
    wrote, and zlib inflates what it deflated. *)
Definition codec_roundtrips `{Platform} (obj : pyval) : Prop :=
  json_loads (json_dumps obj) = Some obj
  ∧ zlib_decompress (zlib_compress (json_dumps obj)) = Some (json_dumps obj).

(** No signer of the serializer accepts the signature of [s]. *)
Definition signature_rejected `{Platform} (key s : bytes) : Prop :=
  ∀ md, md ∈ iter_unsigners → ∃ p, Signer_unsign key md s = SigError p.

(** The signature of [s] verifies, over the payload field [value] and a
    timestamp field that reads [ts]. *)
Definition signed_at `{Platform} (key s value : bytes) (ts : Z) : Prop :=
  ∃ ts_bytes,
    Signer_unsign key sha1 s = Unsigned (value ++ sep :: ts_bytes)
    ∧ (sep ∉ ts_bytes)
    ∧ read_timestamp ts_bytes = Some ts.

(** The two halves [Signer.unsign] splits a token into. *)
Definition signed_part (s : bytes) : bytes :=
  match rsplit_sep s with
  | Some (value, _) => value
  | None => s
  end.


(** Overwriting the character at position [i] of a token. *)
Definition overwrite (i : nat) (c : ascii) (token : string) : string :=
  decode_utf8 (<[i:=c]> (want_bytes token)).

(** ** Sessions and logins *)

(** What [create_session_token] signs for an administrator. *)
Definition session_data (a : Admin) : pyval :=
  PyDict [("admin_id", PyInt (id a)); ("username", PyStr (username a))].

(** The cookie [set_session_cookie] writes around a token. *)
Definition session_cookie (settings : Settings) (token : string) : Cookie :=
  {| cookie_value := token;
     cookie_max_age := Some (ADMIN_SESSION_EXPIRE_MINUTES settings * 60)%Z;
     cookie_expires := None;
     cookie_httponly := true;
     cookie_samesite := Some "lax" |}.

(** The page every refused login attempt is answered with. *)
Definition invalid_credentials_page (request : Request) : Response :=
  TemplateResponse "admin/login.html" request (Some "Identifiants invalides").

(** What the guards answer to a caller without a session. *)
Definition denied : exn := HTTPException 303 "/admin/login".

(** A hash string of the shape bcrypt reads: cut at every ['$'], its pieces
    that are not empty are exactly three, a version tag, a cost and at least
    22 further characters. *)
Definition bcrypt_shaped (hashed : bytes) : Prop :=
  ∃ version cost remaining,
    filter (fun p => p ≠ []) (Bcrypt.split_on "$"%char hashed)
    = [version; cost; remaining]
    ∧ version ∈ [b["2a"]; b["2b"]; b["2x"]; b["2y"]]
    ∧ is_Some (Bcrypt.parse_u32 cost)
    ∧ 22 ≤ length remaining.


End Support.

(** ** Sample data

    The scenario of the specification: administrator [alice] with password
    [S3cret!], on the reference platform with the default settings. *)

Module Sample.

Definition alice_hash : string :=
  "$2b$12$abcdefghijklmnopqrstuuh9m0lQmn_yrWOVIEJAJccNuj9TMisk0".

Definition alice : Admin :=
  {| id := 1; username := "alice"; password_hash := alice_hash; is_active := true |}.

(** A second administrator, with the same password, who was deactivated. *)
Definition bob : Admin :=
  {| id := 2; username := "bob"; password_hash := alice_hash; is_active := false |}.

Definition db : Session := [alice; bob].




(** 2024-10-27 03:33:20 UTC. *)
Definition login_time : Z := 1730000000.

Definition session_seconds : Z := 480 * 60.

(** The token alice is given when she logs in at [login_time]. *)
Definition alice_token : string :=
  "eyJhZG1pbl9pZCI6MSwidXNlcm5hbWUiOiJhbGljZSJ9.Zx20gA.HPt4Yg_27kggXdUc8GLgqJ35kuM".

(** A token that was not signed by this server: alice's with its first
    character overwritten. *)
Definition forged_token : string := Support.overwrite 0 "f" alice_token.

Definition with_session (token : string) : Request :=
  {| cookies := {[ SESSION_COOKIE_NAME := token ]} |}.

Definition no_session : Request := {| cookies := ∅ |}.

End Sample.

(** * The data layer, the public API and the dashboard

    A shallow embedding of [backend/app/models.py], [backend/app/crud.py],
    [backend/app/seed.py], [backend/app/create_admin.py],
    [backend/app/routers/api.py] and the protected routes of
    [backend/app/routers/admin.py].

    Conventions.
    - The database is a value of [DB.t], one list of rows per table, each in
      the order of its primary key.  Code that writes to the database takes
      the database and returns it with its result; a call that raises
      returns the database as its last commit left it.
    - A keyword argument that is absent and one that is [None] are both
      [None], except where the code tells them apart ([update_location]).
    - A Python [float] is a [spec_float], a [datetime] a number of
      microseconds.
    - A key that is looked up is an integer the driver can bind, a
      [sqlite_integer]: the three lookups by key, [get_product],
      [get_schedule] and [get_contact_message], give what the query gives
      for such a key, and the statements about a key assume one.  For any
      other integer the driver raises [OverflowError] where the query is
      run. *)

(** ** Exceptions and outcomes *)

(** What can be raised by the code of this part: an exception of the first
    part, the [IntegrityError] of a refused commit, the [OverflowError] of
    an integer that the database driver cannot bind, an [HTTPException] with
    a [detail] text, and [SystemExit]. *)
Inductive error : Type :=
  | PyError (e : exn)
  | IntegrityError
  | OverflowError
  | HTTPError (status_code : Z) (detail : string)
  | SystemExit (code : Z).

Inductive outcome (A : Type) : Type :=
  | Done (a : A)
  | Failed (e : error).
Arguments Done {A} a.
Arguments Failed {A} e.

Definition lift {A} (r : result A) : outcome A :=
  match r with
  | Return a => Done a
  | Raise e => Failed (PyError e)
  end.

(** [isinstance(e, Exception)]: what [except Exception] catches. *)
Definition is_Exception (e : error) : bool :=
  match e with
  | SystemExit _ => false
  | _ => true
  end.

(** ** Python idioms *)

Definition float : Type := SpecFloat.spec_float.
Definition datetime : Type := Z.

(** [bool(s)] for a string. *)
Definition nonempty (s : string) : bool := negb (bool_decide (s = EmptyString)).

(** [s or None] *)
Definition or_None (s : string) : option string :=
  if nonempty s then Some s else None.

(** [x or y], for an optional string [x]. *)
Definition or_else (x : option string) (y : string) : string :=
  match x with
  | Some s => if nonempty s then s else y
  | None => y
  end.

(** [d.get(k, default)] on a [dict] literal. *)
Fixpoint dict_get {K V} `{EqDecision K} (d : list (K * V)) (k : K) (default : V) : V :=
  match d with
  | [] => default
  | (k', v) :: rest => if decide (k' = k) then v else dict_get rest k default
  end.

(** Insertion in a list ordered by [le], before the first row that is not
    smaller. *)
Fixpoint insert_by {A} (le : A → A → bool) (x : A) (l : list A) : list A :=
  match l with
  | [] => [x]
  | y :: l' => if le x y then x :: l else y :: insert_by le x l'
  end.

(** A stable sort: rows that [le] holds equal keep their order.  It stands
    for [ORDER BY] (rows with equal keys in table order) and for Python's
    [sorted]. *)
Definition order_by {A} (le : A → A → bool) (rows : list A) : list A :=
  foldr (insert_by le) [] rows.

(** [sorted(l, key=key)] *)
Definition sorted {A} (key : A → Z) (l : list A) : list A :=
  order_by (fun a b => (key a <=? key b)%Z) l.

(** ** app/models.py *)

(** Each model class is a module with the record [t] of its columns.  A
    column with a default that this code never writes [None] to holds a
    plain value. *)

Module Product.
Record t : Type := {
  id : Z;
  name : string;
  category : string;
  price : float;
  image_filename : option string;
  description : option string;
  is_active : bool;
  is_best_seller : bool;
  display_order : Z;
}.
(** The keyword arguments of [Product(...)] and of [update_product]. *)
Record kwargs : Type := {
  kw_name : option string;
  kw_category : option string;
  kw_price : option float;
  kw_image_filename : option string;
  kw_description : option string;
  kw_is_active : option bool;
  kw_is_best_seller : option bool;
  kw_display_order : option Z;
}.
End Product.

Module Schedule.
Record t : Type := {
  id : Z;
  day_of_week : Z;
  place : string;
  start_time : option string;
  end_time : option string;
  is_active : bool;
}.
Record kwargs : Type := {
  kw_day_of_week : option Z;
  kw_place : option string;
  kw_start_time : option string;
  kw_end_time : option string;
  kw_is_active : option bool;
}.
End Schedule.

Module Location.
Record t : Type := {
  id : Z;
  today_location : option string;
  today_hours : option string;
  daily_message : option string;
}.
(** [update_location] writes every keyword it is given, [None] included:
    [None] is a keyword that is absent, [Some None] one that is [None]. *)
Record kwargs : Type := {
  kw_today_location : option (option string);
  kw_today_hours : option (option string);
  kw_daily_message : option (option string);
}.
End Location.

Module Settings.
Record t : Type := {
  id : Z;
  hours_weekday : string;
  hours_evening : string;
  hours_weekend : string;
  instagram_url : string;
  tiktok_url : string;
  site_name : string;
  slogan : string;
}.
Record kwargs : Type := {
  kw_hours_weekday : option string;
  kw_hours_evening : option string;
  kw_hours_weekend : option string;
  kw_instagram_url : option string;
  kw_tiktok_url : option string;
  kw_site_name : option string;
  kw_slogan : option string;
}.
End Settings.

Module ContactMessage.
Record t : Type := {
  id : Z;
  name : string;
  email : string;
  phone : option string;
  subject : string;
  message : string;
  created_at : datetime;
  is_read : bool;
}.
Record kwargs : Type := {
  kw_name : option string;
  kw_email : option string;
  kw_phone : option string;
  kw_subject : option string;
  kw_message : option string;
}.
End ContactMessage.

Definition DAY_NAMES : list (Z * string) :=
  [(0%Z, "Lundi"); (1%Z, "Mardi"); (2%Z, "Mercredi"); (3%Z, "Jeudi");
   (4%Z, "Vendredi"); (5%Z, "Samedi"); (6%Z, "Dimanche")].

Definition CATEGORY_NAMES : list (string * string) :=
  [("crepes_sucrees", "Crêpes sucrées"); ("crepes_salees", "Crêpes salées");
   ("gaufres", "Gaufres"); ("box", "Box")].

(** ** The database *)

Module DB.
(** One field per table, named as the table. *)
Record t : Type := {
  admins : Session;
  products : list Product.t;
  schedules : list Schedule.t;
  location : list Location.t;
  settings : list Settings.t;
  contact_messages : list ContactMessage.t;
}.

Definition empty : t :=
  {| admins := []; products := []; schedules := []; location := [];
     settings := []; contact_messages := [] |}.

Definition set_admins (db : t) (rows : Session) : t :=
  {| admins := rows; products := products db; schedules := schedules db;
     location := location db; settings := settings db;
     contact_messages := contact_messages db |}.

Definition set_products (db : t) (rows : list Product.t) : t :=
  {| admins := admins db; products := rows; schedules := schedules db;
     location := location db; settings := settings db;
     contact_messages := contact_messages db |}.

Definition set_schedules (db : t) (rows : list Schedule.t) : t :=
  {| admins := admins db; products := products db; schedules := rows;
     location := location db; settings := settings db;
     contact_messages := contact_messages db |}.

Definition set_location (db : t) (rows : list Location.t) : t :=
  {| admins := admins db; products := products db; schedules := schedules db;
     location := rows; settings := settings db;
     contact_messages := contact_messages db |}.

Definition set_settings (db : t) (rows : list Settings.t) : t :=
  {| admins := admins db; products := products db; schedules := schedules db;
     location := location db; settings := rows;
     contact_messages := contact_messages db |}.

Definition set_contact_messages (db : t) (rows : list ContactMessage.t) : t :=
  {| admins := admins db; products := products db; schedules := schedules db;
     location := location db; settings := settings db;
     contact_messages := rows |}.
End DB.

(** The primary key an [INSERT] gives a new row: one more than the largest
    in the table, 1 in an empty table. *)
Definition next_id {A} (id : A → Z) (rows : list A) : Z :=
  (1 + foldr (fun r m => Z.max (id r) m) 0 rows)%Z.

(** [UPDATE ... WHERE id = row.id] and [DELETE ... WHERE id = row.id]. *)
Definition update_row {A} (id : A → Z) (row : A) (rows : list A) : list A :=
  (fun r => if decide (id r = id row) then row else r) <$> rows.

Definition delete_row {A} (id : A → Z) (row : A) (rows : list A) : list A :=
  filter (fun r => id r ≠ id row) rows.

(** A [NOT NULL] column at [INSERT]. *)
Definition not_null {A} (value : option A) : outcome A :=
  match value with
  | Some v => Done v
  | None => Failed IntegrityError
  end.

(** What the driver binds.  An integer must fit 64 bits, signed: for any
    other the driver raises [OverflowError] before the statement runs. *)
Definition sqlite_integer (n : Z) : Prop := (- 2 ^ 63 ≤ n < 2 ^ 63)%Z.

#[global] Instance sqlite_integer_dec (n : Z) : Decision (sqlite_integer n).
Proof. unfold sqlite_integer. apply _. Defined.

(** The integer of a keyword, when the keyword is given. *)
Definition bound (value : option Z) : bool :=
  match value with
  | Some n => bool_decide (sqlite_integer n)
  | None => true
  end.

(** A float: a NaN is bound as [NULL], and a column of real affinity keeps
    a float that is an integer as that integer, so that a zero is read back
    without its sign. *)
Definition bind_float (x : float) : option float :=
  match x with
  | SpecFloat.S754_nan => None
  | SpecFloat.S754_zero _ => Some (SpecFloat.S754_zero false)
  | _ => Some x
  end.

(** [setattr(row, key, value)] of a nullable column, under
    [if value is not None]. *)
Definition set_unless_None {A} (value old : option A) : option A :=
  match value with
  | Some v => Some v
  | None => old
  end.

(** ** app/settings.py: the credentials of the first administrator *)

Record InitAdmin : Type := {
  INIT_ADMIN_USERNAME : string;
  INIT_ADMIN_PASSWORD : string;
}.

Definition default_init_admin : InitAdmin :=
  {| INIT_ADMIN_USERNAME := "admin"; INIT_ADMIN_PASSWORD := "admin123" |}.

(** ** app/crud.py *)

Section Crud.
Context `{Platform}.
(** [column.ilike(pattern)], as the database evaluates it. *)
Variable ilike : string → string → bool.

(** *** Admin *)

Definition get_admin_by_username (db : DB.t) (username_ : string) : option Admin :=
  head (filter (fun a => username a = username_) (DB.admins db)).

(** [create_admin], with the salt that [bcrypt.gensalt()] drew.  The
    [username] column is unique: a second row with the same name is refused
    at the commit. *)
Definition create_admin (gensalt : bytes) (db : DB.t) (username_ password : string)
  : outcome Admin * DB.t :=
  match hash_password gensalt password with
  | Raise e => (Failed (PyError e), db)
  | Return hashed =>
      let admin :=
        {| id := next_id id (DB.admins db); username := username_;
           password_hash := hashed; is_active := true |} in
      if bool_decide (username_ ∈ username <$> DB.admins db)
      then (Failed IntegrityError, db)
      else (Done admin, DB.set_admins db (DB.admins db ++ [admin]))
  end.

Definition get_admin_count (db : DB.t) : Z := Z.of_nat (length (DB.admins db)).

(** *** Product *)

(** [ORDER BY display_order, id] *)
Definition product_order (p q : Product.t) : bool :=
  (Product.display_order p <? Product.display_order q)%Z
  || ((Product.display_order p =? Product.display_order q)%Z
      && (Product.id p <=? Product.id q)%Z).

Definition get_products (db : DB.t) (category search : option string)
    (active_only best_sellers_only : bool) : list Product.t :=
  let query := DB.products db in
  let query :=
    if active_only then filter (fun p => Product.is_active p = true) query
    else query in
  let query :=
    if best_sellers_only then filter (fun p => Product.is_best_seller p = true) query
    else query in
  let query :=
    match category with
    | Some c =>
        if nonempty c then filter (fun p => Product.category p = c) query else query
    | None => query
    end in
  let query :=
    match search with
    | Some s =>
        if nonempty s
        then filter (fun p => ilike ("%" ++ s ++ "%") (Product.name p) = true) query
        else query
    | None => query
    end in
  order_by product_order query.

(** [get_product], for a key the driver can bind. *)
Definition get_product (db : DB.t) (product_id : Z) : option Product.t :=
  head (filter (fun p => Product.id p = product_id) (DB.products db)).

(** [create_product].  The [INSERT] binds its parameters and then runs: a
    display order that does not fit raises [OverflowError], and a missing
    name, category or price, or a NaN as the price, the [IntegrityError] of
    the [NOT NULL] columns.  The row is returned as it is read back. *)
Definition create_product (db : DB.t) (kwargs : Product.kwargs)
  : outcome Product.t * DB.t :=
  if negb (bound (Product.kw_display_order kwargs)) then (Failed OverflowError, db)
  else
    match not_null (Product.kw_name kwargs), not_null (Product.kw_category kwargs),
          not_null (Product.kw_price kwargs ≫= bind_float) with
    | Done name, Done category, Done price =>
        let product :=
          {| Product.id := next_id Product.id (DB.products db);
             Product.name := name;
             Product.category := category;
             Product.price := price;
             Product.image_filename := Product.kw_image_filename kwargs;
             Product.description := Product.kw_description kwargs;
             Product.is_active := default true (Product.kw_is_active kwargs);
             Product.is_best_seller := default false (Product.kw_is_best_seller kwargs);
             Product.display_order := default 0%Z (Product.kw_display_order kwargs) |} in
        (Done product, DB.set_products db (DB.products db ++ [product]))
    | Failed e, _, _ | _, Failed e, _ | _, _, Failed e => (Failed e, db)
    end.

(** [update_product].  The commit writes the columns that were set: a
    display order that does not fit raises [OverflowError], a NaN as the
    price the [IntegrityError] of its [NOT NULL] column, and the database
    is then as it was. *)
Definition update_product (db : DB.t) (product_id : Z) (kwargs : Product.kwargs)
  : outcome (option Product.t) * DB.t :=
  match get_product db product_id with
  | None => (Done None, db)
  | Some product =>
      if negb (bound (Product.kw_display_order kwargs)) then (Failed OverflowError, db)
      else
        match (match Product.kw_price kwargs with
               | Some price => not_null (bind_float price)
               | None => Done (Product.price product)
               end) with
        | Failed e => (Failed e, db)
        | Done price =>
            let product :=
              {| Product.id := Product.id product;
                 Product.name := default (Product.name product) (Product.kw_name kwargs);
                 Product.category :=
                   default (Product.category product) (Product.kw_category kwargs);
                 Product.price := price;
                 Product.image_filename :=
                   set_unless_None (Product.kw_image_filename kwargs)
                     (Product.image_filename product);
                 Product.description :=
                   set_unless_None (Product.kw_description kwargs)
                     (Product.description product);
                 Product.is_active :=
                   default (Product.is_active product) (Product.kw_is_active kwargs);
                 Product.is_best_seller :=
                   default (Product.is_best_seller product)
                     (Product.kw_is_best_seller kwargs);
                 Product.display_order :=
                   default (Product.display_order product)
                     (Product.kw_display_order kwargs) |} in
            (Done (Some product),
             DB.set_products db (update_row Product.id product (DB.products db)))
        end
  end.

Definition delete_product (db : DB.t) (product_id : Z) : bool * DB.t :=
  match get_product db product_id with
  | None => (false, db)
  | Some product =>
      (true, DB.set_products db (delete_row Product.id product (DB.products db)))
  end.

Definition get_product_count (db : DB.t) (active_only : bool) : Z :=
  let query := DB.products db in
  let query :=
    if active_only then filter (fun p => Product.is_active p = true) query
    else query in
  Z.of_nat (length query).

Definition get_bestseller_count (db : DB.t) : Z :=
  Z.of_nat (length (filter (fun p => Product.is_active p = true
                                     ∧ Product.is_best_seller p = true)
                      (DB.products db))).

(** *** Schedule *)

(** [NULL] sorts before every string, strings sort byte by byte. *)
Definition nulls_first (a b : option string) : bool :=
  match a, b with
  | None, _ => true
  | Some _, None => false
  | Some x, Some y => String.leb x y
  end.

(** [ORDER BY day_of_week, start_time] *)
Definition schedule_order (s r : Schedule.t) : bool :=
  (Schedule.day_of_week s <? Schedule.day_of_week r)%Z
  || ((Schedule.day_of_week s =? Schedule.day_of_week r)%Z
      && nulls_first (Schedule.start_time s) (Schedule.start_time r)).

Definition get_schedules (db : DB.t) (active_only : bool) : list Schedule.t :=
  let query := DB.schedules db in
  let query :=
    if active_only then filter (fun s => Schedule.is_active s = true) query
    else query in
  order_by schedule_order query.

(** [get_schedule], for a key the driver can bind. *)
Definition get_schedule (db : DB.t) (schedule_id : Z) : option Schedule.t :=
  head (filter (fun s => Schedule.id s = schedule_id) (DB.schedules db)).

(** [create_schedule]: a day that does not fit raises [OverflowError], a
    missing day or place the [IntegrityError] of the [NOT NULL] columns. *)
Definition create_schedule (db : DB.t) (kwargs : Schedule.kwargs)
  : outcome Schedule.t * DB.t :=
  if negb (bound (Schedule.kw_day_of_week kwargs)) then (Failed OverflowError, db)
  else
    match not_null (Schedule.kw_day_of_week kwargs),
          not_null (Schedule.kw_place kwargs) with
    | Done day_of_week, Done place =>
        let schedule :=
          {| Schedule.id := next_id Schedule.id (DB.schedules db);
             Schedule.day_of_week := day_of_week;
             Schedule.place := place;
             Schedule.start_time := Schedule.kw_start_time kwargs;
             Schedule.end_time := Schedule.kw_end_time kwargs;
             Schedule.is_active := default true (Schedule.kw_is_active kwargs) |} in
        (Done schedule, DB.set_schedules db (DB.schedules db ++ [schedule]))
    | Failed e, _ | _, Failed e => (Failed e, db)
    end.

(** [update_schedule]: a day that does not fit raises [OverflowError] at
    the commit, and the database is then as it was. *)
Definition update_schedule (db : DB.t) (schedule_id : Z) (kwargs : Schedule.kwargs)
  : outcome (option Schedule.t) * DB.t :=
  match get_schedule db schedule_id with
  | None => (Done None, db)
  | Some schedule =>
      if negb (bound (Schedule.kw_day_of_week kwargs)) then (Failed OverflowError, db)
      else
      let schedule :=
        {| Schedule.id := Schedule.id schedule;
           Schedule.day_of_week :=
             default (Schedule.day_of_week schedule) (Schedule.kw_day_of_week kwargs);
           Schedule.place := default (Schedule.place schedule) (Schedule.kw_place kwargs);
           Schedule.start_time :=
             set_unless_None (Schedule.kw_start_time kwargs) (Schedule.start_time schedule);
           Schedule.end_time :=
             set_unless_None (Schedule.kw_end_time kwargs) (Schedule.end_time schedule);
           Schedule.is_active :=
             default (Schedule.is_active schedule) (Schedule.kw_is_active kwargs) |} in
      (Done (Some schedule),
       DB.set_schedules db (update_row Schedule.id schedule (DB.schedules db)))
  end.

Definition delete_schedule (db : DB.t) (schedule_id : Z) : bool * DB.t :=
  match get_schedule db schedule_id with
  | None => (false, db)
  | Some schedule =>
      (true, DB.set_schedules db (delete_row Schedule.id schedule (DB.schedules db)))
  end.

(** *** Location *)

Definition get_location (db : DB.t) : option Location.t := head (DB.location db).

Definition update_location (db : DB.t) (kwargs : Location.kwargs) : Location.t * DB.t :=
  match get_location db with
  | None =>
      let location :=
        {| Location.id := next_id Location.id (DB.location db);
           Location.today_location := mjoin (Location.kw_today_location kwargs);
           Location.today_hours := mjoin (Location.kw_today_hours kwargs);
           Location.daily_message := mjoin (Location.kw_daily_message kwargs) |} in
      (location, DB.set_location db (DB.location db ++ [location]))
  | Some location =>
      let location :=
        {| Location.id := Location.id location;
           Location.today_location :=
             default (Location.today_location location) (Location.kw_today_location kwargs);
           Location.today_hours :=
             default (Location.today_hours location) (Location.kw_today_hours kwargs);
           Location.daily_message :=
             default (Location.daily_message location) (Location.kw_daily_message kwargs) |} in
      (location, DB.set_location db (update_row Location.id location (DB.location db)))
  end.

(** *** Settings *)

Definition get_settings (db : DB.t) : option Settings.t := head (DB.settings db).

(** A new [Settings] row at [INSERT]: a column that was given no value
    takes its default. *)
Definition new_settings (id : Z) (kwargs : Settings.kwargs) : Settings.t :=
  {| Settings.id := id;
     Settings.hours_weekday := default "11h30 - 14h00" (Settings.kw_hours_weekday kwargs);
     Settings.hours_evening := default "18h00 - 21h00" (Settings.kw_hours_evening kwargs);
     Settings.hours_weekend := default "09h00 - 15h00" (Settings.kw_hours_weekend kwargs);
     Settings.instagram_url :=
       default "https://instagram.com" (Settings.kw_instagram_url kwargs);
     Settings.tiktok_url := default "https://tiktok.com" (Settings.kw_tiktok_url kwargs);
     Settings.site_name := default "KIOSQUE DU PARC" (Settings.kw_site_name kwargs);
     Settings.slogan :=
       default "Du sucré, du salé, fait minute." (Settings.kw_slogan kwargs) |}.

Definition no_settings_kwargs : Settings.kwargs :=
  {| Settings.kw_hours_weekday := None; Settings.kw_hours_evening := None;
     Settings.kw_hours_weekend := None; Settings.kw_instagram_url := None;
     Settings.kw_tiktok_url := None; Settings.kw_site_name := None;
     Settings.kw_slogan := None |}.

Definition update_settings (db : DB.t) (kwargs : Settings.kwargs) : Settings.t * DB.t :=
  match get_settings db with
  | None =>
      let settings := new_settings (next_id Settings.id (DB.settings db)) kwargs in
      (settings, DB.set_settings db (DB.settings db ++ [settings]))
  | Some settings =>
      let settings :=
        {| Settings.id := Settings.id settings;
           Settings.hours_weekday :=
             default (Settings.hours_weekday settings) (Settings.kw_hours_weekday kwargs);
           Settings.hours_evening :=
             default (Settings.hours_evening settings) (Settings.kw_hours_evening kwargs);
           Settings.hours_weekend :=
             default (Settings.hours_weekend settings) (Settings.kw_hours_weekend kwargs);
           Settings.instagram_url :=
             default (Settings.instagram_url settings) (Settings.kw_instagram_url kwargs);
           Settings.tiktok_url :=
             default (Settings.tiktok_url settings) (Settings.kw_tiktok_url kwargs);
           Settings.site_name :=
             default (Settings.site_name settings) (Settings.kw_site_name kwargs);
           Settings.slogan :=
             default (Settings.slogan settings) (Settings.kw_slogan kwargs) |} in
      (settings, DB.set_settings db (update_row Settings.id settings (DB.settings db)))
  end.

Definition ensure_settings_exist (db : DB.t) : Settings.t * DB.t :=
  match get_settings db with
  | None =>
      let settings :=
        new_settings (next_id Settings.id (DB.settings db)) no_settings_kwargs in
      (settings, DB.set_settings db (DB.settings db ++ [settings]))
  | Some settings => (settings, db)
  end.

Definition ensure_location_exists (db : DB.t) : Location.t * DB.t :=
  match get_location db with
  | None =>
      let location :=
        {| Location.id := next_id Location.id (DB.location db);
           Location.today_location := Some "Parc de la Mairie - Centre-ville";
           Location.today_hours := Some "11h30 - 14h00 / 18h00 - 21h00";
           Location.daily_message := None |} in
      (location, DB.set_location db (DB.location db ++ [location]))
  | Some location => (location, db)
  end.

(** *** Contact messages *)

(** [ORDER BY created_at DESC] *)
Definition newest_first (m n : ContactMessage.t) : bool :=
  (ContactMessage.created_at n <=? ContactMessage.created_at m)%Z.

Definition get_contact_messages (db : DB.t) (unread_only : bool)
  : list ContactMessage.t :=
  let query := DB.contact_messages db in
  let query :=
    if unread_only then filter (fun m => ContactMessage.is_read m = false) query
    else query in
  order_by newest_first query.

(** [get_contact_message], for a key the driver can bind. *)
Definition get_contact_message (db : DB.t) (message_id : Z) : option ContactMessage.t :=
  head (filter (fun m => ContactMessage.id m = message_id) (DB.contact_messages db)).


Definition read (message : ContactMessage.t) : ContactMessage.t :=
  {| ContactMessage.id := ContactMessage.id message;
     ContactMessage.name := ContactMessage.name message;
     ContactMessage.email := ContactMessage.email message;
     ContactMessage.phone := ContactMessage.phone message;
     ContactMessage.subject := ContactMessage.subject message;
     ContactMessage.message := ContactMessage.message message;
     ContactMessage.created_at := ContactMessage.created_at message;
     ContactMessage.is_read := true |}.

Definition mark_message_as_read (db : DB.t) (message_id : Z)
  : option ContactMessage.t * DB.t :=
  match get_contact_message db message_id with
  | None => (None, db)
  | Some message =>
      let message := read message in
      (Some message,
       DB.set_contact_messages db
         (update_row ContactMessage.id message (DB.contact_messages db)))
  end.

Definition delete_contact_message (db : DB.t) (message_id : Z) : bool * DB.t :=
  match get_contact_message db message_id with
  | None => (false, db)
  | Some message =>
      (true,
       DB.set_contact_messages db
         (delete_row ContactMessage.id message (DB.contact_messages db)))
  end.

Definition get_unread_message_count (db : DB.t) : Z :=
  Z.of_nat (length (filter (fun m => ContactMessage.is_read m = false)
                      (DB.contact_messages db))).

Definition get_message_count (db : DB.t) : Z :=
  Z.of_nat (length (DB.contact_messages db)).

End Crud.

(** ** app/routers/api.py: the public API *)

(** The [dict] that [format_product_for_api] builds. *)
Module APIProduct.
Record t : Type := {
  id : Z;
  name : string;
  category : string;
  category_label : string;
  price : float;
  image : string;
  alt : string;
  tags : list string;
  bestseller : bool;
}.
End APIProduct.

(** The [dict] of [api_get_location_today]. *)
Module APILocation.
Record t : Type := {
  place : string;
  hours : string;
  message : option string;
}.
End APILocation.

(** One [dict] of the list that [api_get_schedule] builds. *)
Module APISchedule.
Record t : Type := {
  day : string;
  day_index : Z;
  place : string;
  hours : string;
  is_weekend : bool;
}.
(** [existing["hours"] += more] *)
Definition add_hours (existing : t) (more : string) : t :=
  {| day := day existing; day_index := day_index existing; place := place existing;
     hours := hours existing ++ more; is_weekend := is_weekend existing |}.
End APISchedule.

(** The body of [api_submit_contact], validated by the [ContactCreate]
    schema. *)
Module ContactCreate.
Record t : Type := {
  name : string;
  email : string;
  phone : option string;
  subject : string;
  message : string;
}.
End ContactCreate.

Section Api.
Variable ilike : string → string → bool.

Definition format_product_for_api (product : Product.t) : APIProduct.t :=
  let tags := [] in
  let tags :=
    if bool_decide (Product.category product ∈ ["crepes_sucrees"; "gaufres"])
    then tags ++ ["sweet"]
    else if bool_decide (Product.category product ∈ ["crepes_salees"; "box"])
    then tags ++ ["savory"]
    else tags in
  {| APIProduct.id := Product.id product;
     APIProduct.name := Product.name product;
     APIProduct.category := Product.category product;
     APIProduct.category_label :=
       dict_get CATEGORY_NAMES (Product.category product) (Product.category product);
     APIProduct.price := Product.price product;
     APIProduct.image :=
       match Product.image_filename product with
       | Some f => if nonempty f then "assets/img/" ++ f else EmptyString
       | None => EmptyString
       end;
     APIProduct.alt := or_else (Product.description product) (Product.name product);
     APIProduct.tags := tags;
     APIProduct.bestseller := Product.is_best_seller product |}.

(** [GET /api/products] *)
Definition api_get_products (category search : option string) (db : DB.t)
  : list APIProduct.t :=
  let products := get_products ilike db category search true false in
  format_product_for_api <$> products.

(** [GET /api/products/best-sellers] *)
Definition api_get_best_sellers (db : DB.t) : list APIProduct.t :=
  let products := get_products ilike db None None true true in
  format_product_for_api <$> products.

(** [GET /api/location/today] *)
Definition api_get_location_today (db : DB.t) : APILocation.t :=
  match get_location db with
  | None =>
      {| APILocation.place := "Emplacement non defini";
         APILocation.hours := EmptyString;
         APILocation.message := None |}
  | Some location =>
      {| APILocation.place :=
           or_else (Location.today_location location) "Emplacement non defini";
         APILocation.hours := or_else (Location.today_hours location) EmptyString;
         APILocation.message := Location.daily_message location |}
  end.

(** The hours of one schedule row: shown only for the place ["Ouvert"] with
    both times. *)
Definition slot_hours (schedule : Schedule.t) : string :=
  match Schedule.start_time schedule, Schedule.end_time schedule with
  | Some start_time, Some end_time =>
      if bool_decide (Schedule.place schedule = "Ouvert")
         && nonempty start_time && nonempty end_time
      then start_time ++ " - " ++ end_time
      else "-"
  | _, _ => "-"
  end.

(** One turn of the loop of [api_get_schedule]: the row is merged into
    the first entry of its day and place, or added at the end. *)
Definition add_slot (result : list APISchedule.t) (schedule : Schedule.t)
  : list APISchedule.t :=
  let hours := slot_hours schedule in
  let existing :=
    list_find (fun s => APISchedule.day_index s = Schedule.day_of_week schedule
                        ∧ APISchedule.place s = Schedule.place schedule) result in
  let entry :=
    {| APISchedule.day := dict_get DAY_NAMES (Schedule.day_of_week schedule) EmptyString;
       APISchedule.day_index := Schedule.day_of_week schedule;
       APISchedule.place := Schedule.place schedule;
       APISchedule.hours := hours;
       APISchedule.is_weekend := bool_decide (5 ≤ Schedule.day_of_week schedule)%Z |} in
  match existing with
  | Some (i, existing) =>
      if bool_decide (hours ≠ "-")
      then <[i := APISchedule.add_hours existing (" / " ++ hours)]> result
      else result ++ [entry]
  | None => result ++ [entry]
  end.

(** [GET /api/schedule] *)
Definition api_get_schedule (db : DB.t) : list APISchedule.t :=
  let schedules := get_schedules db true in
  let result := foldl add_slot [] schedules in
  sorted APISchedule.day_index result.

(** [GET /api/settings] *)
Definition api_get_settings (db : DB.t) : list (string * string) :=
  match get_settings db with
  | None =>
      [("hours_weekday", "11h30 - 14h00");
       ("hours_evening", "18h00 - 21h00");
       ("hours_weekend", "09h00 - 15h00");
       ("instagram_url", "https://instagram.com");
       ("tiktok_url", "https://tiktok.com");
       ("site_name", "KIOSQUE DU PARC");
       ("slogan", "Du sucré, du salé, fait minute.")]
  | Some settings =>
      [("hours_weekday", Settings.hours_weekday settings);
       ("hours_evening", Settings.hours_evening settings);
       ("hours_weekend", Settings.hours_weekend settings);
       ("instagram_url", Settings.instagram_url settings);
       ("tiktok_url", Settings.tiktok_url settings);
       ("site_name", Settings.site_name settings);
       ("slogan", Settings.slogan settings)]
  end.


End Api.

(** ** app/seed.py *)

(** Prices, as the binary64 numbers their literals denote. *)
Definition price_3_50 : float := SpecFloat.S754_finite false 7881299347898368 (-51).
Definition price_3_90 : float := SpecFloat.S754_finite false 8782019273372467 (-51).
Definition price_4_50 : float := SpecFloat.S754_finite false 5066549580791808 (-50).
Definition price_4_90 : float := SpecFloat.S754_finite false 5516909543528858 (-50).
Definition price_5_50 : float := SpecFloat.S754_finite false 6192449487634432 (-50).
Definition price_6_50 : float := SpecFloat.S754_finite false 7318349394477056 (-50).
Definition price_7_90 : float := SpecFloat.S754_finite false 8894609264056730 (-50).

Definition initial_product (name category : string) (price : float)
    (image_filename description : string) (is_active is_best_seller : bool)
    (display_order : Z) : Product.kwargs :=
  {| Product.kw_name := Some name;
     Product.kw_category := Some category;
     Product.kw_price := Some price;
     Product.kw_image_filename := Some image_filename;
     Product.kw_description := Some description;
     Product.kw_is_active := Some is_active;
     Product.kw_is_best_seller := Some is_best_seller;
     Product.kw_display_order := Some display_order |}.

Definition INITIAL_PRODUCTS : list Product.kwargs :=
  [initial_product "Crepe au miel" "crepes_sucrees" price_3_50
     "Crêpe_miel.jpeg" "Crepe nappee de miel dore" true true 1;
   initial_product "Crepe caramel" "crepes_sucrees" price_3_50
     "Crêpe_caramel.jpeg" "Crepe au caramel onctueux" true true 2;
   initial_product "Crepe chocolat + banane" "crepes_sucrees" price_4_90
     "Crêpe_chocolat_banane.jpeg" "Crepe chocolat avec banane fraiche" true true 3;
   initial_product "Crepe chocolat + coco rapee" "crepes_sucrees" price_4_90
     "Crêpe_chocolat_coco_râpée.jpeg" "Crepe chocolat avec coco rapee" true false 4;
   initial_product "Crepe chocolat" "crepes_sucrees" price_3_90
     "Crêpe_chocolat.jpeg" "Crepe au chocolat fondant" true false 5;
   initial_product "Crepe salee jambon-fromage" "crepes_salees" price_5_50
     "crêpe salée_jambon-fromage.jpeg" "Crepe salee jambon et fromage fondu" true false 6;
   initial_product "Crepe salee poulet pane + fromage" "crepes_salees" price_6_50
     "crêpe_salée_pouletpané_fromage.jpeg"
     "Crepe salee poulet pane croustillant avec fromage" true true 7;
   initial_product "Gaufre chocolat + eclats" "gaufres" price_4_50
     "Gaufre_chocolat_éclats.jpeg" "Gaufre chocolat avec eclats croustillants" true true 8;
   initial_product "Gaufre nature + sucre glace" "gaufres" price_3_50
     "Gaufre nature_sucre_glace.jpeg" "Gaufre nature saupoudree de sucre glace"
     true false 9;
   initial_product "Riz Crousty" "box" price_7_90
     "Riz_Crousty.jpeg" "Box Riz Crousty genereux" true true 10].

Definition initial_schedule (day_of_week : Z) (place start_time end_time : string)
  : Schedule.kwargs :=
  {| Schedule.kw_day_of_week := Some day_of_week;
     Schedule.kw_place := Some place;
     Schedule.kw_start_time := Some start_time;
     Schedule.kw_end_time := Some end_time;
     Schedule.kw_is_active := None |}.

Definition INITIAL_SCHEDULE : list Schedule.kwargs :=
  [initial_schedule 0 "Marche du Centre" "10:00" "14:00";
   initial_schedule 1 "Place de la Gare" "11:30" "14:00";
   initial_schedule 1 "Place de la Gare" "18:00" "20:30";
   initial_schedule 2 "Parc des Expositions" "11:00" "15:00";
   initial_schedule 3 "Campus Universitaire" "11:30" "14:30";
   initial_schedule 4 "Zone Commerciale Nord" "11:30" "14:00";
   initial_schedule 4 "Zone Commerciale Nord" "18:00" "21:00";
   initial_schedule 5 "Marche couvert" "09:00" "15:00";
   initial_schedule 6 "Parc de la Mairie" "10:00" "14:00"].

(** [for data in items: create(db, data)]: the loop stops at the first
    call that raises. *)
Fixpoint create_each {K A} (create : DB.t → K → outcome A * DB.t) (items : list K)
    (db : DB.t) : outcome unit * DB.t :=
  match items with
  | [] => (Done tt, db)
  | data :: rest =>
      match create db data with
      | (Done _, db) => create_each create rest db
      | (Failed e, db) => (Failed e, db)
      end
  end.

Section Seed.
Context `{Platform}.
Variable init : InitAdmin.

(** [seed_database], with the salt that [bcrypt.gensalt()] would draw; what
    it prints is left out. *)
Definition seed_database (gensalt : bytes) (db : DB.t) : outcome unit * DB.t :=
  match (if (get_product_count db false =? 0)%Z
         then create_each create_product INITIAL_PRODUCTS db
         else (Done tt, db)) with
  | (Failed e, db) => (Failed e, db)
  | (Done _, db) =>
      match (if (Z.of_nat (length (get_schedules db false)) =? 0)%Z
             then create_each create_schedule INITIAL_SCHEDULE db
             else (Done tt, db)) with
      | (Failed e, db) => (Failed e, db)
      | (Done _, db) =>
          let '(_, db) := ensure_settings_exist db in
          let '(_, db) := ensure_location_exists db in
          if (get_admin_count db =? 0)%Z then
            match create_admin gensalt db (INIT_ADMIN_USERNAME init)
                    (INIT_ADMIN_PASSWORD init) with
            | (Done _, db) => (Done tt, db)
            | (Failed e, db) => (Failed e, db)
            end
          else (Done tt, db)
      end
  end.

(** ** app/create_admin.py *)

(** [main]: the arguments of the command line and the database in, the
    lines printed, the outcome and the database out. *)
Definition main (gensalt : bytes) (argv : list string) (db : DB.t)
  : list string * outcome unit * DB.t :=
  let '(username_, password, out) :=
    match argv with
    | _ :: u :: p :: _ => (u, p, [])
    | _ =>
        (INIT_ADMIN_USERNAME init, INIT_ADMIN_PASSWORD init,
         ["Using default credentials from environment/settings"])
    end in
  let existing := get_admin_by_username db username_ in
  match existing with
  | Some _ =>
      (out ++ [("[ERROR] Admin '" ++ username_ ++ "' already exists!")%string],
       Failed (SystemExit 1), db)
  | None =>
      match create_admin gensalt db username_ password with
      | (Failed e, db) => (out, Failed e, db)
      | (Done admin, db) =>
          let out :=
            out ++ [("[OK] Admin '" ++ username admin ++ "' created successfully!")%string;
                    "     You can now login at /admin/login"] in
          let out :=
            if bool_decide (password = "admin123")
            then out ++ [String "010"%char "[WARNING] You are using the default password.";
                         "          Please change it immediately after first login!"]
            else out in
          (out, Done tt, db)
      end
  end.

End Seed.

(** ** app/routers/admin.py: the protected routes *)

(** What a template is given.  An expired row is the object of a row
    after a commit that failed: the session has rolled the transaction back
    and expired the object, and until the code rolls the session back, which
    no route does, reading a column of it raises [PendingRollbackError].
    The row it was read from is kept with it. *)
Inductive context_value : Type :=
  | CtxRequest (request : Request)
  | CtxData (data : pyval)
  | CtxNone
  | CtxBool (b : bool)
  | CtxError (e : error)
  | CtxStats (stats : list (string * Z))
  | CtxProduct (product : Product.t)
  | CtxExpiredProduct (product : Product.t)
  | CtxProducts (products : list Product.t)
  | CtxSchedule (schedule : Schedule.t)
  | CtxExpiredSchedule (schedule : Schedule.t)
  | CtxSchedules (schedules : list Schedule.t)
  | CtxLocation (location : Location.t)
  | CtxSettings (settings : Settings.t)
  | CtxMessage (message : ContactMessage.t)
  | CtxMessages (messages : list ContactMessage.t)
  | CtxCategoryNames (names : list (string * string))
  | CtxDayNames (names : list (Z * string)).

Definition ctx_option {A} (f : A → context_value) (x : option A) : context_value :=
  match x with
  | Some a => f a
  | None => CtxNone
  end.

(** What a route returns: a [RedirectResponse], or a template and its
    context. *)
Inductive reply : Type :=
  | Redirected (response : Response)
  | Rendered (name : string) (context : list (string * context_value)).

Section Dashboard.
Context `{Platform}.
Variable config : Settings.

(** [admin: dict = Depends(admin_required)]: the dependency runs before the
    route; when it raises, the route does not run. *)
Definition Depends_admin_required {A} (now : Z) (request : Request) (db : DB.t)
    (route : pyval → outcome A * DB.t) : outcome A * DB.t :=
  match admin_required config now request with
  | Raise e => (Failed (PyError e), db)
  | Return admin => route admin
  end.

(** *** Dashboard *)

Definition dashboard (now : Z) (request : Request) (db : DB.t) : outcome reply * DB.t :=
  Depends_admin_required now request db (fun admin =>
    let total_products := get_product_count db false in
    let active_products := get_product_count db true in
    let bestsellers := get_bestseller_count db in
    let schedules := get_schedules db true in
    let location := get_location db in
    let unread_messages := get_unread_message_count db in
    let total_messages := get_message_count db in
    (Done (Rendered "admin/dashboard.html"
             [("request", CtxRequest request);
              ("admin", CtxData admin);
              ("stats", CtxStats
                 [("total_products", total_products);
                  ("active_products", active_products);
                  ("bestsellers", bestsellers);
                  ("schedules_count", Z.of_nat (length schedules));
                  ("unread_messages", unread_messages);
                  ("total_messages", total_messages)]);
              ("location", ctx_option CtxLocation location)]), db)).

(** *** Products *)

Definition products_list (ilike : string → string → bool) (now : Z) (request : Request)
    (db : DB.t) : outcome reply * DB.t :=
  Depends_admin_required now request db (fun admin =>
    let products := get_products ilike db None None false false in
    (Done (Rendered "admin/products_list.html"
             [("request", CtxRequest request);
              ("admin", CtxData admin);
              ("products", CtxProducts products);
              ("categories", CtxCategoryNames CATEGORY_NAMES)]), db)).

Definition product_form (request : Request) (admin : pyval) (product : option Product.t)
    (error : option error) : reply :=
  Rendered "admin/product_form.html"
    [("request", CtxRequest request);
     ("admin", CtxData admin);
     ("product", ctx_option CtxProduct product);
     ("categories", CtxCategoryNames CATEGORY_NAMES);
     ("error", ctx_option CtxError error)].

Definition product_new (now : Z) (request : Request) (db : DB.t) : outcome reply * DB.t :=
  Depends_admin_required now request db (fun admin =>
    (Done (product_form request admin None None), db)).

(** The keyword arguments that [product_create] and [product_update] build
    from the form. *)
Definition product_form_kwargs (name category : string) (price : float)
    (image_filename description : string) (is_active is_best_seller : bool)
    (display_order : Z) : Product.kwargs :=
  {| Product.kw_name := Some name;
     Product.kw_category := Some category;
     Product.kw_price := Some price;
     Product.kw_image_filename := or_None image_filename;
     Product.kw_description := or_None description;
     Product.kw_is_active := Some is_active;
     Product.kw_is_best_seller := Some is_best_seller;
     Product.kw_display_order := Some display_order |}.

Definition product_create (now : Z) (request : Request) (name category : string)
    (price : float) (image_filename description : string)
    (is_active is_best_seller : bool) (display_order : Z) (db : DB.t)
  : outcome reply * DB.t :=
  Depends_admin_required now request db (fun admin =>
    match create_product db
            (product_form_kwargs name category price image_filename description
               is_active is_best_seller display_order) with
    | (Done _, db) => (Done (Redirected (RedirectResponse "/admin/products" 303)), db)
    | (Failed e, db) =>
        if is_Exception e
        then (Done (product_form request admin None (Some e)), db)
        else (Failed e, db)
    end).

Definition product_edit (now : Z) (request : Request) (product_id : Z) (db : DB.t)
  : outcome reply * DB.t :=
  Depends_admin_required now request db (fun admin =>
    match get_product db product_id with
    | None => (Failed (HTTPError 404 "Product not found"), db)
    | Some product => (Done (product_form request admin (Some product) None), db)
    end).

Definition product_update (now : Z) (request : Request) (product_id : Z)
    (name category : string) (price : float) (image_filename description : string)
    (is_active is_best_seller : bool) (display_order : Z) (db : DB.t)
  : outcome reply * DB.t :=
  Depends_admin_required now request db (fun admin =>
    match get_product db product_id with
    | None => (Failed (HTTPError 404 "Product not found"), db)
    | Some product =>
        match update_product db product_id
                (product_form_kwargs name category price image_filename description
                   is_active is_best_seller display_order) with
        | (Done _, db) =>
            (Done (Redirected (RedirectResponse "/admin/products" 303)), db)
        | (Failed e, db) =>
            if is_Exception e
            then (Done (Rendered "admin/product_form.html"
                          [("request", CtxRequest request);
                           ("admin", CtxData admin);
                           ("product", CtxExpiredProduct product);
                           ("categories", CtxCategoryNames CATEGORY_NAMES);
                           ("error", CtxError e)]), db)
            else (Failed e, db)
        end
    end).

Definition product_delete_confirm (now : Z) (request : Request) (product_id : Z)
    (db : DB.t) : outcome reply * DB.t :=
  Depends_admin_required now request db (fun admin =>
    match get_product db product_id with
    | None => (Failed (HTTPError 404 "Product not found"), db)
    | Some product =>
        (Done (Rendered "admin/product_delete.html"
                 [("request", CtxRequest request);
                  ("admin", CtxData admin);
                  ("product", CtxProduct product)]), db)
    end).

Definition product_delete_action (now : Z) (request : Request) (product_id : Z)
    (db : DB.t) : outcome reply * DB.t :=
  Depends_admin_required now request db (fun admin =>
    let '(deleted, db) := delete_product db product_id in
    if negb deleted then (Failed (HTTPError 404 "Product not found"), db)
    else (Done (Redirected (RedirectResponse "/admin/products" 303)), db)).

(** *** Location *)

Definition location_form (request : Request) (admin : pyval) (location : option Location.t)
    (success : bool) : reply :=
  Rendered "admin/location_form.html"
    [("request", CtxRequest request);
     ("admin", CtxData admin);
     ("location", ctx_option CtxLocation location);
     ("success", CtxBool success)].

Definition location_edit (now : Z) (request : Request) (db : DB.t)
  : outcome reply * DB.t :=
  Depends_admin_required now request db (fun admin =>
    let location := get_location db in
    (Done (location_form request admin location false), db)).

Definition location_update (now : Z) (request : Request)
    (today_location today_hours daily_message : string) (db : DB.t)
  : outcome reply * DB.t :=
  Depends_admin_required now request db (fun admin =>
    let '(_, db) :=
      update_location db
        {| Location.kw_today_location := Some (or_None today_location);
           Location.kw_today_hours := Some (or_None today_hours);
           Location.kw_daily_message := Some (or_None daily_message) |} in
    let location := get_location db in
    (Done (location_form request admin location true), db)).

(** *** Schedule *)

Definition schedule_list (now : Z) (request : Request) (db : DB.t)
  : outcome reply * DB.t :=
  Depends_admin_required now request db (fun admin =>
    let schedules := get_schedules db false in
    (Done (Rendered "admin/schedule_list.html"
             [("request", CtxRequest request);
              ("admin", CtxData admin);
              ("schedules", CtxSchedules schedules);
              ("day_names", CtxDayNames DAY_NAMES)]), db)).

Definition schedule_form (request : Request) (admin : pyval) (schedule : option Schedule.t)
    (error : option error) : reply :=
  Rendered "admin/schedule_form.html"
    [("request", CtxRequest request);
     ("admin", CtxData admin);
     ("schedule", ctx_option CtxSchedule schedule);
     ("day_names", CtxDayNames DAY_NAMES);
     ("error", ctx_option CtxError error)].

Definition schedule_new (now : Z) (request : Request) (db : DB.t)
  : outcome reply * DB.t :=
  Depends_admin_required now request db (fun admin =>
    (Done (schedule_form request admin None None), db)).

(** The keyword arguments that [schedule_create] and
    [schedule_update_action] build from the form: the times are passed on
    only for the place ["Ouvert"]. *)
Definition schedule_form_kwargs (day_of_week : Z) (place start_time end_time : string)
    (is_active : bool) : Schedule.kwargs :=
  {| Schedule.kw_day_of_week := Some day_of_week;
     Schedule.kw_place := Some place;
     Schedule.kw_start_time :=
       if bool_decide (place = "Ouvert") then Some start_time else None;
     Schedule.kw_end_time :=
       if bool_decide (place = "Ouvert") then Some end_time else None;
     Schedule.kw_is_active := Some is_active |}.

Definition schedule_create (now : Z) (request : Request) (day_of_week : Z)
    (place start_time end_time : string) (is_active : bool) (db : DB.t)
  : outcome reply * DB.t :=
  Depends_admin_required now request db (fun admin =>
    match create_schedule db
            (schedule_form_kwargs day_of_week place start_time end_time is_active) with
    | (Done _, db) => (Done (Redirected (RedirectResponse "/admin/schedule" 303)), db)
    | (Failed e, db) =>
        if is_Exception e
        then (Done (schedule_form request admin None (Some e)), db)
        else (Failed e, db)
    end).

Definition schedule_edit (now : Z) (request : Request) (schedule_id : Z) (db : DB.t)
  : outcome reply * DB.t :=
  Depends_admin_required now request db (fun admin =>
    match get_schedule db schedule_id with
    | None => (Failed (HTTPError 404 "Schedule not found"), db)
    | Some schedule => (Done (schedule_form request admin (Some schedule) None), db)
    end).

Definition schedule_update_action (now : Z) (request : Request) (schedule_id : Z)
    (day_of_week : Z) (place start_time end_time : string) (is_active : bool)
    (db : DB.t) : outcome reply * DB.t :=
  Depends_admin_required now request db (fun admin =>
    match get_schedule db schedule_id with
    | None => (Failed (HTTPError 404 "Schedule not found"), db)
    | Some schedule =>
        match update_schedule db schedule_id
                (schedule_form_kwargs day_of_week place start_time end_time is_active) with
        | (Done _, db) =>
            (Done (Redirected (RedirectResponse "/admin/schedule" 303)), db)
        | (Failed e, db) =>
            if is_Exception e
            then (Done (Rendered "admin/schedule_form.html"
                          [("request", CtxRequest request);
                           ("admin", CtxData admin);
                           ("schedule", CtxExpiredSchedule schedule);
                           ("day_names", CtxDayNames DAY_NAMES);
                           ("error", CtxError e)]), db)
            else (Failed e, db)
        end
    end).

Definition schedule_delete_confirm (now : Z) (request : Request) (schedule_id : Z)
    (db : DB.t) : outcome reply * DB.t :=
  Depends_admin_required now request db (fun admin =>
    match get_schedule db schedule_id with
    | None => (Failed (HTTPError 404 "Schedule not found"), db)
    | Some schedule =>
        (Done (Rendered "admin/schedule_delete.html"
                 [("request", CtxRequest request);
                  ("admin", CtxData admin);
                  ("schedule", CtxSchedule schedule);
                  ("day_names", CtxDayNames DAY_NAMES)]), db)
    end).

Definition schedule_delete_action (now : Z) (request : Request) (schedule_id : Z)
    (db : DB.t) : outcome reply * DB.t :=
  Depends_admin_required now request db (fun admin =>
    let '(deleted, db) := delete_schedule db schedule_id in
    if negb deleted then (Failed (HTTPError 404 "Schedule not found"), db)
    else (Done (Redirected (RedirectResponse "/admin/schedule" 303)), db)).

(** *** Settings *)

Definition settings_form (request : Request) (admin : pyval) (settings : option Settings.t)
    (success : bool) : reply :=
  Rendered "admin/settings_form.html"
    [("request", CtxRequest request);
     ("admin", CtxData admin);
     ("settings", ctx_option CtxSettings settings);
     ("success", CtxBool success)].

Definition settings_edit (now : Z) (request : Request) (db : DB.t)
  : outcome reply * DB.t :=
  Depends_admin_required now request db (fun admin =>
    let settings := get_settings db in
    (Done (settings_form request admin settings false), db)).

Definition settings_update (now : Z) (request : Request)
    (hours_weekday hours_evening hours_weekend instagram_url tiktok_url site_name
       slogan : string) (db : DB.t) : outcome reply * DB.t :=
  Depends_admin_required now request db (fun admin =>
    let '(_, db) :=
      update_settings db
        {| Settings.kw_hours_weekday := or_None hours_weekday;
           Settings.kw_hours_evening := or_None hours_evening;
           Settings.kw_hours_weekend := or_None hours_weekend;
           Settings.kw_instagram_url := or_None instagram_url;
           Settings.kw_tiktok_url := or_None tiktok_url;
           Settings.kw_site_name := or_None site_name;
           Settings.kw_slogan := or_None slogan |} in
    let settings := get_settings db in
    (Done (settings_form request admin settings true), db)).

(** *** Contact messages *)

Definition messages_list (now : Z) (request : Request) (db : DB.t)
  : outcome reply * DB.t :=
  Depends_admin_required now request db (fun admin =>
    let messages := get_contact_messages db false in
    (Done (Rendered "admin/messages_list.html"
             [("request", CtxRequest request);
              ("admin", CtxData admin);
              ("messages", CtxMessages messages)]), db)).

Definition message_view (now : Z) (request : Request) (message_id : Z) (db : DB.t)
  : outcome reply * DB.t :=
  Depends_admin_required now request db (fun admin =>
    match get_contact_message db message_id with
    | None => (Failed (HTTPError 404 "Message not found"), db)
    | Some message =>
        let '(message, db) :=
          if negb (ContactMessage.is_read message) then
            let '(_, db) := mark_message_as_read db message_id in
            (read message, db)
          else (message, db) in
        (Done (Rendered "admin/message_view.html"
                 [("request", CtxRequest request);
                  ("admin", CtxData admin);
                  ("message", CtxMessage message)]), db)
    end).

Definition message_delete_confirm (now : Z) (request : Request) (message_id : Z)
    (db : DB.t) : outcome reply * DB.t :=
  Depends_admin_required now request db (fun admin =>
    match get_contact_message db message_id with
    | None => (Failed (HTTPError 404 "Message not found"), db)
    | Some message =>
        (Done (Rendered "admin/message_delete.html"
                 [("request", CtxRequest request);
                  ("admin", CtxData admin);
                  ("message", CtxMessage message)]), db)
    end).

Definition message_delete_action (now : Z) (request : Request) (message_id : Z)
    (db : DB.t) : outcome reply * DB.t :=
  Depends_admin_required now request db (fun admin =>
    let '(deleted, db) := delete_contact_message db message_id in
    if negb deleted then (Failed (HTTPError 404 "Message not found"), db)
    else (Done (Redirected (RedirectResponse "/admin/messages" 303)), db)).

End Dashboard.

(** * Definitions used by the statements about the data layer *)

Module Notions.

(** ** Tables *)

(** A table whose primary keys grow from row to row, as [next_id] hands
    them out; no two rows share a key. *)
Definition keyed {A} (id : A → Z) (rows : list A) : Prop :=
  StronglySorted Z.lt (id <$> rows).

(** [query.filter(Model.id == i).first()] *)
Definition row_with {A} (id : A → Z) (i : Z) (rows : list A) : option A :=
  head (filter (fun r => id r = i) rows).

(** A table that has a key left for its next row; the keys are handed out
    from 1 on, one by one. *)
Definition has_next_key {A} (id : A → Z) (rows : list A) : Prop :=
  sqlite_integer (next_id id rows).

(** ** Products *)

(** The rows a call of [get_products] asks for. *)
Definition wanted (ilike : string → string → bool) (category search : option string)
    (active_only best_sellers_only : bool) (p : Product.t) : Prop :=
  (active_only = true → Product.is_active p = true)
  ∧ (best_sellers_only = true → Product.is_best_seller p = true)
  ∧ (∀ c, category = Some c → c ≠ EmptyString → Product.category p = c)
  ∧ (∀ s, search = Some s → s ≠ EmptyString →
          ilike ("%" ++ s ++ "%")%string (Product.name p) = true).

(** By [display_order], then by [id]. *)
Definition by_display_order (p q : Product.t) : Prop :=
  (Product.display_order p < Product.display_order q
   ∨ (Product.display_order p = Product.display_order q ∧ Product.id p ≤ Product.id q))%Z.

(** Keyword arguments that give no value. *)
Definition no_product_kwargs : Product.kwargs :=
  {| Product.kw_name := None; Product.kw_category := None; Product.kw_price := None;
     Product.kw_image_filename := None; Product.kw_description := None;
     Product.kw_is_active := None; Product.kw_is_best_seller := None;
     Product.kw_display_order := None |}.

(** ** The weekly schedule *)

(** The day and the place of an entry of the public schedule, and of a row
    of the table. *)
Definition entry_key (e : APISchedule.t) : Z * string :=
  (APISchedule.day_index e, APISchedule.place e).

Definition slot_key (s : Schedule.t) : Z * string :=
  (Schedule.day_of_week s, Schedule.place s).

(** The entry that stands for one row alone. *)
Definition new_entry (s : Schedule.t) : APISchedule.t :=
  {| APISchedule.day := dict_get DAY_NAMES (Schedule.day_of_week s) EmptyString;
     APISchedule.day_index := Schedule.day_of_week s;
     APISchedule.place := Schedule.place s;
     APISchedule.hours := slot_hours s;
     APISchedule.is_weekend := bool_decide (5 ≤ Schedule.day_of_week s)%Z |}.

(** What holds of every entry: the name of its day, the week-end flag, and
    no hours for a place other than ["Ouvert"]. *)
Definition well_formed_entry (e : APISchedule.t) : Prop :=
  APISchedule.day e = dict_get DAY_NAMES (APISchedule.day_index e) EmptyString
  ∧ APISchedule.is_weekend e = bool_decide (5 ≤ APISchedule.day_index e)%Z
  ∧ (APISchedule.place e ≠ "Ouvert" → APISchedule.hours e = "-").

(** ** Passwords *)

(** What [checkpw] needs of the bcrypt derivation for a password: a digest
    holds no ['$'], and hashing again with a digest as the salt gives that
    digest back, the first 22 characters of a digest being its salt. *)
Definition rehashes `{Platform} (password : bytes) : Prop :=
  ∀ cost salt out,
    bcrypt_core cost salt password = Some out →
    (cost < 2 ^ 32)%N →
    22 ≤ length out
    ∧ ("$"%char ∉ out)
    ∧ bcrypt_core cost (take 22 out) password = Some out.

(** A decimal digit, and the version tags [parse_salt] accepts. *)
Definition is_decimal (c : ascii) : Prop := is_Some (Bcrypt.digit_value c).

Definition versions : list bytes := [b["2a"]; b["2b"]; b["2x"]; b["2y"]].

(** The credentials [main] uses: the two arguments of the command line, or
    those of the settings. *)
Definition credentials (init : InitAdmin) (argv : list string) : string * string :=
  match argv with
  | _ :: u :: p :: _ => (u, p)
  | _ => (INIT_ADMIN_USERNAME init, INIT_ADMIN_PASSWORD init)
  end.

(** ** Seeding *)

(** A table that is filled only when it is empty. *)
Definition if_empty {A} (rows new : list A) : list A :=
  match rows with
  | [] => new
  | _ => rows
  end.

(** The rows [seed_database] and the [ensure_] functions put into empty
    tables. *)
Definition first_products : list Product.t :=
  DB.products (create_each create_product INITIAL_PRODUCTS DB.empty).2.

Definition first_schedules : list Schedule.t :=
  DB.schedules (create_each create_schedule INITIAL_SCHEDULE DB.empty).2.

Definition first_settings : Settings.t := (ensure_settings_exist DB.empty).1.

Definition first_location : Location.t := (ensure_location_exists DB.empty).1.

(** The lines [main] prints under the default password. *)
Definition password_warning : list string :=
  [String "010"%char "[WARNING] You are using the default password.";
   "          Please change it immediately after first login!"].

(** ** Forms *)

(** What the database refuses of a product form: a display order that does
    not fit 64 bits, with [OverflowError], and otherwise a NaN as the price,
    with [IntegrityError]. *)
Definition refused (price : float) (display_order : Z) : option error :=
  if decide (sqlite_integer display_order) then
    match price with
    | SpecFloat.S754_nan => Some IntegrityError
    | _ => None
    end
  else Some OverflowError.

(** What a form that leaves a field empty does to a stored text: nothing. *)
Definition unless_empty (submitted stored : string) : string :=
  if nonempty submitted then submitted else stored.

(** The settings the public API reports, after a form was submitted over
    them. *)
Definition overlay (stored : list (string * string)) (submitted : list string)
  : list (string * string) :=
  zip_with (fun kv s => (kv.1, unless_empty s kv.2)) stored submitted.

(** ** The protected routes *)

(** A request to one of the routes that depend on [admin_required], with
    what it carries in its path and its form. *)
Inductive protected_request : Type :=
  | GET_dashboard
  | GET_products_list
  | GET_product_new
  | POST_product_create (name category : string) (price : float)
      (image_filename description : string) (is_active is_best_seller : bool)
      (display_order : Z)
  | GET_product_edit (product_id : Z)
  | POST_product_update (product_id : Z) (name category : string) (price : float)
      (image_filename description : string) (is_active is_best_seller : bool)
      (display_order : Z)
  | GET_product_delete_confirm (product_id : Z)
  | POST_product_delete_action (product_id : Z)
  | GET_location_edit
  | POST_location_update (today_location today_hours daily_message : string)
  | GET_schedule_list
  | GET_schedule_new
  | POST_schedule_create (day_of_week : Z) (place start_time end_time : string)
      (is_active : bool)
  | GET_schedule_edit (schedule_id : Z)
  | POST_schedule_update_action (schedule_id : Z) (day_of_week : Z)
      (place start_time end_time : string) (is_active : bool)
  | GET_schedule_delete_confirm (schedule_id : Z)
  | POST_schedule_delete_action (schedule_id : Z)
  | GET_settings_edit
  | POST_settings_update (hours_weekday hours_evening hours_weekend instagram_url
      tiktok_url site_name slogan : string)
  | GET_messages_list
  | GET_message_view (message_id : Z)
  | GET_message_delete_confirm (message_id : Z)
  | POST_message_delete_action (message_id : Z).

(** The route the router hands a request to. *)
Definition handle `{Platform} (config : Settings) (ilike : string → string → bool)
    (now : Z) (request : Request) (r : protected_request) (db : DB.t)
  : outcome reply * DB.t :=
  match r with
  | GET_dashboard => dashboard config now request db
  | GET_products_list => products_list config ilike now request db
  | GET_product_new => product_new config now request db
  | POST_product_create name category price image_filename description is_active
      is_best_seller display_order =>
      product_create config now request name category price image_filename description
        is_active is_best_seller display_order db
  | GET_product_edit product_id => product_edit config now request product_id db
  | POST_product_update product_id name category price image_filename description
      is_active is_best_seller display_order =>
      product_update config now request product_id name category price image_filename
        description is_active is_best_seller display_order db
  | GET_product_delete_confirm product_id =>
      product_delete_confirm config now request product_id db
  | POST_product_delete_action product_id =>
      product_delete_action config now request product_id db
  | GET_location_edit => location_edit config now request db
  | POST_location_update today_location today_hours daily_message =>
      location_update config now request today_location today_hours daily_message db
  | GET_schedule_list => schedule_list config now request db
  | GET_schedule_new => schedule_new config now request db
  | POST_schedule_create day_of_week place start_time end_time is_active =>
      schedule_create config now request day_of_week place start_time end_time
        is_active db
  | GET_schedule_edit schedule_id => schedule_edit config now request schedule_id db
  | POST_schedule_update_action schedule_id day_of_week place start_time end_time
      is_active =>
      schedule_update_action config now request schedule_id day_of_week place
        start_time end_time is_active db
  | GET_schedule_delete_confirm schedule_id =>
      schedule_delete_confirm config now request schedule_id db
  | POST_schedule_delete_action schedule_id =>
      schedule_delete_action config now request schedule_id db
  | GET_settings_edit => settings_edit config now request db
  | POST_settings_update hours_weekday hours_evening hours_weekend instagram_url
      tiktok_url site_name slogan =>
      settings_update config now request hours_weekday hours_evening hours_weekend
        instagram_url tiktok_url site_name slogan db
  | GET_messages_list => messages_list config now request db
  | GET_message_view message_id => message_view config now request message_id db
  | GET_message_delete_confirm message_id =>
      message_delete_confirm config now request message_id db
  | POST_message_delete_action message_id =>
      message_delete_action config now request message_id db
  end.

(** The row a request names in its path, for the requests that name one:
    the kind of the row, and whether its table holds a row under that
    key. *)
Definition named_row (r : protected_request) (db : DB.t) : option (string * bool) :=
  match r with
  | GET_product_edit i | POST_product_update i _ _ _ _ _ _ _ _
  | GET_product_delete_confirm i | POST_product_delete_action i =>
      Some ("Product", bool_decide (i ∈ Product.id <$> DB.products db))
  | GET_schedule_edit i | POST_schedule_update_action i _ _ _ _ _
  | GET_schedule_delete_confirm i | POST_schedule_delete_action i =>
      Some ("Schedule", bool_decide (i ∈ Schedule.id <$> DB.schedules db))
  | GET_message_view i | GET_message_delete_confirm i | POST_message_delete_action i =>
      Some ("Message", bool_decide (i ∈ ContactMessage.id <$> DB.contact_messages db))
  | _ => None
  end.

(** The key of that row. *)
Definition named_key (r : protected_request) : option Z :=
  match r with
  | GET_product_edit i | POST_product_update i _ _ _ _ _ _ _ _
  | GET_product_delete_confirm i | POST_product_delete_action i
  | GET_schedule_edit i | POST_schedule_update_action i _ _ _ _ _
  | GET_schedule_delete_confirm i | POST_schedule_delete_action i
  | GET_message_view i | GET_message_delete_confirm i | POST_message_delete_action i =>
      Some i
  | _ => None
  end.

(** An update whose form the database refuses: the route hands its
    template an expired row. *)
Definition refused_update (r : protected_request) : bool :=
  match r with
  | POST_product_update _ _ _ price _ _ _ _ display_order =>
      bool_decide (is_Some (refused price display_order))
  | POST_schedule_update_action _ day_of_week _ _ _ _ =>
      negb (bool_decide (sqlite_integer day_of_week))
  | _ => false
  end.

(** The routes declared with [@router.get]. *)
Definition is_GET (r : protected_request) : bool :=
  match r with
  | GET_dashboard | GET_products_list | GET_product_new | GET_product_edit _
  | GET_product_delete_confirm _ | GET_location_edit | GET_schedule_list
  | GET_schedule_new | GET_schedule_edit _ | GET_schedule_delete_confirm _
  | GET_settings_edit | GET_messages_list | GET_message_view _
  | GET_message_delete_confirm _ => true
  | _ => false
  end.

(** A request that carries no session: no cookie, a cookie whose signature
    no signer accepts, or a cookie whose signature is older than the
    session. *)
Inductive no_session `{Platform} (config : Settings) (now : Z) (request : Request) : Prop :=
  | no_cookie :
      cookies request !! SESSION_COOKIE_NAME = None →
      no_session config now request
  | not_signed token :
      cookies request !! SESSION_COOKIE_NAME = Some token →
      Support.signature_rejected (serializer_key config) (want_bytes token) →
      no_session config now request
  | too_old token value ts :
      cookies request !! SESSION_COOKIE_NAME = Some token →
      Support.signed_at (serializer_key config) (want_bytes token) value ts →
      (ts ≤ ItsDangerous.MAX_TIMESTAMP)%Z →
      (now - ts > ADMIN_SESSION_EXPIRE_MINUTES config * 60)%Z →
      no_session config now request.

End Notions.

(** ** A small kiosk, to evaluate the statements on *)

Module Example.
Import Sample.

(** An [ilike] that knows no wildcard but the two of [get_products]: the
    name is the searched text, letter for letter. *)
Definition whole_name (pattern name : string) : bool :=
  bool_decide (pattern = ("%" ++ name ++ "%")%string).

Definition crepe : Product.t :=
  {| Product.id := 1; Product.name := "Crepe au miel";
     Product.category := "crepes_sucrees"; Product.price := price_3_50;
     Product.image_filename := None; Product.description := None;
     Product.is_active := true; Product.is_best_seller := true;
     Product.display_order := 2 |}.

Definition gaufre : Product.t :=
  {| Product.id := 2; Product.name := "Gaufre"; Product.category := "gaufres";
     Product.price := price_4_50; Product.image_filename := Some "gaufre.jpg";
     Product.description := None; Product.is_active := true;
     Product.is_best_seller := false; Product.display_order := 1 |}.

(** A product that was taken off the menu; the key 3 was deleted. *)
Definition box : Product.t :=
  {| Product.id := 4; Product.name := "Box"; Product.category := "box";
     Product.price := price_7_90; Product.image_filename := None;
     Product.description := Some "Pour deux"; Product.is_active := false;
     Product.is_best_seller := true; Product.display_order := 0 |}.

Definition monday_evening : Schedule.t :=
  {| Schedule.id := 1; Schedule.day_of_week := 0; Schedule.place := "Ouvert";
     Schedule.start_time := Some "18:00"; Schedule.end_time := Some "21:00";
     Schedule.is_active := true |}.

Definition monday_noon : Schedule.t :=
  {| Schedule.id := 2; Schedule.day_of_week := 0; Schedule.place := "Ouvert";
     Schedule.start_time := Some "11:30"; Schedule.end_time := Some "14:00";
     Schedule.is_active := true |}.

Definition sunday : Schedule.t :=
  {| Schedule.id := 3; Schedule.day_of_week := 6; Schedule.place := "Ferme";
     Schedule.start_time := None; Schedule.end_time := None;
     Schedule.is_active := false |}.

Definition hello : ContactMessage.t :=
  {| ContactMessage.id := 1; ContactMessage.name := "Zoe";
     ContactMessage.email := "zoe@example.org"; ContactMessage.phone := None;
     ContactMessage.subject := "Bonjour"; ContactMessage.message := "A samedi ?";
     ContactMessage.created_at := 1730000000000000%Z;
     ContactMessage.is_read := false |}.

Definition db : DB.t :=
  {| DB.admins := Sample.db;
     DB.products := [crepe; gaufre; box];
     DB.schedules := [monday_evening; monday_noon; sunday];
     DB.location := [];
     DB.settings := [];
     DB.contact_messages := [hello] |}.

(** A salt as [bcrypt.gensalt()] draws them, and the hash of ["admin123"]
    under it. *)
Definition salt : bytes := b["$2b$12$abcdefghijklmnopqrstuu"].

Definition admin123_hash : string :=
  "$2b$12$abcdefghijklmnopqrstuuR3O4d3qEPj5erNDZgpSa2MWFz_HA2rE".

(** The administrator that [create_admin] adds to [db] for carol. *)
Definition carol : Admin :=
  {| id := 3; username := "carol"; password_hash := admin123_hash; is_active := true |}.

(** The first administrator of an empty database. *)
Definition admin : Admin :=
  {| id := 1; username := "admin"; password_hash := admin123_hash; is_active := true |}.

(** The databases [seed_database] leaves, started on the empty one and on
    [db]. *)
Definition first_start : DB.t :=
  (seed_database (H := reference_platform) default_init_admin salt DB.empty).2.

Definition restarted : DB.t :=
  (seed_database (H := reference_platform) default_init_admin salt db).2.

(** alice's request, with the cookie she was given at [login_time]. *)
Definition request : Request := with_session alice_token.

End Example.

(** * Properties *)

Import Support.

(** ** Test vectors of the reference platform *)

(** FIPS 180 example and RFC 2202 test case 2. *)
Example sha1_abc :
  hex (SHA1.digest b["abc"]) = "a9993e364706816aba3e25717850c26c9cd0d89d".
Proof. vm_compute. reflexivity. Qed.

Example hmac_sha1_rfc2202 :
  hex (SHA1.hmac b["Jefe"] b["what do ya want for nothing?"])
  = "effcdf6ae5eb2fa2d27416d5f184df9c259a7c79".
Proof. vm_compute. reflexivity. Qed.

(** [zlib.compress(b"abc", 0)] *)
Example zlib_stored_abc :
  hex (Zlib.compress b["abc"]) = "7801010300fcff616263024d0127"
  ∧ Zlib.decompress (Zlib.compress b["abc"]) = Some b["abc"].
Proof. split; vm_compute; reflexivity. Qed.

(** The decoder is lenient: it drops the bits that do not fill a byte, and
    reads both alphabets. *)
Example base64_decode_lenient :
  Encoding.base64_decode b["QQ"] = Some b["A"]
  ∧ Encoding.base64_decode b["QR"] = Some b["A"]
  ∧ Encoding.base64_decode b["-_8"] = Encoding.base64_decode b["+/8"].
Proof. repeat split; vm_compute; reflexivity. Qed.

(** ** Enumerating bytes *)

Lemma all_bytes_complete (c : ascii) : c ∈ all_bytes.
Proof.
  unfold all_bytes. apply list_elem_of_fmap. exists (nat_of_ascii c). split.
  - symmetry. apply ascii_nat_embedding.
  - apply elem_of_seq. pose proof (nat_ascii_bounded c). lia.
Qed.

Lemma forall_bytes (P : ascii → bool) :
  forallb P all_bytes = true → ∀ c, P c = true.
Proof.
  intros Hall c. rewrite forallb_forall in Hall. apply Hall.
  apply list_elem_of_In, all_bytes_complete.
Qed.

Lemma forall_bytes2 (P : ascii → ascii → bool) :
  forallb (fun a => forallb (P a) all_bytes) all_bytes = true → ∀ a b, P a b = true.
Proof.
  intros Hall a b. apply forall_bytes. revert a. apply forall_bytes. exact Hall.
Qed.

(** ** Base64 *)

Module EncodingFacts.
Import Encoding.

Lemma char1_all a : char1_ok a = true.
Proof. revert a. apply forall_bytes. vm_compute. reflexivity. Qed.

Lemma char2_all a b : char2_ok a b = true.
Proof. revert a b. apply forall_bytes2. vm_compute. reflexivity. Qed.

Lemma char3_all b c : char3_ok b c = true.
Proof. revert b c. apply forall_bytes2. vm_compute. reflexivity. Qed.

Lemma char4_all c : char4_ok c = true.
Proof. revert c. apply forall_bytes. vm_compute. reflexivity. Qed.

(** One step of the decoder on a data character. *)
Lemma a2b_data c v rest q l p :
  writes c v = true →
  a2b_base64 (c :: rest) q l p =
    match q with
    | 0 => a2b_base64 rest 1 v 0
    | 1 => cons (byte_of_N (N.lor (N.shiftl l 2) (N.shiftr v 4)))
             <$> a2b_base64 rest 2 (N.land v 15) 0
    | 2 => cons (byte_of_N (N.lor (N.shiftl l 4) (N.shiftr v 2)))
             <$> a2b_base64 rest 3 (N.land v 3) 0
    | _ => cons (byte_of_N (N.lor (N.shiftl l 6) v)) <$> a2b_base64 rest 0 0 0
    end.
Proof.
  unfold writes. intros [Hne Hv]%andb_prop.
  apply bool_decide_eq_true in Hne, Hv. unfold pad_char in Hne.
  simpl. destruct (decide (c = "="%char)) as [|_]; [done|]. rewrite Hv. done.
Qed.

Lemma char2_spec a b :
  let x := N_of_byte a in
  let y := N_of_byte b in
  let v := sextet2 x y in
  writes (b64_char v) v = true
  ∧ byte_of_N (N.lor (N.shiftl (N.shiftr x 2) 2) (N.shiftr v 4)) = a
  ∧ N.land v 15 = N.shiftr y 4.
Proof.
  pose proof (char2_all a b) as H. unfold char2_ok in H.
  apply andb_prop in H as [[H1 H2]%andb_prop H3].
  apply bool_decide_eq_true in H2, H3. done.
Qed.

Lemma char3_spec b c :
  let y := N_of_byte b in
  let z := N_of_byte c in
  let v := sextet3 y z in
  writes (b64_char v) v = true
  ∧ byte_of_N (N.lor (N.shiftl (N.shiftr y 4) 4) (N.shiftr v 2)) = b
  ∧ N.land v 3 = N.shiftr z 6.
Proof.
  pose proof (char3_all b c) as H. unfold char3_ok in H.
  apply andb_prop in H as [[H1 H2]%andb_prop H3].
  apply bool_decide_eq_true in H2, H3. done.
Qed.

Lemma char4_spec c :
  let z := N_of_byte c in
  writes (b64_char (N.land z 63)) (N.land z 63) = true
  ∧ byte_of_N (N.lor (N.shiftl (N.shiftr z 6) 6) (N.land z 63)) = c.
Proof.
  pose proof (char4_all c) as H. unfold char4_ok in H.
  apply andb_prop in H as [H1 H2]. apply bool_decide_eq_true in H2. done.
Qed.

(** Decoding a full group of four characters gives back its three bytes. *)
Lemma a2b_group a b c rest :
  a2b_base64 (base64_encode [a; b; c] ++ rest) 0 0 0
  = (fun t => a :: b :: c :: t) <$> a2b_base64 rest 0 0 0.
Proof.
  pose proof (char1_all a) as W1. unfold char1_ok in W1.
  destruct (char2_spec a b) as (W2 & B2 & L2).
  destruct (char3_spec b c) as (W3 & B3 & L3).
  destruct (char4_spec c) as (W4 & B4).
  cbn [base64_encode app].
  fold (sextet2 (N_of_byte a) (N_of_byte b)).
  fold (sextet3 (N_of_byte b) (N_of_byte c)).
  rewrite (a2b_data _ _ _ _ _ _ W1), (a2b_data _ _ _ _ _ _ W2),
    (a2b_data _ _ _ _ _ _ W3), (a2b_data _ _ _ _ _ _ W4).
  rewrite B2, L2, B3, L3, B4.
  destruct (a2b_base64 rest 0 0 0); reflexivity.
Qed.

Lemma list_ind3 {A} (P : list A → Prop) :
  P [] → (∀ a, P [a]) → (∀ a b, P [a; b]) →
  (∀ a b c l, P l → P (a :: b :: c :: l)) → ∀ l, P l.
Proof.
  intros H0 H1 H2 H3.
  fix IH 1. intros [|a [|b [|c l]]]; [exact H0|apply H1|apply H2|].
  apply H3, IH.
Qed.

Lemma encode_cons3 a b c rest :
  base64_encode (a :: b :: c :: rest) = base64_encode [a; b; c] ++ base64_encode rest.
Proof. reflexivity. Qed.

Lemma encode_length3 a b c rest :
  length (base64_encode (a :: b :: c :: rest)) = 4 + length (base64_encode rest).
Proof. reflexivity. Qed.

Lemma padding_add4 n : padding (4 + n) = padding n.
Proof.
  unfold padding. f_equal. f_equal. f_equal.
  replace (4 + n) with (n + 1 * 4) by lia. apply Nat.Div0.mod_add.
Qed.

Lemma a2b_encode_padded bs :
  a2b_base64 (base64_encode bs ++ padding (length (base64_encode bs))) 0 0 0 = Some bs.
Proof.
  induction bs as [|a|a b|a b c l IH] using list_ind3.
  - reflexivity.
  - pose proof (char1_all a) as W1. unfold char1_ok in W1.
    destruct (char2_spec a "000"%char) as (W2 & B2 & _).
    change (N_of_byte "000") with 0%N in *.
    unfold sextet2 in *. change (N.shiftr 0 4) with 0%N in *.
    rewrite N.lor_0_r in *.
    cbn [base64_encode app length padding]. change (padding 2) with [pad_char; pad_char].
    cbn [app].
    rewrite (a2b_data _ _ _ _ _ _ W1), (a2b_data _ _ _ _ _ _ W2), B2.
    reflexivity.
  - pose proof (char1_all a) as W1. unfold char1_ok in W1.
    destruct (char2_spec a b) as (W2 & B2 & L2).
    destruct (char3_spec b "000"%char) as (W3 & B3 & _).
    change (N_of_byte "000") with 0%N in *.
    unfold sextet3 in *. change (N.shiftr 0 6) with 0%N in *.
    rewrite N.lor_0_r in *.
    cbn [base64_encode app length]. change (padding 3) with [pad_char].
    fold (sextet2 (N_of_byte a) (N_of_byte b)). cbn [app].
    rewrite (a2b_data _ _ _ _ _ _ W1), (a2b_data _ _ _ _ _ _ W2),
      (a2b_data _ _ _ _ _ _ W3), B2, L2, B3.
    reflexivity.
  - rewrite encode_length3, padding_add4, encode_cons3, <- app_assoc.
    rewrite a2b_group, IH. reflexivity.
Qed.

(** Decoding undoes encoding. *)
Lemma base64_decode_encode bs : base64_decode (base64_encode bs) = Some bs.
Proof. apply a2b_encode_padded. Qed.

(** The encoder writes characters of the alphabet only; in particular never
    the separator of a token. *)
Lemma b64_char_alphabet v : b64_char v ∈ alphabet.
Proof.
  unfold b64_char.
  destruct (decide (N.to_nat v < length alphabet)) as [Hlt|Hge].
  - apply list_elem_of_In, nth_In, Hlt.
  - rewrite nth_overflow by lia. vm_compute. apply list_elem_of_here.
Qed.

Lemma encode_alphabet bs : Forall (fun c => c ∈ alphabet) (base64_encode bs).
Proof.
  induction bs as [|a|a b|a b c l IH] using list_ind3; cbn [base64_encode];
    repeat (constructor; [apply b64_char_alphabet|]); done.
Qed.

Lemma alphabet_not_sep c : c ∈ alphabet → c ≠ ItsDangerous.sep.
Proof.
  intros Hin ->.
  assert (bool_decide (ItsDangerous.sep ∈ alphabet) = false) as Hno
    by (vm_compute; reflexivity).
  by apply bool_decide_eq_false in Hno.
Qed.

End EncodingFacts.

(** ** Timestamps *)

Module TimestampFacts.
Import Encoding.

Lemma be_int_snoc b c : be_int (b ++ [c]) = (be_int b * 256 + Z.of_N (N_of_byte c))%Z.
Proof. unfold be_int. rewrite fold_left_app. reflexivity. Qed.

Lemma byte_of_N_of_Z z :
  (0 ≤ z < 256)%Z → Z.of_N (N_of_byte (byte_of_N (Z.to_N z))) = z.
Proof.
  intros Hz. unfold N_of_byte, byte_of_N.
  rewrite N_ascii_embedding by lia. lia.
Qed.

Lemma be_int_be_bytes n z : (0 ≤ z)%Z → be_int (be_bytes n z) = (z mod 256 ^ Z.of_nat n)%Z.
Proof.
  revert z. induction n as [|n IH]; intros z Hz.
  - simpl. rewrite Z.mod_1_r. reflexivity.
  - cbn [be_bytes]. rewrite be_int_snoc, IH by (apply Z.div_pos; lia).
    rewrite byte_of_N_of_Z by (apply Z.mod_pos_bound; lia).
    rewrite Nat2Z.inj_succ, Z.pow_succ_r by lia.
    assert (0 < 256 ^ Z.of_nat n)%Z by (apply Z.pow_pos_nonneg; lia).
    rewrite Z.rem_mul_r by lia. lia.
Qed.

Lemma be_int_zero_cons b : be_int ("000"%char :: b) = be_int b.
Proof. reflexivity. Qed.

Lemma be_int_lstrip0 b : be_int (lstrip0 b) = be_int b.
Proof.
  induction b as [|c b IH]; [done|].
  cbn [lstrip0]. destruct (decide (c = "000"%char)) as [->|]; [|done].
  rewrite IH. symmetry. apply be_int_zero_cons.
Qed.

Lemma lstrip0_length b : length (lstrip0 b) ≤ length b.
Proof.
  induction b as [|c b IH]; [done|].
  cbn [lstrip0]. destruct (decide (c = "000"%char)); simpl; lia.
Qed.

Lemma be_bytes_length n z : length (be_bytes n z) = n.
Proof.
  revert z. induction n as [|n IH]; intros z; [done|].
  cbn [be_bytes]. rewrite length_app, IH. simpl. lia.
Qed.

(** A timestamp that [int_to_bytes] accepts is read back unchanged. *)
Lemma bytes_to_int_to_bytes num b :
  int_to_bytes num = Return b → bytes_to_int b = Return num.
Proof.
  unfold int_to_bytes, bytes_to_int.
  destruct (decide (0 ≤ num < 2 ^ 64)%Z) as [Hr|]; [|discriminate].
  pose proof (lstrip0_length (be_bytes 8 num)) as Hl.
  rewrite be_bytes_length in Hl.
  assert (be_int (lstrip0 (be_bytes 8 num)) = num) as Hint.
  { rewrite be_int_lstrip0, be_int_be_bytes by lia.
    apply Z.mod_small. change (256 ^ Z.of_nat 8)%Z with (2 ^ 64)%Z. lia. }
  revert Hl Hint. generalize (lstrip0 (be_bytes 8 num)). intros bs Hl Hint [= <-].
  destruct (decide (length bs ≤ 8)) as [_|]; [|lia].
  by rewrite Hint.
Qed.



Lemma int_to_bytes_range num :
  (0 ≤ num < 2 ^ 64)%Z → ∃ b, int_to_bytes num = Return b.
Proof.
  intros Hr. unfold int_to_bytes. destruct (decide _); [eauto|lia].
Qed.

End TimestampFacts.

(** ** Signing and unsigning *)

Module SignerFacts.
Import Encoding ItsDangerous EncodingFacts TimestampFacts.

Lemma rsplit_sep_None s : sep ∉ s → rsplit_sep s = None.
Proof.
  induction s as [|c s IH]; [done|].
  intros Hnot. apply not_elem_of_cons in Hnot as [Hc Hs].
  cbn [rsplit_sep]. rewrite (IH Hs).
  destruct (decide (c = sep)); congruence.
Qed.

(** Splitting at the last separator. *)
Lemma rsplit_sep_app v t : sep ∉ t → rsplit_sep (v ++ sep :: t) = Some (v, t).
Proof.
  intros Ht. induction v as [|c v IH].
  - cbn [app rsplit_sep]. rewrite (rsplit_sep_None _ Ht).
    destruct (decide (sep = sep)); done.
  - cbn [app rsplit_sep]. rewrite IH. done.
Qed.

Lemma rsplit_sep_Some s v t : rsplit_sep s = Some (v, t) → s = v ++ sep :: t ∧ sep ∉ t.
Proof.
  revert v t. induction s as [|c s IH]; intros v t; [done|].
  cbn [rsplit_sep]. destruct (rsplit_sep s) as [[v' t']|] eqn:Hs.
  - intros [= <- <-]. destruct (IH _ _ eq_refl) as [-> Hnot]. done.
  - destruct (decide (c = sep)) as [->|]; [|done].
    intros [= <- <-]. split; [done|].
    intros Hin. induction s as [|d s IHs]; [by apply elem_of_nil in Hin|].
    cbn [rsplit_sep] in Hs. destruct (rsplit_sep s) as [[??]|] eqn:Hs'; [done|].
    destruct (decide (d = sep)); [done|].
    apply elem_of_cons in Hin as [Hin|Hin]; [congruence|]. by apply IHs.
Qed.

Lemma encode_no_sep bs : sep ∉ base64_encode bs.
Proof.
  intros Hin. pose proof (encode_alphabet bs) as Hall.
  rewrite Forall_forall in Hall. by apply (alphabet_not_sep _ (Hall _ Hin)).
Qed.

Section Signer.
Variable secret_key : bytes.
Variable md : digest_method.

Lemma verify_get_signature value :
  verify_signature secret_key md value (get_signature secret_key md value) = true.
Proof.
  unfold verify_signature, get_signature. rewrite base64_decode_encode.
  by apply bool_decide_eq_true.
Qed.

Lemma Signer_unsign_signed value :
  Signer_unsign secret_key md (value ++ [sep] ++ get_signature secret_key md value)
  = Unsigned value.
Proof.
  unfold Signer_unsign. cbn [app].
  rewrite rsplit_sep_app by apply encode_no_sep.
  rewrite verify_get_signature. done.
Qed.

(** The outcome of [unsign] on what [sign] wrote at [issued]: the age test
    alone decides. *)
Lemma unsign_sign issued now max_age value signed :
  sign secret_key md issued value = Return signed →
  unsign secret_key md now max_age signed =
    if decide (now - issued > max_age)%Z then
      _ ← timestamp_to_datetime issued; Raise SignatureExpired
    else if decide (now - issued < 0)%Z then
      _ ← timestamp_to_datetime issued; Raise SignatureExpired
    else dt ← timestamp_to_datetime issued; Return (value, dt).
Proof.
  unfold sign. destruct (int_to_bytes issued) as [ts|] eqn:Hts; [|discriminate].
  cbn [mbind result_bind]. intros [= <-].
  unfold unsign. rewrite Signer_unsign_signed.
  cbn [app]. rewrite rsplit_sep_app by apply encode_no_sep.
  unfold read_timestamp. rewrite base64_decode_encode.
  rewrite (bytes_to_int_to_bytes _ _ Hts). done.
Qed.

(** A signature that does not verify is a [BadSignature], or a
    [BadTimeSignature] when the value has a timestamp field. *)
Lemma unsign_sig_error now max_age signed p :
  Signer_unsign secret_key md signed = SigError p →
  unsign secret_key md now max_age signed = Raise BadSignature
  ∨ unsign secret_key md now max_age signed = Raise BadTimeSignature.
Proof.
  intros Hs. unfold unsign. rewrite Hs.
  destruct (rsplit_sep (default [] p)) as [[value ts]|]; auto.
Qed.

Lemma unsign_Return_inv now max_age signed value dt :
  unsign secret_key md now max_age signed = Return (value, dt) →
  ∃ ts_bytes,
    Signer_unsign secret_key md signed = Unsigned (value ++ sep :: ts_bytes)
    ∧ (sep ∉ ts_bytes)
    ∧ read_timestamp ts_bytes = Some dt
    ∧ (0 ≤ now - dt ≤ max_age)%Z.
Proof.
  unfold unsign.
  destruct (Signer_unsign _ _ signed) as [v|p] eqn:Hs.
  - destruct (rsplit_sep v) as [[value' tsb]|] eqn:Hsplit; [|done].
    apply rsplit_sep_Some in Hsplit as [-> Hsep].
    destruct (read_timestamp tsb) as [ts|] eqn:Hts; [|done].
    unfold timestamp_to_datetime.
    repeat destruct (decide _); try done.
    intros [= <- <-]. exists tsb. repeat split; try done; lia.
  - destruct (rsplit_sep (default [] p)) as [[??]|]; done.
Qed.



End Signer.
End SignerFacts.

(** ** Payloads and whole tokens *)

Module SerializerFacts.
Import Encoding ItsDangerous EncodingFacts TimestampFacts SignerFacts.

Section Serializer.
Context `{Platform}.
Variable secret_key : bytes.

Lemma load_dump_payload obj :
  codec_roundtrips obj → load_payload (dump_payload obj) = Return obj.
Proof.
  intros [Hjson Hzlib]. unfold dump_payload, load_payload.
  destruct (decide _) as [_|_].
  - destruct (decide (sep = sep)) as [_|]; [|done].
    rewrite base64_decode_encode, Hzlib, Hjson. done.
  - destruct (base64_encode (json_dumps obj)) as [|c rest] eqn:Henc.
    + rewrite <- Henc, base64_decode_encode, Hjson. done.
    + destruct (decide (c = sep)) as [->|_].
      * exfalso. apply (encode_no_sep (json_dumps obj)). rewrite Henc. left.
      * rewrite <- Henc, base64_decode_encode, Hjson. done.
Qed.

Lemma load_payload_Raise b e : load_payload b = Raise e → e = BadPayload.
Proof.
  unfold load_payload.
  destruct b as [|c rest]; [|destruct (decide (c = sep))];
    repeat (match goal with |- context [match ?x with _ => _ end] => destruct x end);
    congruence.
Qed.

Lemma want_bytes_decode b : want_bytes (decode_utf8 b) = b.
Proof. apply list_ascii_of_string_of_list_ascii. Qed.

(** A token is the payload, the timestamp and the signature, separated by
    dots. *)
Lemma dumps_inv issued obj token :
  dumps secret_key issued obj = Return token →
  ∃ signed, sign secret_key sha1 issued (dump_payload obj) = Return signed
            ∧ token = decode_utf8 signed ∧ (0 ≤ issued < 2 ^ 64)%Z.
Proof.
  unfold dumps. destruct (sign _ _ _ _) as [signed|] eqn:Hs; [|discriminate].
  intros [= <-]. exists signed. split; [done|]. split; [done|].
  unfold sign, int_to_bytes in Hs. destruct (decide _); [done|discriminate].
Qed.

Lemma dumps_nonempty issued obj token :
  dumps secret_key issued obj = Return token → token ≠ EmptyString.
Proof.
  intros (signed & Hs & -> & _)%dumps_inv Hempty.
  apply (f_equal want_bytes) in Hempty. rewrite want_bytes_decode in Hempty.
  unfold sign in Hs. destruct (int_to_bytes issued); [|discriminate].
  injection Hs as <-. by destruct (dump_payload obj).
Qed.

(** One turn of the loop of [loads], by the outcome of the signer. *)
Lemma loads_loop_cons md rest e0 now max_age s :
  loads_loop secret_key (md :: rest) e0 now max_age s =
    match unsign secret_key md now max_age s with
    | Return (b, _) => load_payload b
    | Raise e =>
        if issubclass e SignatureExpired then Raise e
        else if issubclass e BadSignature then loads_loop secret_key rest e now max_age s
        else Raise e
    end.
Proof.
  cbn [loads_loop]. destruct (unsign _ _ _ _ _) as [[b dt]|e]; [|done].
  cbn. destruct (load_payload b) as [v|e] eqn:Hl; [done|].
  by rewrite (load_payload_Raise _ _ Hl).
Qed.

(** [loads] on a token that [dumps] wrote at [issued]. *)
Lemma loads_dumps issued now max_age obj token :
  dumps secret_key issued obj = Return token →
  (issued ≤ MAX_TIMESTAMP)%Z →
  loads secret_key now token max_age =
    if decide (0 ≤ now - issued ≤ max_age)%Z then load_payload (dump_payload obj)
    else Raise SignatureExpired.
Proof.
  intros (signed & Hs & -> & _)%dumps_inv Hmax.
  unfold loads, iter_unsigners.
  rewrite loads_loop_cons, want_bytes_decode, (unsign_sign _ _ _ _ _ _ _ Hs).
  unfold timestamp_to_datetime. destruct (decide (issued ≤ _)%Z); [|lia].
  repeat destruct (decide _); try lia; done.
Qed.

(** A token of [dumps] is signed at the time it was issued. *)
Lemma dumps_signed_at issued obj token :
  dumps secret_key issued obj = Return token →
  signed_at secret_key (want_bytes token) (dump_payload obj) issued.
Proof.
  intros (signed & Hs & -> & _)%dumps_inv. rewrite want_bytes_decode.
  unfold sign in Hs. destruct (int_to_bytes issued) as [ts|] eqn:Hts; [|discriminate].
  injection Hs as <-. exists (base64_encode ts). split; [|split].
  - apply (Signer_unsign_signed secret_key sha1).
  - apply encode_no_sep.
  - unfold read_timestamp. rewrite base64_decode_encode.
    by rewrite (bytes_to_int_to_bytes _ _ Hts).
Qed.

(** [loads] on a token whose signature verifies: the age test decides, then
    the payload is read. *)
Lemma loads_signed_at now max_age token value ts :
  signed_at secret_key (want_bytes token) value ts →
  (ts ≤ MAX_TIMESTAMP)%Z →
  loads secret_key now token max_age =
    if decide (0 ≤ now - ts ≤ max_age)%Z then load_payload value
    else Raise SignatureExpired.
Proof.
  intros (tsb & Hs & Hsep & Hts) Hmax.
  unfold loads, iter_unsigners. rewrite loads_loop_cons.
  unfold unsign. rewrite Hs, (rsplit_sep_app _ _ Hsep), Hts.
  unfold timestamp_to_datetime. destruct (decide (ts ≤ _)%Z); [|lia].
  repeat destruct (decide _); try lia; done.
Qed.

(** When every signer rejects the signature, the last one's error is
    raised. *)
Lemma loads_loop_rejected unsigners e0 now max_age s :
  (e0 = BadSignature ∨ e0 = BadTimeSignature) →
  (∀ md, md ∈ unsigners → ∃ p, Signer_unsign secret_key md s = SigError p) →
  loads_loop secret_key unsigners e0 now max_age s = Raise BadSignature
  ∨ loads_loop secret_key unsigners e0 now max_age s = Raise BadTimeSignature.
Proof.
  revert e0. induction unsigners as [|md rest IH]; intros e0 He0 Hrej.
  - cbn. destruct He0 as [-> | ->]; auto.
  - rewrite loads_loop_cons.
    destruct (Hrej md) as [p Hp]; [left|].
    destruct (unsign_sig_error secret_key md now max_age s p Hp) as [-> | ->]; cbn;
      apply IH; auto; intros md' Hin; apply Hrej; by right.
Qed.

(** What [loads] returns was read under one of the signers. *)
Lemma loads_loop_Return unsigners e0 now max_age s data :
  loads_loop secret_key unsigners e0 now max_age s = Return data →
  ∃ md b dt,
    md ∈ unsigners
    ∧ unsign secret_key md now max_age s = Return (b, dt)
    ∧ load_payload b = Return data.
Proof.
  revert e0. induction unsigners as [|md rest IH]; intros e0; [done|].
  rewrite loads_loop_cons.
  destruct (unsign secret_key md now max_age s) as [[b dt]|e] eqn:Hu.
  - intros Hl. exists md, b, dt. split; [left|done].
  - destruct (issubclass e SignatureExpired); [done|].
    destruct (issubclass e BadSignature); [|done].
    intros (md' & b & dt & Hin & Hu' & Hl)%IH.
    exists md', b, dt. split; [by right|done].
Qed.


End Serializer.
End SerializerFacts.

(** ** The authentication flow *)

Section AuthFacts.
Import ItsDangerous SerializerFacts.
Context `{Platform}.
Variable settings : Settings.

(** Usernames are unique ([unique=True] on the column), so the query for a
    stored username finds that very row. *)
Lemma query_by_username (db : Session) (a : Admin) :
  a ∈ db → NoDup (username <$> db) →
  find (fun x => bool_decide (username x = username a)) db = Some a.
Proof.
  induction db as [|x db IH]; intros Hin Hnd.
  - by apply elem_of_nil in Hin.
  - cbn [find]. rewrite fmap_cons in Hnd. apply NoDup_cons in Hnd as [Hx Hnd].
    apply elem_of_cons in Hin as [->|Hin].
    + by rewrite bool_decide_eq_true_2.
    + rewrite bool_decide_eq_false_2; [by apply IH|].
      intros Heq. apply Hx. rewrite Heq. apply list_elem_of_fmap. eauto.
Qed.

Lemma create_session_token_ok now a :
  (0 ≤ now < 2 ^ 64)%Z →
  ∃ token, create_session_token settings now (id a) (username a) = Return token.
Proof.
  intros Hnow. unfold create_session_token, dumps, sign.
  destruct (TimestampFacts.int_to_bytes_range now Hnow) as [ts ->].
  cbn. eauto.
Qed.

Lemma set_session_cookie_token now response a token :
  create_session_token settings now (id a) (username a) = Return token →
  set_session_cookie settings now response a
  = Return (set_cookie response SESSION_COOKIE_NAME (session_cookie settings token)).
Proof. unfold set_session_cookie. by intros ->. Qed.

(** [verify_session_token] on a token of this server: inside the window
    the payload, outside [None]. *)
Lemma verify_issued_token issued now obj token :
  dumps (serializer_key settings) issued obj = Return token →
  (issued ≤ MAX_TIMESTAMP)%Z →
  codec_roundtrips obj →
  verify_session_token settings now token =
    if decide (0 ≤ now - issued ≤ ADMIN_SESSION_EXPIRE_MINUTES settings * 60)%Z
    then Return obj else Return PyNone.
Proof.
  intros Htok Hmax Hcodec. unfold verify_session_token.
  rewrite (loads_dumps _ _ _ _ _ _ Htok Hmax).
  destruct (decide _); [|done].
  by rewrite (load_dump_payload _ Hcodec).
Qed.

Lemma get_current_admin_cookie now request token :
  cookies request !! SESSION_COOKIE_NAME = Some token → token ≠ EmptyString →
  get_current_admin settings now request = verify_session_token settings now token.
Proof.
  intros Hc Hne. unfold get_current_admin. rewrite Hc.
  by rewrite bool_decide_eq_false_2.
Qed.

Lemma get_current_admin_missing now request :
  cookies request !! SESSION_COOKIE_NAME = None →
  get_current_admin settings now request = Return PyNone.
Proof. intros Hc. unfold get_current_admin. by rewrite Hc. Qed.

(** C1. An active administrator whose stored hash verifies the submitted
    password logs in: [authenticate_admin] returns the record,
    [set_session_cookie] issues a token, and [get_current_admin] on any request
    carrying that token, at any time up to the session max-age after the login,
    returns the payload made of exactly that administrator's id and
    username. *)
Theorem login_then_authorize (db : Session) (a : Admin) (password : string)
    (now later : Z) :
  a ∈ db → NoDup (username <$> db) →
  is_active a = true →
  verify_password password (password_hash a) = Return true →
  codec_roundtrips (session_data a) →
  (0 ≤ now ≤ MAX_TIMESTAMP)%Z →
  (now ≤ later ≤ now + ADMIN_SESSION_EXPIRE_MINUTES settings * 60)%Z →
  authenticate_admin db (username a) password = Return (Some a)
  ∧ ∃ token,
      (∀ response,
         set_session_cookie settings now response a
         = Return (set_cookie response SESSION_COOKIE_NAME (session_cookie settings token)))
      ∧ ∀ request,
          cookies request !! SESSION_COOKIE_NAME = Some token →
          get_current_admin settings later request = Return (session_data a).
Proof.
  intros Hin Hnd Hact Hpw Hcodec Hnow Hlater. split.
  - unfold authenticate_admin. rewrite (query_by_username _ _ Hin Hnd), Hact, Hpw.
    reflexivity.
  - destruct (create_session_token_ok now a) as [token Htok].
    { unfold MAX_TIMESTAMP in Hnow. lia. }
    exists token. split.
    + intros response. by apply set_session_cookie_token.
    + intros request Hc.
      rewrite (get_current_admin_cookie _ _ _ Hc (dumps_nonempty _ _ _ _ Htok)).
      rewrite (verify_issued_token now later _ _ Htok) by (done || lia).
      destruct (decide _); [done|lia].
Qed.

(** C5. An administrator whose [is_active] flag is false is refused whatever
    the password, also the right one: [authenticate_admin] returns [None] and
    the login route answers with the invalid-credentials page, which carries
    no cookie. *)
Theorem inactive_admin_rejected (db : Session) (a : Admin) (password : string)
    (now : Z) (request : Request) :
  a ∈ db → NoDup (username <$> db) →
  is_active a = false →
  authenticate_admin db (username a) password = Return None
  ∧ login_submit settings now db request (username a) password
    = Return (invalid_credentials_page request)
  ∧ set_cookie_headers (invalid_credentials_page request) = [].
Proof.
  intros Hin Hnd Hact.
  assert (authenticate_admin db (username a) password = Return None) as Hauth.
  { unfold authenticate_admin. by rewrite (query_by_username _ _ Hin Hnd), Hact. }
  split; [done|]. split; [|done].
  unfold login_submit. by rewrite Hauth.
Qed.





(** C7. A correctly signed token verified one second after its maximum age,
    at [ts + max_age + 1] where [ts] is its timestamp, is rejected as
    [SignatureExpired], and [verify_session_token] returns [None].  At
    [ts + max_age] exactly the age test does not depend on the token: it
    passes when the configured age is not negative, the bound being
    inclusive, and the payload is then read; it fails otherwise. *)
Theorem expiry_boundary (token : string) (value : bytes) (ts : Z) :
  signed_at (serializer_key settings) (want_bytes token) value ts →
  (ts ≤ MAX_TIMESTAMP)%Z →
  let max_age := (ADMIN_SESSION_EXPIRE_MINUTES settings * 60)%Z in
  loads (serializer_key settings) (ts + max_age + 1) token max_age
    = Raise SignatureExpired
  ∧ verify_session_token settings (ts + max_age + 1) token = Return PyNone
  ∧ loads (serializer_key settings) (ts + max_age) token max_age
    = (if decide (0 ≤ max_age)%Z then load_payload value
       else Raise SignatureExpired)
  ∧ verify_session_token settings (ts + max_age) token
    = (if decide (0 ≤ max_age)%Z then load_payload value else Return PyNone).
Proof.
  intros Hsigned Hmax max_age. unfold verify_session_token. fold max_age.
  rewrite !(loads_signed_at _ _ _ _ _ _ Hsigned Hmax).
  repeat split; repeat destruct (decide _); try lia; try done.
  destruct (load_payload value) as [obj|e] eqn:Hl; [done|].
  by rewrite (load_payload_Raise _ _ Hl).
Qed.

Lemma loads_rejected now token :
  signature_rejected (serializer_key settings) (want_bytes token) →
  verify_session_token settings now token = Return PyNone
  ∧ (loads (serializer_key settings) now token
       (ADMIN_SESSION_EXPIRE_MINUTES settings * 60)
     = Raise BadSignature
     ∨ loads (serializer_key settings) now token
         (ADMIN_SESSION_EXPIRE_MINUTES settings * 60)
       = Raise BadTimeSignature).
Proof.
  intros Hrej. unfold verify_session_token, loads.
  destruct (loads_loop_rejected (serializer_key settings) iter_unsigners BadSignature
              now (ADMIN_SESSION_EXPIRE_MINUTES settings * 60) (want_bytes token))
    as [-> | ->]; auto.
Qed.


(** C8. The guard denies a request without the session cookie, a request
    whose token has a signature that does not verify, and a request whose
    token, though correctly signed, is past its maximum age; and it returns
    session data only when the cookie is present, the signature of its token
    verifies and the token's age is within the window. *)
Theorem guard_denies_without_valid_session (now : Z) (request : Request) :
  let max_age := (ADMIN_SESSION_EXPIRE_MINUTES settings * 60)%Z in
  (cookies request !! SESSION_COOKIE_NAME = None →
     get_current_admin settings now request = Return PyNone
     ∧ require_admin settings now request = Raise denied)
  ∧ (∀ token,
       cookies request !! SESSION_COOKIE_NAME = Some token →
       signature_rejected (serializer_key settings) (want_bytes token) →
       get_current_admin settings now request = Return PyNone
       ∧ require_admin settings now request = Raise denied)
  ∧ (∀ token value ts,
       cookies request !! SESSION_COOKIE_NAME = Some token →
       signed_at (serializer_key settings) (want_bytes token) value ts →
       (ts ≤ MAX_TIMESTAMP)%Z → (now - ts > max_age)%Z →
       get_current_admin settings now request = Return PyNone
       ∧ require_admin settings now request = Raise denied)
  ∧ (∀ data,
       require_admin settings now request = Return data →
       ∃ token value ts,
         cookies request !! SESSION_COOKIE_NAME = Some token
         ∧ signed_at (serializer_key settings) (want_bytes token) value ts
         ∧ (0 ≤ now - ts ≤ max_age)%Z
         ∧ load_payload value = Return data
         ∧ get_current_admin settings now request = Return data).
Proof.
  intros max_age.
  assert (∀ token, cookies request !! SESSION_COOKIE_NAME = Some token →
            verify_session_token settings now token = Return PyNone →
            get_current_admin settings now request = Return PyNone) as Hget.
  { intros token Hc Hv. unfold get_current_admin. rewrite Hc.
    by destruct (bool_decide (token = EmptyString)). }
  assert (get_current_admin settings now request = Return PyNone →
          get_current_admin settings now request = Return PyNone
          ∧ require_admin settings now request = Raise denied) as Hdeny.
  { intros Hg. split; [done|]. unfold require_admin. by rewrite Hg. }
  repeat apply conj.
  - intros Hc. apply Hdeny. unfold get_current_admin. by rewrite Hc.
  - intros token Hc Hs. apply Hdeny, (Hget _ Hc).
    by destruct (loads_rejected now token Hs).
  - intros token value ts Hc Hsigned Hmax Hage. apply Hdeny, (Hget _ Hc).
    unfold verify_session_token. fold max_age.
    rewrite (loads_signed_at _ _ _ _ _ _ Hsigned Hmax).
    destruct (decide _); [lia|done].
  - intros data. unfold require_admin.
    destruct (get_current_admin settings now request) as [v|e] eqn:Hg; [|done].
    cbn. destruct (truthy v) eqn:Htruthy; [|done]. intros [= <-].
    pose proof Hg as Hg'. unfold get_current_admin in Hg.
    destruct (cookies request !! SESSION_COOKIE_NAME) as [token|] eqn:Hc;
      [|injection Hg as <-; discriminate Htruthy].
    destruct (bool_decide (token = EmptyString));
      [injection Hg as <-; discriminate Htruthy|].
    unfold verify_session_token in Hg. fold max_age in Hg.
    destruct (loads (serializer_key settings) now token max_age) as [data|e] eqn:Hl.
    + cbn in Hg. injection Hg as ->. unfold loads in Hl.
      apply loads_loop_Return in Hl as (md & b & dt & Hin & Hu & Hload).
      unfold iter_unsigners in Hin. apply list_elem_of_singleton in Hin as ->.
      apply SignerFacts.unsign_Return_inv in Hu as (tsb & Hs & Hsep & Hts & Hage).
      exists token, b, dt. split; [done|]. split; [by exists tsb|]. done.
    + destruct e; cbn in Hg; try discriminate Hg; injection Hg as <-;
        discriminate Htruthy.
Qed.

(** C9. The cookie and the token it carries have one lifetime:
    [set_session_cookie] writes [ADMIN_SESSION_EXPIRE_MINUTES * 60] as the
    cookie's max-age, [verify_session_token] hands the same number of seconds
    to [serializer.loads], and so the token is accepted exactly from its
    issuance until the cookie's max-age has elapsed. *)
Theorem cookie_and_token_lifetimes_agree (now : Z) (response response' : Response)
    (a : Admin) :
  set_session_cookie settings now response a = Return response' →
  ∃ token cookie m,
    set_cookie_headers response'
      = set_cookie_headers response ++ [(SESSION_COOKIE_NAME, cookie)]
    ∧ cookie_value cookie = token
    ∧ cookie_max_age cookie = Some m
    ∧ m = (ADMIN_SESSION_EXPIRE_MINUTES settings * 60)%Z
    ∧ (∀ later,
         verify_session_token settings later token
         = try_except (loads (serializer_key settings) later token m)
             [BadSignature; SignatureExpired] (Return PyNone))
    ∧ (codec_roundtrips (session_data a) → (now ≤ MAX_TIMESTAMP)%Z →
       ∀ later,
         verify_session_token settings later token
         = if decide (0 ≤ later - now ≤ m)%Z then Return (session_data a)
           else Return PyNone).
Proof.
  unfold set_session_cookie.
  destruct (create_session_token settings now (id a) (username a)) as [token|e]
    eqn:Htok; [|done].
  intros [= <-].
  exists token, (session_cookie settings token), (ADMIN_SESSION_EXPIRE_MINUTES settings * 60)%Z.
  repeat apply conj; try reflexivity.
  - intros later. unfold verify_session_token.
    by destruct (loads _ later token _).
  - intros Hcodec Hmax later.
    by apply (verify_issued_token now later _ _ Htok).
Qed.

(** C10. [GET /admin/login] on a request that carries a session cookie
    issued by this server and still inside its window answers with a 303
    redirect to [/admin]; and whatever the request, the answer is either that
    redirect, when [get_current_admin] returned session data, or the login
    form, when it returned nothing. *)
Theorem login_page_redirects_when_authenticated (now : Z) (request : Request) :
  (∀ token issued a,
     cookies request !! SESSION_COOKIE_NAME = Some token →
     create_session_token settings issued (id a) (username a) = Return token →
     (issued ≤ MAX_TIMESTAMP)%Z →
     codec_roundtrips (session_data a) →
     (0 ≤ now - issued ≤ ADMIN_SESSION_EXPIRE_MINUTES settings * 60)%Z →
     login_page settings now request = Return (RedirectResponse "/admin" 303))
  ∧ (∀ response,
       login_page settings now request = Return response →
       ∃ current,
         get_current_admin settings now request = Return current
         ∧ ((truthy current = true ∧ response = RedirectResponse "/admin" 303)
            ∨ (truthy current = false
               ∧ response = TemplateResponse "admin/login.html" request None))).
Proof.
  split.
  - intros token issued a Hc Htok Hmax Hcodec Hage. unfold login_page.
    rewrite (get_current_admin_cookie _ _ _ Hc (dumps_nonempty _ _ _ _ Htok)).
    rewrite (verify_issued_token issued now _ _ Htok Hmax Hcodec).
    destruct (decide _); [done|lia].
  - intros response. unfold login_page.
    destruct (get_current_admin settings now request) as [current|e]; [|done].
    cbn. destruct (truthy current) eqn:Ht; intros [= <-]; eauto.
Qed.

End AuthFacts.

(** ** Password verification *)

Section PasswordFacts.
Context `{Platform}.

Lemma hashpw_malformed password salt :
  Bcrypt.parse_salt salt = None → Bcrypt.hashpw password salt = Raise ValueError.
Proof. unfold Bcrypt.hashpw. by intros ->. Qed.

(** [parse_salt] accepts the strings of the shape bcrypt reads, and no
    other. *)
Lemma parse_salt_shaped hashed :
  is_Some (Bcrypt.parse_salt hashed) ↔ bcrypt_shaped hashed.
Proof.
  unfold Bcrypt.parse_salt, bcrypt_shaped.
  destruct (filter _ (Bcrypt.split_on "$" hashed)) as [|v [|c [|r [|x l]]]].
  1-3,5: split; [by intros [? ?]|by intros (? & ? & ? & ? & _)].
  split.
  - destruct (decide (v ∈ _)) as [Hv|]; [|by intros [? ?]].
    destruct (Bcrypt.parse_u32 c) as [n|] eqn:Hc; [|by intros [? ?]].
    cbn. destruct (decide (22 ≤ length r)); [|by intros [? ?]].
    intros _. exists v, c, r. by rewrite Hc.
  - intros (v' & c' & r' & [= <- <- <-] & Hv & [n Hc] & Hr).
    rewrite decide_True, Hc by done. cbn. by rewrite decide_True.
Qed.

(** C4, as the code has it.  [verify_password] has no handler around
    [bcrypt.checkpw]: on a hash string that is not of the shape bcrypt reads
    it raises the [ValueError] of bcrypt, it does not return [False]; it
    returns a boolean only for a hash string of that shape, and raises
    nothing but that [ValueError]. *)
Theorem verify_password_malformed_hash (plain_password hashed_password : string) :
  (¬ bcrypt_shaped (want_bytes hashed_password) →
     verify_password plain_password hashed_password = Raise ValueError)
  ∧ (∀ b, verify_password plain_password hashed_password = Return b →
          bcrypt_shaped (want_bytes hashed_password))
  ∧ (∀ e, verify_password plain_password hashed_password = Raise e → e = ValueError).
Proof.
  unfold verify_password, Bcrypt.checkpw. split_and!.
  - intros Hbad. rewrite hashpw_malformed; [done|].
    apply eq_None_not_Some. by rewrite parse_salt_shaped.
  - intros b Hb. apply parse_salt_shaped. unfold Bcrypt.hashpw in Hb.
    by destruct (Bcrypt.parse_salt (want_bytes hashed_password)).
  - intros e. unfold Bcrypt.hashpw.
    destruct (Bcrypt.parse_salt (want_bytes hashed_password)) as [[[v c] r]|];
      [|by intros [= <-]].
    destruct (bcrypt_core _ _ _); cbn; [done|by intros [= <-]].
Qed.

End PasswordFacts.

(** ** How much the decoder outputs *)

Module DecoderFacts.
Import Encoding EncodingFacts.









End DecoderFacts.

(** ** Tampering with a token *)

Section TamperFacts.
Import Encoding ItsDangerous EncodingFacts TimestampFacts SignerFacts SerializerFacts.
Import DecoderFacts.
Context `{Platform}.
Variable settings : Settings.

Local Notation "'key'" := (serializer_key settings).
Local Notation "'max_age'" := (ADMIN_SESSION_EXPIRE_MINUTES settings * 60)%Z.








End TamperFacts.

(** ** The scenario of the specification, evaluated *)

Section Scenario.
Import Sample ItsDangerous.

Local Notation "'rp'" := reference_platform.
Local Notation "'cfg'" := default_settings.





Lemma alice_token_issued :
  create_session_token (H := rp) cfg login_time (id alice) (username alice)
  = Return alice_token.
Proof. vm_compute. reflexivity. Qed.

Lemma alice_codec : codec_roundtrips (H := rp) (session_data alice).
Proof. split; vm_compute; reflexivity. Qed.

Lemma alice_password : verify_password (H := rp) "S3cret!" (password_hash alice) = Return true.
Proof. vm_compute. reflexivity. Qed.

Lemma sample_usernames : NoDup (username <$> db).
Proof. apply (bool_decide_unpack _). vm_compute. reflexivity. Qed.

Lemma with_session_cookie token :
  cookies (with_session token) !! SESSION_COOKIE_NAME = Some token.
Proof. apply lookup_singleton_eq. Qed.

(** C1 on the scenario: alice logs in with [S3cret!], and the token is
    honoured up to the last second of the eight hours. *)
Lemma login_then_authorize_witness :
  (alice ∈ db ∧ NoDup (username <$> db) ∧ is_active alice = true
   ∧ verify_password (H := rp) "S3cret!" (password_hash alice) = Return true
   ∧ codec_roundtrips (H := rp) (session_data alice)
   ∧ (0 ≤ login_time ≤ MAX_TIMESTAMP)%Z
   ∧ (login_time ≤ login_time + session_seconds
      ≤ login_time + ADMIN_SESSION_EXPIRE_MINUTES cfg * 60)%Z)
  ∧ authenticate_admin (H := rp) db (username alice) "S3cret!" = Return (Some alice)
  ∧ ∃ token,
      (∀ response,
         set_session_cookie (H := rp) cfg login_time response alice
         = Return (set_cookie response SESSION_COOKIE_NAME (session_cookie cfg token)))
      ∧ ∀ request,
          cookies request !! SESSION_COOKIE_NAME = Some token →
          get_current_admin (H := rp) cfg (login_time + session_seconds) request
          = Return (session_data alice).
Proof.
  assert (alice ∈ db) as Hin by apply list_elem_of_here.
  assert (0 ≤ login_time ≤ MAX_TIMESTAMP)%Z as Hnow by (by vm_compute).
  assert (login_time ≤ login_time + session_seconds
          ≤ login_time + ADMIN_SESSION_EXPIRE_MINUTES cfg * 60)%Z as Hlater
    by (by vm_compute).
  split.
  - exact (conj Hin (conj sample_usernames (conj eq_refl (conj alice_password
             (conj alice_codec (conj Hnow Hlater)))))).
  - exact (login_then_authorize (H := rp) cfg db alice "S3cret!" login_time
             (login_time + session_seconds) Hin sample_usernames eq_refl
             alice_password alice_codec Hnow Hlater).
Defined.



Lemma forged_token_rejected :
  signature_rejected (H := rp) (serializer_key cfg) (want_bytes forged_token).
Proof.
  intros md Hin. exists (Some (signed_part (want_bytes forged_token))).
  unfold iter_unsigners in Hin. apply list_elem_of_singleton in Hin as ->.
  vm_compute. reflexivity.
Qed.

Lemma alice_token_dumps :
  dumps (H := rp) (serializer_key cfg) login_time (session_data alice)
  = Return alice_token.
Proof. exact alice_token_issued. Qed.

Lemma alice_token_signed :
  signed_at (H := rp) (serializer_key cfg) (want_bytes alice_token)
    (dump_payload (H := rp) (session_data alice)) login_time.
Proof. apply SerializerFacts.dumps_signed_at, alice_token_dumps. Qed.

Lemma login_time_datetime : (login_time ≤ MAX_TIMESTAMP)%Z.
Proof. by vm_compute. Qed.


Lemma not_a_hash_unshaped : ¬ bcrypt_shaped (want_bytes "not-a-hash").
Proof. intros Hs%parse_salt_shaped. revert Hs. vm_compute. by intros [? ?]. Qed.

(** C4 fails as stated: a stored hash that is not a bcrypt string makes
    [verify_password] raise. *)
Lemma malformed_hash_raises :
  ¬ bcrypt_shaped (want_bytes "not-a-hash")
  ∧ verify_password (H := rp) "S3cret!" "not-a-hash" = Raise ValueError
  ∧ verify_password (H := rp) "S3cret!" "not-a-hash" ≠ Return false.
Proof. split; [exact not_a_hash_unshaped|]. split; by vm_compute. Qed.

Lemma salt_alone_is_false :
  verify_password (H := rp) "S3cret!" "2b$12$abcdefghijklmnopqrstuu" = Return false.
Proof. vm_compute. reflexivity. Qed.

(** C4 as amended, on the same input; and on a string that lacks the first
    ['$'] and the digest, which bcrypt reads all the same. *)
Lemma verify_password_malformed_hash_witness :
  (¬ bcrypt_shaped (want_bytes "not-a-hash")
   ∧ verify_password (H := rp) "S3cret!" "not-a-hash" = Raise ValueError)
  ∧ (verify_password (H := rp) "S3cret!" "2b$12$abcdefghijklmnopqrstuu" = Return false
     ∧ bcrypt_shaped (want_bytes "2b$12$abcdefghijklmnopqrstuu")).
Proof.
  split.
  - split; [exact not_a_hash_unshaped|].
    exact (proj1 (verify_password_malformed_hash (H := rp) "S3cret!" "not-a-hash")
             not_a_hash_unshaped).
  - split; [exact salt_alone_is_false|].
    exact (proj1 (proj2 (verify_password_malformed_hash (H := rp) "S3cret!"
                           "2b$12$abcdefghijklmnopqrstuu"))
             false salt_alone_is_false).
Defined.

(** C5 on the scenario: bob is inactive and gives the right password. *)
Lemma inactive_admin_rejected_witness :
  (bob ∈ db ∧ NoDup (username <$> db) ∧ is_active bob = false
   ∧ verify_password (H := rp) "S3cret!" (password_hash bob) = Return true)
  ∧ authenticate_admin (H := rp) db (username bob) "S3cret!" = Return None
  ∧ login_submit (H := rp) cfg login_time db no_session (username bob) "S3cret!"
    = Return (invalid_credentials_page no_session)
  ∧ set_cookie_headers (invalid_credentials_page no_session) = [].
Proof.
  assert (bob ∈ db) as Hin by (apply list_elem_of_further, list_elem_of_here).
  split.
  - exact (conj Hin (conj sample_usernames (conj eq_refl alice_password))).
  - exact (inactive_admin_rejected (H := rp) cfg db bob "S3cret!" login_time
             no_session Hin sample_usernames eq_refl).
Defined.



(** C7 on the scenario: alice's token at eight hours and at eight hours and
    one second. *)
Lemma expiry_boundary_witness :
  let value := dump_payload (H := rp) (session_data alice) in
  (signed_at (H := rp) (serializer_key cfg) (want_bytes alice_token) value login_time
   ∧ (login_time ≤ MAX_TIMESTAMP)%Z)
  ∧ loads (H := rp) (serializer_key cfg)
      (login_time + ADMIN_SESSION_EXPIRE_MINUTES cfg * 60 + 1) alice_token
      (ADMIN_SESSION_EXPIRE_MINUTES cfg * 60)
    = Raise SignatureExpired
  ∧ verify_session_token (H := rp) cfg
      (login_time + ADMIN_SESSION_EXPIRE_MINUTES cfg * 60 + 1) alice_token
    = Return PyNone
  ∧ loads (H := rp) (serializer_key cfg)
      (login_time + ADMIN_SESSION_EXPIRE_MINUTES cfg * 60) alice_token
      (ADMIN_SESSION_EXPIRE_MINUTES cfg * 60)
    = (if decide (0 ≤ ADMIN_SESSION_EXPIRE_MINUTES cfg * 60)%Z
       then load_payload (H := rp) value else Raise SignatureExpired)
  ∧ verify_session_token (H := rp) cfg
      (login_time + ADMIN_SESSION_EXPIRE_MINUTES cfg * 60) alice_token
    = (if decide (0 ≤ ADMIN_SESSION_EXPIRE_MINUTES cfg * 60)%Z
       then load_payload (H := rp) value else Return PyNone).
Proof.
  intros value. split.
  - exact (conj alice_token_signed login_time_datetime).
  - exact (expiry_boundary (H := rp) cfg alice_token value login_time
             alice_token_signed login_time_datetime).
Defined.

(** C8 on the scenario: no cookie, the forged token, alice's token after
    expiry, and alice's token in time. *)
Lemma guard_denies_without_valid_session_witness :
  (cookies no_session !! SESSION_COOKIE_NAME = None
   ∧ cookies (with_session forged_token) !! SESSION_COOKIE_NAME = Some forged_token
   ∧ signature_rejected (H := rp) (serializer_key cfg) (want_bytes forged_token)
   ∧ cookies (with_session alice_token) !! SESSION_COOKIE_NAME = Some alice_token
   ∧ signed_at (H := rp) (serializer_key cfg) (want_bytes alice_token)
       (dump_payload (H := rp) (session_data alice)) login_time
   ∧ (login_time ≤ MAX_TIMESTAMP)%Z
   ∧ (login_time + session_seconds + 1 - login_time
      > ADMIN_SESSION_EXPIRE_MINUTES cfg * 60)%Z)
  ∧ (get_current_admin (H := rp) cfg login_time no_session = Return PyNone
     ∧ require_admin (H := rp) cfg login_time no_session = Raise denied)
  ∧ (get_current_admin (H := rp) cfg login_time (with_session forged_token)
     = Return PyNone
     ∧ require_admin (H := rp) cfg login_time (with_session forged_token) = Raise denied)
  ∧ (get_current_admin (H := rp) cfg (login_time + session_seconds + 1)
       (with_session alice_token) = Return PyNone
     ∧ require_admin (H := rp) cfg (login_time + session_seconds + 1)
         (with_session alice_token) = Raise denied)
  ∧ (require_admin (H := rp) cfg (login_time + 60) (with_session alice_token)
     = Return (session_data alice)
     ∧ ∃ token value ts,
         cookies (with_session alice_token) !! SESSION_COOKIE_NAME = Some token
         ∧ signed_at (H := rp) (serializer_key cfg) (want_bytes token) value ts
         ∧ (0 ≤ login_time + 60 - ts ≤ ADMIN_SESSION_EXPIRE_MINUTES cfg * 60)%Z
         ∧ load_payload (H := rp) value = Return (session_data alice)
         ∧ get_current_admin (H := rp) cfg (login_time + 60) (with_session alice_token)
           = Return (session_data alice)).
Proof.
  assert (cookies no_session !! SESSION_COOKIE_NAME = None) as Hnone
    by apply lookup_empty.
  assert (login_time + session_seconds + 1 - login_time
          > ADMIN_SESSION_EXPIRE_MINUTES cfg * 60)%Z as Hage by (by vm_compute).
  split.
  - exact (conj Hnone (conj (with_session_cookie forged_token)
             (conj forged_token_rejected (conj (with_session_cookie alice_token)
                (conj alice_token_signed (conj login_time_datetime Hage)))))).
  - assert (require_admin (H := rp) cfg (login_time + 60) (with_session alice_token)
            = Return (session_data alice)) as Hok.
    { unfold require_admin.
      rewrite (get_current_admin_cookie (H := rp) cfg (login_time + 60)
                 (with_session alice_token) alice_token
                 (with_session_cookie alice_token)
                 (SerializerFacts.dumps_nonempty _ _ _ _ alice_token_dumps)).
      rewrite (verify_issued_token (H := rp) cfg login_time (login_time + 60) _ _
                 alice_token_dumps login_time_datetime alice_codec).
      destruct (decide _) as [_|Hno]; [reflexivity|].
      exfalso. apply Hno. by vm_compute. }
    split; [|split; [|split]].
    + exact (proj1 (guard_denies_without_valid_session (H := rp) cfg login_time
                      no_session) Hnone).
    + exact (proj1 (proj2 (guard_denies_without_valid_session (H := rp) cfg login_time
                             (with_session forged_token)))
               forged_token (with_session_cookie forged_token) forged_token_rejected).
    + exact (proj1 (proj2 (proj2 (guard_denies_without_valid_session (H := rp) cfg
                                    (login_time + session_seconds + 1)
                                    (with_session alice_token))))
               alice_token _ login_time
               (with_session_cookie alice_token) alice_token_signed
               login_time_datetime Hage).
    + split; [exact Hok|].
      exact (proj2 (proj2 (proj2 (guard_denies_without_valid_session (H := rp) cfg
                                    (login_time + 60) (with_session alice_token))))
               _ Hok).
Defined.

(** C9 on the scenario: the cookie written for alice. *)
Lemma cookie_and_token_lifetimes_agree_witness :
  let response := RedirectResponse "/admin" 303 in
  let response' :=
    set_cookie response SESSION_COOKIE_NAME (session_cookie cfg alice_token) in
  set_session_cookie (H := rp) cfg login_time response alice = Return response'
  ∧ ∃ token cookie m,
      set_cookie_headers response'
        = set_cookie_headers response ++ [(SESSION_COOKIE_NAME, cookie)]
      ∧ cookie_value cookie = token
      ∧ cookie_max_age cookie = Some m
      ∧ m = (ADMIN_SESSION_EXPIRE_MINUTES cfg * 60)%Z
      ∧ (∀ later,
           verify_session_token (H := rp) cfg later token
           = try_except (loads (H := rp) (serializer_key cfg) later token m)
               [BadSignature; SignatureExpired] (Return PyNone))
      ∧ (codec_roundtrips (H := rp) (session_data alice) →
         (login_time ≤ MAX_TIMESTAMP)%Z →
         ∀ later,
           verify_session_token (H := rp) cfg later token
           = if decide (0 ≤ later - login_time ≤ m)%Z
             then Return (session_data alice) else Return PyNone).
Proof.
  intros response response'.
  assert (set_session_cookie (H := rp) cfg login_time response alice
          = Return response') as Hset
    by (apply set_session_cookie_token, alice_token_issued).
  split; [exact Hset|].
  exact (cookie_and_token_lifetimes_agree (H := rp) cfg login_time response response'
           alice Hset).
Defined.

(** C10 on the scenario: alice, logged in a minute ago, asks for the login
    page; and a visitor without a cookie does. *)
Lemma login_page_redirects_when_authenticated_witness :
  (cookies (with_session alice_token) !! SESSION_COOKIE_NAME = Some alice_token
   ∧ create_session_token (H := rp) cfg login_time (id alice) (username alice)
     = Return alice_token
   ∧ (login_time ≤ MAX_TIMESTAMP)%Z
   ∧ codec_roundtrips (H := rp) (session_data alice)
   ∧ (0 ≤ login_time + 60 - login_time ≤ ADMIN_SESSION_EXPIRE_MINUTES cfg * 60)%Z
   ∧ login_page (H := rp) cfg login_time no_session
     = Return (TemplateResponse "admin/login.html" no_session None))
  ∧ login_page (H := rp) cfg (login_time + 60) (with_session alice_token)
    = Return (RedirectResponse "/admin" 303)
  ∧ ∃ current,
      get_current_admin (H := rp) cfg login_time no_session = Return current
      ∧ ((truthy current = true
          ∧ TemplateResponse "admin/login.html" no_session None
            = RedirectResponse "/admin" 303)
         ∨ (truthy current = false
            ∧ TemplateResponse "admin/login.html" no_session None
              = TemplateResponse "admin/login.html" no_session None)).
Proof.
  assert (0 ≤ login_time + 60 - login_time ≤ ADMIN_SESSION_EXPIRE_MINUTES cfg * 60)%Z
    as Hage by (by vm_compute).
  assert (login_page (H := rp) cfg login_time no_session
          = Return (TemplateResponse "admin/login.html" no_session None)) as Hform.
  { unfold login_page.
    by rewrite (get_current_admin_missing (H := rp) cfg login_time no_session
                  (lookup_empty _)). }
  split.
  - exact (conj (with_session_cookie alice_token) (conj alice_token_issued
             (conj login_time_datetime (conj alice_codec (conj Hage Hform))))).
  - split.
    + exact (proj1 (login_page_redirects_when_authenticated (H := rp) cfg
                      (login_time + 60) (with_session alice_token))
               alice_token login_time alice (with_session_cookie alice_token)
               alice_token_issued login_time_datetime alice_codec Hage).
    + exact (proj2 (login_page_redirects_when_authenticated (H := rp) cfg login_time
                      no_session) _ Hform).
Defined.

End Scenario.

(** * The data layer *)

(** ** Ordered queries *)

Module OrderFacts.

Section OrderBy.
Context {A : Type} (le : A → A → bool).

Lemma insert_by_Permutation x l : insert_by le x l ≡ₚ x :: l.
Proof.
  induction l as [|y l IH]; [done|].
  cbn [insert_by]. destruct (le x y); [done|].
  rewrite IH. apply Permutation_swap.
Qed.

Lemma order_by_Permutation l : order_by le l ≡ₚ l.
Proof.
  induction l as [|x l IH]; [done|].
  cbn [order_by foldr]. fold (order_by le l).
  by rewrite insert_by_Permutation, IH.
Qed.

Lemma order_by_length l : length (order_by le l) = length l.
Proof. by rewrite order_by_Permutation. Qed.

Lemma elem_of_order_by x l : x ∈ order_by le l ↔ x ∈ l.
Proof. by rewrite order_by_Permutation. Qed.

Lemma order_by_cons x l : order_by le (x :: l) = insert_by le x (order_by le l).
Proof. reflexivity. Qed.

(** The result is ordered by every transitive relation that [le]
    decides. *)
Lemma order_by_sorted (R : relation A) `{!Transitive R} l :
  (∀ x y, le x y = true → R x y) →
  (∀ x y, le x y = false → R y x) →
  StronglySorted R (order_by le l).
Proof.
  intros Hle Hgt. induction l as [|x l IH]; [constructor|].
  rewrite order_by_cons. revert IH. generalize (order_by le l) as s.
  induction s as [|y s IHs]; intros Hs.
  - cbn. by repeat constructor.
  - cbn [insert_by]. apply StronglySorted_inv in Hs as [Hs Hy].
    destruct (le x y) eqn:Hxy.
    + constructor; [by constructor|].
      constructor; [by apply Hle|].
      eapply Forall_impl; [exact Hy|]. intros z Hyz.
      by etrans; [apply Hle|].
    + constructor; [by apply IHs|].
      rewrite insert_by_Permutation. constructor; [by apply Hgt|done].
Qed.

(** An insertion that meets no smaller row lands in front. *)
Lemma insert_by_front x l :
  Forall (fun y => le x y = true) l → insert_by le x l = x :: l.
Proof. destruct 1 as [|y l Hy _]; [done|]. cbn. by rewrite Hy. Qed.

Hypothesis le_trans : ∀ x y z, le x y = true → le y z = true → le x z = true.
Hypothesis le_total : ∀ x y, le x y = true ∨ le y x = true.

Lemma order_by_sorted_le l : StronglySorted (fun x y => le x y = true) (order_by le l).
Proof.
  apply order_by_sorted; [|done|].
  - intros x y z. apply le_trans.
  - intros x y Hxy. destruct (le_total x y) as [H|H]; [congruence|done].
Qed.

(** Filtering and sorting commute: the sort is stable. *)
Lemma filter_insert_by (P : A → Prop) `{!∀ x, Decision (P x)} x l :
  StronglySorted (fun x y => le x y = true) l →
  filter P (insert_by le x l)
  = if decide (P x) then insert_by le x (filter P l) else filter P l.
Proof.
  induction l as [|y l IH]; intros Hs.
  - cbn [insert_by]. rewrite filter_cons, !filter_nil. cbn [insert_by].
    by destruct (decide (P x)).
  - apply StronglySorted_inv in Hs as [Hs Hy].
    cbn [insert_by]. destruct (le x y) eqn:Hxy.
    + rewrite (filter_cons _ x). destruct (decide (P x)) as [Hx|Hx]; [|done].
      symmetry. rewrite filter_cons. destruct (decide (P y)) as [Hpy|Hpy].
      * cbn. by rewrite Hxy.
      * apply insert_by_front. apply Forall_forall.
        intros z [_ Hz]%list_elem_of_filter.
        rewrite Forall_forall in Hy. by apply (le_trans x y z), Hy.
    + rewrite (filter_cons _ y), (IH Hs), (filter_cons _ y).
      destruct (decide (P x)), (decide (P y)); try done.
      cbn. by rewrite Hxy.
Qed.

Lemma filter_order_by (P : A → Prop) `{!∀ x, Decision (P x)} l :
  filter P (order_by le l) = order_by le (filter P l).
Proof.
  induction l as [|x l IH]; [done|].
  rewrite order_by_cons, filter_insert_by by apply order_by_sorted_le.
  rewrite filter_cons. destruct (decide (P x)); [|done].
  by rewrite order_by_cons, IH.
Qed.

End OrderBy.

(** The order of [ORDER BY display_order, id], as a relation. *)
Lemma product_order_spec p q :
  product_order p q = true
  ↔ (Product.display_order p < Product.display_order q
     ∨ (Product.display_order p = Product.display_order q
        ∧ Product.id p ≤ Product.id q))%Z.
Proof. unfold product_order. lia. Qed.

Lemma product_order_trans p q r :
  product_order p q = true → product_order q r = true → product_order p r = true.
Proof. rewrite !product_order_spec. lia. Qed.

Lemma product_order_total p q : product_order p q = true ∨ product_order q p = true.
Proof. rewrite !product_order_spec. lia. Qed.

End OrderFacts.

(** ** Rows and primary keys *)

Module TableFacts.
Import Notions.

Section Table.
Context {A : Type} (id : A → Z).

Lemma row_with_Some i rows r : row_with id i rows = Some r → r ∈ rows ∧ id r = i.
Proof.
  unfold row_with. intros Hh.
  assert (r ∈ filter (fun r => id r = i) rows) as Hin.
  { destruct (filter _ rows) as [|x l]; [done|]. injection Hh as ->. apply list_elem_of_here. }
  apply list_elem_of_filter in Hin. tauto.
Qed.

Lemma row_with_None i rows r : row_with id i rows = None → r ∈ rows → id r ≠ i.
Proof.
  unfold row_with. intros Hh Hin Heq.
  assert (r ∈ filter (fun r => id r = i) rows) as Hf by by apply list_elem_of_filter.
  destruct (filter _ rows); [by apply elem_of_nil in Hf|done].
Qed.

Lemma row_with_not_elem i rows : (∀ r, r ∈ rows → id r ≠ i) → row_with id i rows = None.
Proof.
  intros Hno. destruct (row_with id i rows) as [r|] eqn:Hr; [|done].
  apply row_with_Some in Hr as [Hin Hi]. by destruct (Hno r Hin).
Qed.

Lemma row_with_cons i x rows :
  row_with id i (x :: rows) = if decide (id x = i) then Some x else row_with id i rows.
Proof. unfold row_with. rewrite filter_cons. by destruct (decide (id x = i)). Qed.

Lemma row_with_app i rows rows' :
  row_with id i (rows ++ rows')
  = match row_with id i rows with
    | Some r => Some r
    | None => row_with id i rows'
    end.
Proof.
  induction rows as [|x rows IH]; [done|].
  cbn [app]. rewrite !row_with_cons. by destruct (decide (id x = i)).
Qed.

Lemma keyed_cons x rows :
  keyed id (x :: rows) ↔ Forall (fun r => (id x < id r)%Z) rows ∧ keyed id rows.
Proof.
  unfold keyed. rewrite fmap_cons, StronglySorted_cons, Forall_fmap. done.
Qed.

Lemma keyed_nil : keyed id [].
Proof. constructor. Qed.

(** In a keyed table a row is found under its key. *)
Lemma row_with_elem rows r : keyed id rows → r ∈ rows → row_with id (id r) rows = Some r.
Proof.
  induction rows as [|x rows IH]; intros Hk Hin; [by apply elem_of_nil in Hin|].
  apply keyed_cons in Hk as [Hx Hk]. rewrite row_with_cons.
  apply elem_of_cons in Hin as [->|Hin]; [by rewrite decide_True|].
  rewrite decide_False; [by apply IH|].
  rewrite Forall_forall in Hx. specialize (Hx _ Hin). lia.
Qed.

Lemma keyed_NoDup rows : keyed id rows → NoDup (id <$> rows).
Proof.
  induction rows as [|x rows IH]; [constructor|].
  intros [Hx Hk]%keyed_cons. rewrite fmap_cons. constructor; [|by apply IH].
  intros (r & Heq & Hin)%list_elem_of_fmap.
  rewrite Forall_forall in Hx. specialize (Hx _ Hin). lia.
Qed.

(** *** [INSERT] *)

Lemma next_id_above rows r : r ∈ rows → (id r < next_id id rows)%Z.
Proof.
  unfold next_id. induction rows as [|x rows IH]; intros Hin; [by apply elem_of_nil in Hin|].
  cbn [foldr]. apply elem_of_cons in Hin as [->|Hin]; [lia|].
  specialize (IH Hin). lia.
Qed.

Lemma next_id_positive rows : (0 < next_id id rows)%Z.
Proof.
  unfold next_id. induction rows as [|x rows IH]; cbn [foldr]; lia.
Qed.

Lemma keyed_snoc rows x :
  keyed id rows → id x = next_id id rows → keyed id (rows ++ [x]).
Proof.
  intros Hk Hx.
  assert (∀ r, r ∈ rows → (id r < id x)%Z) as Habove.
  { intros r Hin. rewrite Hx. by apply next_id_above. }
  clear Hx. induction rows as [|y rows IH].
  - apply keyed_cons. split; [constructor|apply keyed_nil].
  - apply keyed_cons in Hk as [Hy Hk]. cbn [app]. apply keyed_cons. split.
    + apply Forall_app. split; [done|].
      constructor; [|constructor]. apply Habove, list_elem_of_here.
    + apply IH; [done|]. intros r Hin. by apply Habove, list_elem_of_further.
Qed.

Lemma row_with_snoc_new rows x :
  id x = next_id id rows → row_with id (id x) (rows ++ [x]) = Some x.
Proof.
  intros Hx. rewrite row_with_app, row_with_not_elem.
  - rewrite row_with_cons. by rewrite decide_True.
  - intros r Hin. pose proof (next_id_above rows r Hin). lia.
Qed.

Lemma row_with_snoc_old rows x i :
  i ≠ id x → row_with id i (rows ++ [x]) = row_with id i rows.
Proof.
  intros Hne. rewrite row_with_app. destruct (row_with id i rows); [done|].
  rewrite row_with_cons. by rewrite decide_False.
Qed.

Lemma row_with_fresh rows : row_with id (next_id id rows) rows = None.
Proof.
  apply row_with_not_elem. intros r Hin. pose proof (next_id_above rows r Hin). lia.
Qed.

(** *** [UPDATE] *)

Lemma update_row_ids new rows : id <$> update_row id new rows = id <$> rows.
Proof.
  unfold update_row. rewrite <-list_fmap_compose. apply list_fmap_ext.
  intros _ r _. cbn. by destruct (decide (id r = id new)) as [->|].
Qed.

Lemma update_row_length new rows : length (update_row id new rows) = length rows.
Proof. unfold update_row. by rewrite length_fmap. Qed.

Lemma keyed_update_row new rows : keyed id rows → keyed id (update_row id new rows).
Proof. unfold keyed. by rewrite update_row_ids. Qed.

Lemma row_with_update_eq new old rows :
  row_with id (id new) rows = Some old →
  row_with id (id new) (update_row id new rows) = Some new.
Proof.
  induction rows as [|x rows IH]; [done|].
  unfold update_row. rewrite fmap_cons. fold (update_row id new rows).
  rewrite !row_with_cons. destruct (decide (id x = id new)) as [Hx|Hx].
  - by rewrite decide_True.
  - by rewrite decide_False.
Qed.

Lemma row_with_update_ne new rows i :
  i ≠ id new → row_with id i (update_row id new rows) = row_with id i rows.
Proof.
  intros Hne. induction rows as [|x rows IH]; [done|].
  unfold update_row. rewrite fmap_cons. fold (update_row id new rows).
  rewrite !row_with_cons, IH. destruct (decide (id x = id new)) as [Hx|Hx]; [|done].
  rewrite !decide_False; [done|congruence|congruence].
Qed.

(** Writing a row back as it is changes nothing. *)
Lemma update_row_same old rows :
  keyed id rows → old ∈ rows → update_row id old rows = rows.
Proof.
  intros Hk Hin. unfold update_row. rewrite <-(list_fmap_id rows) at 2.
  apply list_fmap_ext. intros _ r Hr%list_elem_of_lookup_2. cbn.
  destruct (decide (id r = id old)) as [Heq|]; [|done].
  pose proof (row_with_elem rows r Hk Hr) as H1.
  pose proof (row_with_elem rows old Hk Hin) as H2.
  rewrite Heq in H1. congruence.
Qed.

(** Only the row of that key changes. *)
Lemma elem_of_update_row new rows r :
  r ∈ update_row id new rows
  ↔ (r ∈ rows ∧ id r ≠ id new) ∨ (r = new ∧ ∃ old, old ∈ rows ∧ id old = id new).
Proof.
  unfold update_row. rewrite list_elem_of_fmap. split.
  - intros (x & -> & Hin). destruct (decide (id x = id new)); eauto.
  - intros [[Hin Hne]|[-> (old & Hin & Heq)]].
    + exists r. by rewrite decide_False.
    + exists old. by rewrite decide_True.
Qed.

(** *** [DELETE] *)

Lemma keyed_delete_row r rows : keyed id rows → keyed id (delete_row id r rows).
Proof.
  unfold keyed, delete_row. induction rows as [|x rows IH]; [done|].
  rewrite fmap_cons. intros [Hx Hk]%StronglySorted_cons.
  rewrite filter_cons. destruct (decide (id x ≠ id r)); [|by apply IH].
  rewrite fmap_cons. apply StronglySorted_cons. split; [|by apply IH].
  rewrite Forall_fmap in Hx |- *. rewrite Forall_forall in Hx |- *.
  intros y [_ Hy]%list_elem_of_filter. by apply Hx.
Qed.

Lemma row_with_delete_eq r rows : row_with id (id r) (delete_row id r rows) = None.
Proof.
  apply row_with_not_elem. intros x [Hne _]%list_elem_of_filter. done.
Qed.

Lemma row_with_delete_ne r rows i :
  i ≠ id r → row_with id i (delete_row id r rows) = row_with id i rows.
Proof.
  intros Hne. unfold delete_row. induction rows as [|x rows IH]; [done|].
  rewrite filter_cons, row_with_cons. destruct (decide (id x ≠ id r)) as [Hx|Hx].
  - by rewrite row_with_cons, IH.
  - rewrite decide_False; [done|]. apply dec_stable in Hx. congruence.
Qed.

Lemma elem_of_delete_row r rows x : x ∈ delete_row id r rows ↔ x ∈ rows ∧ id x ≠ id r.
Proof. unfold delete_row. rewrite list_elem_of_filter. tauto. Qed.

(** Deleting a row of a keyed table removes one row. *)
Lemma delete_row_above r rows :
  Forall (fun y => (id r < id y)%Z) rows → delete_row id r rows = rows.
Proof.
  unfold delete_row. induction 1 as [|y rows Hy _ IH]; [done|].
  rewrite filter_cons, decide_True by lia. by rewrite IH.
Qed.

Lemma delete_row_length r rows :
  keyed id rows → r ∈ rows → S (length (delete_row id r rows)) = length rows.
Proof.
  induction rows as [|x rows IH]; intros Hk Hin; [by apply elem_of_nil in Hin|].
  apply keyed_cons in Hk as [Hx Hk]. unfold delete_row. rewrite filter_cons.
  fold (delete_row id r rows). destruct (decide (id x ≠ id r)) as [Hne|Heq].
  - apply elem_of_cons in Hin as [Hr|Hin]; [by subst|]. cbn. by rewrite IH.
  - apply dec_stable in Heq. cbn. f_equal.
    rewrite delete_row_above; [done|]. by rewrite <-Heq.
Qed.

End Table.

End TableFacts.

(** ** Products *)

Section ProductFacts.
Import Notions TableFacts OrderFacts.
Variable ilike : string → string → bool.

Global Instance by_display_order_trans : Transitive by_display_order.
Proof. intros p q r. unfold by_display_order. lia. Qed.

Lemma get_product_row_with db i : get_product db i = row_with Product.id i (DB.products db).
Proof. reflexivity. Qed.

Lemma nonempty_true s : nonempty s = true ↔ s ≠ EmptyString.
Proof.
  unfold nonempty. rewrite negb_true_iff, bool_decide_eq_false. done.
Qed.

Lemma nonempty_false s : nonempty s = false ↔ s = EmptyString.
Proof.
  unfold nonempty. rewrite negb_false_iff, bool_decide_eq_true. done.
Qed.

(** One optional filter of a query. *)
Lemma elem_of_filter_if {A} (b : bool) (P : A → Prop) `{!∀ x, Decision (P x)}
    (l : list A) x :
  x ∈ (if b then filter P l else l) ↔ x ∈ l ∧ (b = true → P x).
Proof. destruct b; rewrite ?list_elem_of_filter; intuition congruence. Qed.

Lemma elem_of_filter_if_given {A} (o : option string) (P : string → A → Prop)
    `{!∀ s x, Decision (P s x)} (l : list A) x :
  x ∈ match o with
      | Some s => if nonempty s then filter (P s) l else l
      | None => l
      end
  ↔ x ∈ l ∧ (∀ s, o = Some s → s ≠ EmptyString → P s x).
Proof.
  destruct o as [s|]; [|intuition congruence].
  destruct (nonempty s) eqn:Hs.
  - apply nonempty_true in Hs. rewrite list_elem_of_filter. split.
    + intros [HP Hin]. split; [done|]. by intros _ [= <-] _.
    + intros [Hin HP]. split; [|done]. by apply HP.
  - apply nonempty_false in Hs. split; [|tauto].
    intros Hin. split; [done|]. intros _ [= <-] Hne. by destruct Hne.
Qed.

Lemma elem_of_get_products db category search active_only best_sellers_only p :
  p ∈ get_products ilike db category search active_only best_sellers_only
  ↔ p ∈ DB.products db ∧ wanted ilike category search active_only best_sellers_only p.
Proof.
  unfold get_products, wanted. rewrite elem_of_order_by.
  rewrite (elem_of_filter_if_given search
             (fun s p => ilike ("%" ++ s ++ "%")%string (Product.name p) = true)).
  rewrite (elem_of_filter_if_given category (fun c p => Product.category p = c)).
  rewrite !elem_of_filter_if. tauto.
Qed.

(** [get_products] lists rows of the table, in their order or not. *)
Lemma get_products_sublist db category search active_only best_sellers_only :
  ∃ l, l `sublist_of` DB.products db
       ∧ get_products ilike db category search active_only best_sellers_only
         = order_by product_order l.
Proof.
  unfold get_products. eexists. split; [|reflexivity].
  destruct search as [s|], category as [c|]; try destruct (nonempty s);
    try destruct (nonempty c); destruct active_only, best_sellers_only;
    repeat (etrans; [apply sublist_filter|]); done.
Qed.

(** X1.  [get_products] returns exactly the rows of the table that pass every
    filter it was asked for, each of them once, ordered by [display_order] and
    then by [id]. *)
Theorem get_products_filtered_and_ordered db category search active_only
    best_sellers_only :
  keyed Product.id (DB.products db) →
  let result := get_products ilike db category search active_only best_sellers_only in
  (∀ p, p ∈ result
        ↔ p ∈ DB.products db
          ∧ wanted ilike category search active_only best_sellers_only p)
  ∧ NoDup result
  ∧ StronglySorted by_display_order result.
Proof.
  intros Hk result. split; [|split].
  - intros p. apply elem_of_get_products.
  - subst result.
    destruct (get_products_sublist db category search active_only best_sellers_only)
      as (l & Hsub & ->).
    rewrite order_by_Permutation. apply (sublist_NoDup _ (DB.products db)); [|done].
    apply keyed_NoDup in Hk. by apply NoDup_fmap_1 in Hk.
  - subst result.
    destruct (get_products_sublist db category search active_only best_sellers_only)
      as (l & _ & ->).
    apply order_by_sorted; [apply _| |].
    + intros p q. by rewrite product_order_spec.
    + intros p q Hpq. unfold by_display_order.
      assert (¬ product_order p q = true) as Hn by congruence.
      rewrite product_order_spec in Hn. lia.
Qed.

(** The two counters count what [get_products] lists. *)
Lemma get_product_count_length db active_only :
  get_product_count db active_only
  = Z.of_nat (length (get_products ilike db None None active_only false)).
Proof.
  unfold get_product_count, get_products. by rewrite order_by_length.
Qed.

Lemma get_bestseller_count_length db :
  get_bestseller_count db
  = Z.of_nat (length (get_products ilike db None None true true)).
Proof.
  unfold get_bestseller_count, get_products.
  rewrite order_by_length, list_filter_filter. do 2 f_equal.
  apply list_filter_iff. tauto.
Qed.

Lemma filter_length_le {A} (P : A → Prop) `{!∀ x, Decision (P x)} (l : list A) :
  length (filter P l) ≤ length l.
Proof. apply sublist_length, sublist_filter. Qed.

Lemma bound_true value : bound value = true ↔ ∀ n, value = Some n → sqlite_integer n.
Proof.
  destruct value as [n|]; cbn; [|by split].
  rewrite bool_decide_eq_true. split; [by intros Hn ? [= <-]|auto].
Qed.

Lemma bound_false value : bound value = false ↔ ∃ n, value = Some n ∧ ¬ sqlite_integer n.
Proof.
  destruct value as [n|]; cbn.
  - rewrite bool_decide_eq_false. split; [eauto|by intros (? & [= <-] & ?)].
  - split; [done|by intros (? & ? & _)].
Qed.

Lemma bind_float_None x : bind_float x = None ↔ x = SpecFloat.S754_nan.
Proof. by destruct x. Qed.

(** What is read back is the float that was bound, but for the sign of a
    zero. *)
Lemma bind_float_Some x y :
  bind_float x = Some y →
  x ≠ SpecFloat.S754_nan ∧ y ≠ SpecFloat.S754_nan
  ∧ ((∃ s, x = SpecFloat.S754_zero s) ∧ y = SpecFloat.S754_zero false ∨ y = x).
Proof. destruct x; cbn; intros [= <-]; split_and!; try done; eauto. Qed.

(** X2.  [create_product] on a keyed table that has a key left.  It raises
    [OverflowError] when the display order does not fit 64 bits, and
    otherwise [IntegrityError] when the name, the category or the price is
    missing or the price is a NaN; the database is then as it was.
    Otherwise the product is added under a new key, with the values given,
    the price as it is read back, and the defaults of the columns that were
    given none, and [get_product] finds it under that key and every other
    product as before. *)
Theorem create_product_then_get (db : DB.t) (kwargs : Product.kwargs) :
  keyed Product.id (DB.products db) →
  has_next_key Product.id (DB.products db) →
  match create_product db kwargs with
  | (Done product, db') =>
      get_product db' (Product.id product) = Some product
      ∧ get_product db (Product.id product) = None
      ∧ (∀ i, i ≠ Product.id product → get_product db' i = get_product db i)
      ∧ DB.products db' = DB.products db ++ [product]
      ∧ keyed Product.id (DB.products db')
      ∧ sqlite_integer (Product.id product)
      ∧ Product.kw_name kwargs = Some (Product.name product)
      ∧ Product.kw_category kwargs = Some (Product.category product)
      ∧ (∃ price, Product.kw_price kwargs = Some price
                  ∧ bind_float price = Some (Product.price product))
      ∧ Product.image_filename product = Product.kw_image_filename kwargs
      ∧ Product.description product = Product.kw_description kwargs
      ∧ Product.is_active product = default true (Product.kw_is_active kwargs)
      ∧ Product.is_best_seller product = default false (Product.kw_is_best_seller kwargs)
      ∧ Product.display_order product = default 0%Z (Product.kw_display_order kwargs)
      ∧ sqlite_integer (Product.display_order product)
  | (Failed e, db') =>
      db' = db
      ∧ ((e = OverflowError
          ∧ ∃ d, Product.kw_display_order kwargs = Some d ∧ ¬ sqlite_integer d)
         ∨ (e = IntegrityError
            ∧ (∀ d, Product.kw_display_order kwargs = Some d → sqlite_integer d)
            ∧ (Product.kw_name kwargs = None ∨ Product.kw_category kwargs = None
               ∨ Product.kw_price kwargs = None
               ∨ Product.kw_price kwargs = Some SpecFloat.S754_nan)))
  end.
Proof.
  intros Hk Hnext. unfold create_product.
  destruct (bound (Product.kw_display_order kwargs)) eqn:Hbound; cbn [negb].
  2:{ apply bound_false in Hbound. split; [done|]. by left. }
  pose proof (proj1 (bound_true _) Hbound) as Hd.
  destruct (Product.kw_name kwargs) as [name|]; cbn [not_null];
    [|split; [done|]; right; by auto].
  destruct (Product.kw_category kwargs) as [category|]; cbn [not_null];
    [|split; [done|]; right; by auto].
  destruct (Product.kw_price kwargs) as [price|]; cbn [not_null mbind option_bind];
    [|split; [done|]; right; by auto 10].
  destruct (bind_float price) as [stored|] eqn:Hprice; cbn [not_null].
  2:{ apply bind_float_None in Hprice as ->. split; [done|]. right. by auto 10. }
  set (product := Product.Build_t _ _ _ _ _ _ _ _ _).
  rewrite !get_product_row_with. cbn [DB.products DB.set_products].
  assert (Product.id product = next_id Product.id (DB.products db)) as Hid by done.
  split; [by apply row_with_snoc_new|].
  split; [rewrite Hid; apply row_with_fresh|].
  split; [intros i Hi; by apply row_with_snoc_old|].
  split; [done|]. split; [by apply keyed_snoc|]. split; [done|].
  do 2 (split; [done|]). split; [by exists price|].
  do 5 (split; [done|]).
  cbn. destruct (Product.kw_display_order kwargs) as [d|]; cbn; [by apply Hd|].
  unfold sqlite_integer. lia.
Qed.

(** X3.  [update_product] on a keyed table, for a key the driver can bind.  An
    unknown key changes nothing.  For a known one the call raises
    [OverflowError] when the display order given does not fit 64 bits, and
    otherwise [IntegrityError] when the price given is a NaN, and the
    database is then as it was; otherwise the row is rewritten in place:
    every column that is given a value takes it, the price as it is read
    back, every column whose keyword is [None] is left as it was, and no
    other row changes.  With no value at all the database is left as it
    was. *)
Theorem update_product_in_place (db : DB.t) (i : Z) (kwargs : Product.kwargs) :
  keyed Product.id (DB.products db) →
  sqlite_integer i →
  match get_product db i with
  | None => update_product db i kwargs = (Done None, db)
  | Some old =>
      match update_product db i kwargs with
      | (Done updated, db') =>
          ∃ new,
            updated = Some new
            ∧ get_product db' i = Some new
            ∧ (∀ j, j ≠ i → get_product db' j = get_product db j)
            ∧ Product.id <$> DB.products db' = Product.id <$> DB.products db
            ∧ Product.id new = i
            ∧ Product.name new = default (Product.name old) (Product.kw_name kwargs)
            ∧ Product.category new
              = default (Product.category old) (Product.kw_category kwargs)
            ∧ match Product.kw_price kwargs with
              | Some price => bind_float price = Some (Product.price new)
              | None => Product.price new = Product.price old
              end
            ∧ match Product.kw_image_filename kwargs with
              | Some f => Product.image_filename new = Some f
              | None => Product.image_filename new = Product.image_filename old
              end
            ∧ match Product.kw_description kwargs with
              | Some d => Product.description new = Some d
              | None => Product.description new = Product.description old
              end
            ∧ Product.is_active new
              = default (Product.is_active old) (Product.kw_is_active kwargs)
            ∧ Product.is_best_seller new
              = default (Product.is_best_seller old) (Product.kw_is_best_seller kwargs)
            ∧ Product.display_order new
              = default (Product.display_order old) (Product.kw_display_order kwargs)
            ∧ (∀ d, Product.kw_display_order kwargs = Some d → sqlite_integer d)
            ∧ (kwargs = no_product_kwargs → new = old ∧ db' = db)
      | (Failed e, db') =>
          db' = db
          ∧ ((e = OverflowError
              ∧ ∃ d, Product.kw_display_order kwargs = Some d ∧ ¬ sqlite_integer d)
             ∨ (e = IntegrityError
                ∧ (∀ d, Product.kw_display_order kwargs = Some d → sqlite_integer d)
                ∧ Product.kw_price kwargs = Some SpecFloat.S754_nan))
      end
  end.
Proof.
  intros Hk _. rewrite get_product_row_with.
  destruct (row_with Product.id i (DB.products db)) as [old|] eqn:Hold.
  2:{ unfold update_product. by rewrite get_product_row_with, Hold. }
  pose proof Hold as [Hin Hi]%row_with_Some.
  unfold update_product. rewrite get_product_row_with, Hold.
  destruct (bound (Product.kw_display_order kwargs)) eqn:Hbound; cbn [negb].
  2:{ apply bound_false in Hbound. split; [done|]. by left. }
  pose proof (proj1 (bound_true _) Hbound) as Hd.
  assert (∃ price,
            match Product.kw_price kwargs with
            | Some price => not_null (bind_float price)
            | None => Done (Product.price old)
            end = price
            ∧ match price with
              | Done stored =>
                  match Product.kw_price kwargs with
                  | Some price => bind_float price = Some stored
                  | None => stored = Product.price old
                  end
              | Failed e =>
                  e = IntegrityError ∧ Product.kw_price kwargs = Some SpecFloat.S754_nan
              end) as (price & -> & Hprice).
  { destruct (Product.kw_price kwargs) as [price|]; [|by eexists].
    destruct (bind_float price) as [stored|] eqn:Hstored; [by eexists|].
    apply bind_float_None in Hstored as ->. by eexists. }
  destruct price as [stored|e].
  2:{ destruct Hprice as [-> Hnan]. split; [done|]. right. by auto. }
  set (new := Product.Build_t _ _ _ _ _ _ _ _ _).
  assert (Product.id new = i) as Hnew by done.
  exists new. split; [done|].
  rewrite !get_product_row_with. cbn [DB.products DB.set_products].
  split; [rewrite <-Hnew at 1; apply (row_with_update_eq _ _ old); by rewrite Hnew|].
  split; [intros j Hj; apply row_with_update_ne; by rewrite Hnew|].
  split; [apply update_row_ids|]. split; [done|].
  do 2 (split; [done|]).
  split; [exact Hprice|].
  split; [by destruct (Product.kw_image_filename kwargs)|].
  split; [by destruct (Product.kw_description kwargs)|].
  do 3 (split; [done|]). split; [exact Hd|].
  intros Hkw. subst kwargs. cbn in Hprice.
  assert (new = old) as Heq by (subst new; destruct old; cbn in *; by subst).
  split; [done|]. rewrite Heq, update_row_same by done. by destruct db.
Qed.

(** X4.  [delete_product] on a keyed table, for a key the driver can bind: an
    unknown key changes nothing and is answered [False]; a known one loses
    its row, and only that row. *)
Theorem delete_product_only_that_row (db : DB.t) (i : Z) :
  keyed Product.id (DB.products db) →
  sqlite_integer i →
  match get_product db i with
  | None => delete_product db i = (false, db)
  | Some product =>
      ∃ db',
        delete_product db i = (true, db')
        ∧ get_product db' i = None
        ∧ (∀ j, j ≠ i → get_product db' j = get_product db j)
        ∧ (∀ p, p ∈ DB.products db' ↔ p ∈ DB.products db ∧ p ≠ product)
        ∧ get_product_count db' false = (get_product_count db false - 1)%Z
        ∧ keyed Product.id (DB.products db')
  end.
Proof.
  intros Hk _. rewrite get_product_row_with.
  destruct (row_with Product.id i (DB.products db)) as [product|] eqn:Hp.
  - pose proof Hp as [Hin Hi]%row_with_Some.
    unfold delete_product. rewrite get_product_row_with, Hp.
    eexists. split; [done|]. rewrite !get_product_row_with.
    unfold get_product_count. cbn [DB.products DB.set_products].
    split; [rewrite <-Hi; apply row_with_delete_eq|].
    split; [intros j Hj; apply row_with_delete_ne; by rewrite Hi|].
    split; [|split; [|by apply keyed_delete_row]].
    + intros p. rewrite elem_of_delete_row. split; intros [Hp1 Hp2]; (split; [done|]).
      * by intros ->.
      * intros Heq. apply Hp2.
        pose proof (row_with_elem _ _ p Hk Hp1) as H1. rewrite Heq, Hi, Hp in H1.
        congruence.
    + rewrite <-(delete_row_length Product.id product (DB.products db)) by done. lia.
  - unfold delete_product. by rewrite get_product_row_with, Hp.
Qed.

End ProductFacts.

(** ** Contact messages *)

Section MessageFacts.
Import Notions TableFacts OrderFacts.

Lemma get_contact_message_row_with db i :
  get_contact_message db i = row_with ContactMessage.id i (DB.contact_messages db).
Proof. reflexivity. Qed.

Lemma read_read message : ContactMessage.is_read message = true → read message = message.
Proof. destruct message. cbn. by intros ->. Qed.

(** Rewriting one row of a keyed table changes the number of rows that
    satisfy [P] by that row alone. *)
Lemma filter_update_row_length {A} (id : A → Z) (P : A → Prop) `{!∀ x, Decision (P x)}
    (old new : A) (rows : list A) :
  keyed id rows → old ∈ rows → id new = id old →
  length (filter P (update_row id new rows)) + (if decide (P old) then 1 else 0)
  = length (filter P rows) + (if decide (P new) then 1 else 0).
Proof.
  intros Hk Hin Hid. induction rows as [|x rows IH]; [by apply elem_of_nil in Hin|].
  apply keyed_cons in Hk as [Hx Hk].
  unfold update_row. rewrite fmap_cons. fold (update_row id new rows).
  apply elem_of_cons in Hin as [->|Hin].
  - rewrite decide_True by done.
    assert (update_row id new rows = rows) as ->.
    { unfold update_row. rewrite <-(list_fmap_id rows) at 2.
      apply list_fmap_ext. intros _ r Hr%list_elem_of_lookup_2. cbn.
      rewrite decide_False; [done|].
      rewrite Forall_forall in Hx. specialize (Hx _ Hr). lia. }
    rewrite !filter_cons. destruct (decide (P new)), (decide (P x)); cbn; lia.
  - rewrite decide_False.
    + specialize (IH Hk Hin). rewrite !filter_cons. destruct (decide (P x)); cbn; lia.
    + rewrite Forall_forall in Hx. specialize (Hx _ Hin). lia.
Qed.

(** [mark_message_as_read] on a keyed table. *)
Lemma mark_message_as_read_Some db i message :
  keyed ContactMessage.id (DB.contact_messages db) →
  get_contact_message db i = Some message →
  let db' := snd (mark_message_as_read db i) in
  get_contact_message db' i = Some (read message)
  ∧ (∀ j, j ≠ i → get_contact_message db' j = get_contact_message db j)
  ∧ get_message_count db' = get_message_count db
  ∧ get_unread_message_count db'
    = (get_unread_message_count db
       - (if ContactMessage.is_read message then 0 else 1))%Z
  ∧ keyed ContactMessage.id (DB.contact_messages db')
  ∧ DB.set_contact_messages db' (DB.contact_messages db) = db.
Proof.
  intros Hk Hm db'. subst db'. unfold mark_message_as_read. rewrite Hm.
  rewrite get_contact_message_row_with in Hm.
  pose proof Hm as [Hin Hi]%row_with_Some.
  cbn [snd]. rewrite !get_contact_message_row_with.
  unfold get_message_count, get_unread_message_count.
  cbn [DB.contact_messages DB.set_contact_messages].
  assert (ContactMessage.id (read message) = i) as Hr by done.
  split; [rewrite <-Hr at 1; apply (row_with_update_eq _ _ message); by rewrite Hr|].
  split; [intros j Hj; apply row_with_update_ne; by rewrite Hr|].
  split; [by rewrite update_row_length|].
  split; [|split; [by apply keyed_update_row|by destruct db]].
  pose proof (filter_update_row_length ContactMessage.id
                (fun m => ContactMessage.is_read m = false) message (read message)
                (DB.contact_messages db) Hk Hin) as Hlen.
  rewrite Hr, Hi in Hlen. specialize (Hlen eq_refl).
  rewrite (decide_False (P := ContactMessage.is_read (read message) = false)) in Hlen by done.
  destruct (ContactMessage.is_read message) eqn:Hread.
  - rewrite decide_False in Hlen by done. lia.
  - rewrite decide_True in Hlen by done. lia.
Qed.

End MessageFacts.

(** * The dashboard *)

Create HintDb routes.
#[global] Hint Unfold dashboard products_list product_new product_create product_edit
  product_update product_delete_confirm product_delete_action location_edit
  location_update schedule_list schedule_new schedule_create schedule_edit
  schedule_update_action schedule_delete_confirm schedule_delete_action settings_edit
  settings_update messages_list message_view message_delete_confirm
  message_delete_action : routes.

Section RouteFacts.
Import Notions TableFacts OrderFacts ItsDangerous SerializerFacts.
Context `{Platform}.
Variable config : Settings.
Variable ilike : string → string → bool.

Lemma Depends_admin_required_Return {A} now request db admin
    (route : pyval → outcome A * DB.t) :
  admin_required config now request = Return admin →
  Depends_admin_required config now request db route = route admin.
Proof. unfold Depends_admin_required. by intros ->. Qed.

Lemma Depends_admin_required_Raise {A} now request db e
    (route : pyval → outcome A * DB.t) :
  admin_required config now request = Raise e →
  Depends_admin_required config now request db route = (Failed (PyError e), db).
Proof. unfold Depends_admin_required. by intros ->. Qed.

Lemma no_session_denied now request :
  no_session config now request → admin_required config now request = Raise denied.
Proof.
  assert (∀ token, cookies request !! SESSION_COOKIE_NAME = Some token →
            verify_session_token config now token = Return PyNone →
            admin_required config now request = Raise denied) as Hcookie.
  { intros token Hc Hv. unfold admin_required, get_current_admin. rewrite Hc.
    destruct (bool_decide (token = EmptyString)); [done|]. by rewrite Hv. }
  intros [Hc | token Hc Hrej | token value ts Hc Hsigned Hmax Hage].
  - unfold admin_required. by rewrite (get_current_admin_missing config now request Hc).
  - apply (Hcookie token Hc). by destruct (loads_rejected config now token Hrej).
  - apply (Hcookie token Hc). unfold verify_session_token.
    rewrite (loads_signed_at _ _ _ _ _ _ Hsigned Hmax).
    destruct (decide _); [lia|done].
Qed.

(** X5.  Every protected route is guarded: a request that carries no session is
    answered with the redirect to the login page by each of them, whatever
    it asks for and whatever the database holds, and the database is left as
    it was. *)
Theorem protected_routes_need_a_session (now : Z) (request : Request)
    (r : protected_request) (db : DB.t) :
  no_session config now request →
  handle config ilike now request r db
  = (Failed (PyError (HTTPException 303 "/admin/login")), db).
Proof.
  intros Hdenied%no_session_denied.
  destruct r; cbn [handle];
    by apply Depends_admin_required_Raise.
Qed.

(** X6.  A [GET] request to a protected route leaves the database as it was:
    the forms and the confirmation pages write nothing.  The one exception is
    [message_view], which marks the message it shows as read. *)
Theorem get_requests_write_nothing (now : Z) (request : Request)
    (r : protected_request) (db : DB.t) :
  is_GET r = true →
  snd (handle config ilike now request r db) = db
  ∨ ∃ message_id message,
      r = GET_message_view message_id
      ∧ get_contact_message db message_id = Some message
      ∧ ContactMessage.is_read message = false
      ∧ snd (handle config ilike now request r db)
        = snd (mark_message_as_read db message_id).
Proof.
  intros Hget. destruct r; try discriminate Hget; clear Hget; cbn [handle].
  all: match goal with
       | |- context [message_view] => idtac
       | |- _ =>
           left; autounfold with routes; unfold Depends_admin_required;
           destruct (admin_required config now request); [|done];
           repeat match goal with |- context [match ?x with _ => _ end] => destruct x end;
           done
       end.
  unfold message_view, Depends_admin_required.
  destruct (admin_required config now request) as [admin|e]; [|by left].
  destruct (get_contact_message db message_id) as [message|] eqn:Hm; [|by left].
  destruct (ContactMessage.is_read message) eqn:Hread; cbn [negb]; [by left|].
  right. exists message_id, message. repeat split; try done.
  by destruct (mark_message_as_read db message_id).
Qed.

(** *** Products *)

Lemma refused_Some price display_order e :
  refused price display_order = Some e →
  (e = OverflowError ∧ ¬ sqlite_integer display_order)
  ∨ (e = IntegrityError ∧ sqlite_integer display_order ∧ price = SpecFloat.S754_nan).
Proof.
  unfold refused. destruct (decide _); [|intros [= <-]; by left].
  destruct price; intros [= <-]. by right.
Qed.

Lemma refused_None price display_order :
  refused price display_order = None →
  sqlite_integer display_order ∧ ∃ stored, bind_float price = Some stored.
Proof.
  unfold refused. destruct (decide _); [|done].
  destruct price; intros [=]; split; try done; by eexists.
Qed.

(** X7.  The product forms, for a request with a session.  A form whose
    display order does not fit 64 bits, or whose price is a NaN, is refused
    by the database, and nothing is written: [product_create] catches the
    error and answers with the empty form and the error; [product_update],
    for a known key, catches it and hands the form template the error and
    the object of the product, which the failed commit has expired.
    Otherwise [product_create], on a table that has a key left, stores the
    product with an empty image or description as [NULL] and redirects to
    the list, and [product_update] overwrites the name, the category, the
    price, the two flags and the display order with what the form holds,
    and leaves the stored image and description as they are when their
    fields are empty: the form cannot clear them.  [product_update] answers a
    key that the driver can bind and the table does not hold with a 404, and
    writes nothing. *)
Theorem product_forms_and_empty_fields (now : Z) (request : Request) (admin : pyval)
    (db : DB.t) (name category : string) (price : float)
    (image_filename description : string) (is_active is_best_seller : bool)
    (display_order : Z) :
  admin_required config now request = Return admin →
  match refused price display_order with
  | Some e =>
      product_create config now request name category price image_filename description
        is_active is_best_seller display_order db
      = (Done (product_form request admin None (Some e)), db)
  | None =>
      has_next_key Product.id (DB.products db) →
      ∃ new db',
        product_create config now request name category price image_filename
          description is_active is_best_seller display_order db
        = (Done (Redirected (RedirectResponse "/admin/products" 303)), db')
        ∧ DB.products db' = DB.products db ++ [new]
        ∧ get_product db' (Product.id new) = Some new
        ∧ sqlite_integer (Product.id new)
        ∧ Product.name new = name
        ∧ Product.category new = category
        ∧ bind_float price = Some (Product.price new)
        ∧ Product.display_order new = display_order
        ∧ Product.image_filename new = or_None image_filename
        ∧ Product.description new = or_None description
  end
  ∧ ∀ product_id,
      sqlite_integer product_id →
      match get_product db product_id with
      | None =>
          product_update config now request product_id name category price
            image_filename description is_active is_best_seller display_order db
          = (Failed (HTTPError 404 "Product not found"), db)
      | Some old =>
          match refused price display_order with
          | Some e =>
              product_update config now request product_id name category price
                image_filename description is_active is_best_seller display_order db
              = (Done (Rendered "admin/product_form.html"
                         [("request", CtxRequest request);
                          ("admin", CtxData admin);
                          ("product", CtxExpiredProduct old);
                          ("categories", CtxCategoryNames CATEGORY_NAMES);
                          ("error", CtxError e)]), db)
          | None =>
              ∃ new db',
                product_update config now request product_id name category price
                  image_filename description is_active is_best_seller display_order db
                = (Done (Redirected (RedirectResponse "/admin/products" 303)), db')
                ∧ get_product db' product_id = Some new
                ∧ (∀ j, j ≠ product_id → get_product db' j = get_product db j)
                ∧ Product.name new = name
                ∧ Product.category new = category
                ∧ bind_float price = Some (Product.price new)
                ∧ Product.is_active new = is_active
                ∧ Product.is_best_seller new = is_best_seller
                ∧ Product.display_order new = display_order
                ∧ Product.image_filename new
                  = (if nonempty image_filename then Some image_filename
                     else Product.image_filename old)
                ∧ Product.description new
                  = (if nonempty description then Some description
                     else Product.description old)
          end
      end.
Proof.
  intros Hadmin.
  assert (∀ e, refused price display_order = Some e →
               bound (Some display_order) = false ∧ e = OverflowError
               ∨ bound (Some display_order) = true ∧ bind_float price = None
                 ∧ e = IntegrityError) as Hrefused.
  { intros e [[-> Hd]|(-> & Hd & ->)]%refused_Some.
    - left. split; [|done]. by apply bool_decide_eq_false.
    - right. split; [|done]. by apply bool_decide_eq_true. }
  split.
  - unfold product_create. rewrite (Depends_admin_required_Return _ _ _ _ _ Hadmin).
    unfold create_product, product_form_kwargs.
    cbn [not_null Product.kw_name Product.kw_category Product.kw_price
         Product.kw_image_filename Product.kw_description Product.kw_is_active
         Product.kw_is_best_seller Product.kw_display_order default mbind option_bind].
    destruct (refused price display_order) as [e|] eqn:Hr.
    + destruct (Hrefused e eq_refl) as [[-> ->]|(-> & -> & ->)]; done.
    + apply refused_None in Hr as [Hd [stored Hstored]]. intros Hnext.
      assert (bound (Some display_order) = true) as -> by by apply bool_decide_eq_true.
      rewrite Hstored. cbn [negb not_null].
      eexists _, _. split; [reflexivity|].
      cbn [DB.products DB.set_products Product.id Product.name Product.category
           Product.price Product.display_order Product.image_filename
           Product.description].
      split; [done|]. split.
      { rewrite get_product_row_with. cbn [DB.products DB.set_products].
        by apply (row_with_snoc_new Product.id). }
      split; [exact Hnext|]. done.
  - intros product_id _. unfold product_update.
    rewrite (Depends_admin_required_Return _ _ _ _ _ Hadmin).
    destruct (get_product db product_id) as [old|] eqn:Hold; [|done].
    unfold update_product, product_form_kwargs. rewrite Hold.
    cbn [Product.kw_name Product.kw_category Product.kw_price
         Product.kw_image_filename Product.kw_description Product.kw_is_active
         Product.kw_is_best_seller Product.kw_display_order default].
    destruct (refused price display_order) as [e|] eqn:Hr.
    + destruct (Hrefused e eq_refl) as [[-> ->]|(-> & -> & ->)]; done.
    + apply refused_None in Hr as [Hd [stored Hstored]].
      assert (bound (Some display_order) = true) as -> by by apply bool_decide_eq_true.
      rewrite Hstored. cbn [negb not_null].
      rewrite get_product_row_with in Hold. pose proof Hold as [Hin Hi]%row_with_Some.
      set (new := Product.Build_t _ _ _ _ _ _ _ _ _).
      assert (Product.id new = product_id) as Hnew by done.
      exists new, (DB.set_products db (update_row Product.id new (DB.products db))).
      split; [done|]. rewrite !get_product_row_with. cbn [DB.products DB.set_products].
      split; [rewrite <-Hnew at 1; apply (row_with_update_eq _ _ old); by rewrite Hnew|].
      split; [intros j Hj; rewrite !get_product_row_with; apply row_with_update_ne;
              by rewrite Hnew|].
      do 6 (split; [done|]).
      subst new. cbn [Product.image_filename Product.description set_unless_None].
      unfold or_None. by destruct (nonempty image_filename), (nonempty description).
Qed.

(** *** Location and settings *)

Lemma head_update_row {A} (id : A → Z) (old new : A) (rows : list A) :
  head rows = Some old → id new = id old → head (update_row id new rows) = Some new.
Proof.
  destruct rows as [|x rows]; [done|]. intros [= ->] Hid.
  cbn. by rewrite decide_True.
Qed.

(** X8.  What [location_update] stores is what the public API shows.  The route
    writes the three fields of the form to the one row of the table, which
    it creates when there is none and never doubles; an empty field is
    stored as [NULL], so that the form clears what it leaves empty; and
    [api_get_location_today] then answers with the texts of the form, the
    place [Emplacement non defini] standing for an empty one. *)
Theorem location_update_then_api (now : Z) (request : Request) (admin : pyval)
    (db : DB.t) (today_location today_hours daily_message : string) :
  admin_required config now request = Return admin →
  ∃ location db',
    location_update config now request today_location today_hours daily_message db
    = (Done (location_form request admin (Some location) true), db')
    ∧ get_location db' = Some location
    ∧ Location.today_location location = or_None today_location
    ∧ Location.today_hours location = or_None today_hours
    ∧ Location.daily_message location = or_None daily_message
    ∧ length (DB.location db') = Nat.max 1 (length (DB.location db))
    ∧ api_get_location_today db'
      = {| APILocation.place := unless_empty today_location "Emplacement non defini";
           APILocation.hours := today_hours;
           APILocation.message := or_None daily_message |}.
Proof.
  intros Hadmin. unfold location_update.
  rewrite (Depends_admin_required_Return _ _ _ _ _ Hadmin).
  unfold update_location, api_get_location_today.
  assert (∀ s, or_else (or_None s) EmptyString = s) as Hhours.
  { intros s. unfold or_else, or_None. destruct (nonempty s) eqn:Hs.
    - by rewrite Hs.
    - by apply nonempty_false in Hs. }
  assert (∀ s d, or_else (or_None s) d = unless_empty s d) as Hplace.
  { intros s d. unfold or_else, or_None, unless_empty.
    destruct (nonempty s) eqn:Hs; [by rewrite Hs|done]. }
  destruct (get_location db) as [old|] eqn:Hold.
  - eexists _, _. split.
    { unfold get_location at 1. cbn [DB.location DB.set_location].
      rewrite (head_update_row _ old) by done. reflexivity. }
    unfold get_location at 1 2. cbn [DB.location DB.set_location].
    rewrite (head_update_row _ old) by done. rewrite update_row_length.
    split; [done|]. do 3 (split; [done|]). split.
    + unfold get_location in Hold. destruct (DB.location db); [done|]. cbn. lia.
    + cbn. by rewrite Hhours, Hplace.
  - assert (DB.location db = []) as Hnil.
    { unfold get_location in Hold. by destruct (DB.location db). }
    eexists _, _. split.
    { unfold get_location at 1. cbn [DB.location DB.set_location].
      rewrite Hnil. reflexivity. }
    unfold get_location at 1 2. cbn [DB.location DB.set_location]. rewrite Hnil.
    split; [done|]. do 3 (split; [done|]). split; [done|].
    cbn. by rewrite Hhours, Hplace.
Qed.

Lemma unless_empty_or_None submitted stored :
  default stored (or_None submitted) = unless_empty submitted stored.
Proof. unfold or_None, unless_empty. by destruct (nonempty submitted). Qed.

(** X9.  What [settings_update] stores is what the public API shows.  The route
    writes the fields of the form that are not empty to the one row of the
    table, which it creates when there is none and never doubles; a field left
    empty keeps the stored text, or the default of its column in a new row;
    and [api_get_settings] then answers with what it answered before, the
    fields that were filled in replaced.  A setting that was not empty
    cannot be made empty. *)
Theorem settings_update_then_api (now : Z) (request : Request) (admin : pyval)
    (db : DB.t) (hours_weekday hours_evening hours_weekend instagram_url tiktok_url
      site_name slogan : string) :
  admin_required config now request = Return admin →
  ∃ settings db',
    settings_update config now request hours_weekday hours_evening hours_weekend
      instagram_url tiktok_url site_name slogan db
    = (Done (settings_form request admin (Some settings) true), db')
    ∧ get_settings db' = Some settings
    ∧ length (DB.settings db') = Nat.max 1 (length (DB.settings db))
    ∧ api_get_settings db'
      = overlay (api_get_settings db)
          [hours_weekday; hours_evening; hours_weekend; instagram_url; tiktok_url;
           site_name; slogan]
    ∧ (Forall (fun kv => kv.2 ≠ EmptyString) (api_get_settings db) →
       Forall (fun kv => kv.2 ≠ EmptyString) (api_get_settings db')).
Proof.
  intros Hadmin. unfold settings_update.
  rewrite (Depends_admin_required_Return _ _ _ _ _ Hadmin).
  assert (∀ db', api_get_settings db'
            = overlay (api_get_settings db)
                [hours_weekday; hours_evening; hours_weekend; instagram_url; tiktok_url;
                 site_name; slogan] →
          Forall (fun kv => kv.2 ≠ EmptyString) (api_get_settings db) →
          Forall (fun kv => kv.2 ≠ EmptyString) (api_get_settings db')) as Hkeep.
  { intros db' -> Hall. unfold overlay.
    assert (∀ s v, v ≠ EmptyString → unless_empty s v ≠ EmptyString) as Hne.
    { intros s v Hv. unfold unless_empty. destruct (nonempty s) eqn:Hs; [|done].
      by apply nonempty_true. }
    generalize [hours_weekday; hours_evening; hours_weekend; instagram_url; tiktok_url;
                site_name; slogan].
    induction Hall as [|kv stored Hkv _ IH]; intros submitted; [done|].
    destruct submitted as [|s submitted]; [done|].
    cbn [zip_with]. constructor; [by apply Hne|apply IH]. }
  unfold update_settings.
  destruct (get_settings db) as [old|] eqn:Hold.
  - set (settings := Settings.Build_t _ _ _ _ _ _ _ _).
    set (db' := DB.set_settings db (update_row Settings.id settings (DB.settings db))).
    assert (get_settings db' = Some settings) as Hget.
    { unfold get_settings. cbn [DB.settings DB.set_settings db'].
      by apply (head_update_row _ old). }
    assert (api_get_settings db'
            = overlay (api_get_settings db)
                [hours_weekday; hours_evening; hours_weekend; instagram_url; tiktok_url;
                 site_name; slogan]) as Hapi.
    { unfold api_get_settings. rewrite Hget, Hold. subst settings.
      cbn [Settings.hours_weekday Settings.hours_evening Settings.hours_weekend
           Settings.instagram_url Settings.tiktok_url Settings.site_name Settings.slogan
           Settings.kw_hours_weekday Settings.kw_hours_evening Settings.kw_hours_weekend
           Settings.kw_instagram_url Settings.kw_tiktok_url Settings.kw_site_name
           Settings.kw_slogan overlay zip_with fst snd].
      by rewrite !unless_empty_or_None. }
    exists settings, db'. rewrite Hget. split; [done|]. split; [done|].
    split; [|split; [done|by apply Hkeep]].
    cbn [DB.settings DB.set_settings db']. rewrite update_row_length.
    unfold get_settings in Hold. destruct (DB.settings db); [done|]. cbn. lia.
  - set (settings := new_settings _ _).
    set (db' := DB.set_settings db (DB.settings db ++ [settings])).
    assert (DB.settings db = []) as Hnil.
    { unfold get_settings in Hold. by destruct (DB.settings db). }
    assert (get_settings db' = Some settings) as Hget.
    { unfold get_settings. cbn [DB.settings DB.set_settings db']. by rewrite Hnil. }
    assert (api_get_settings db'
            = overlay (api_get_settings db)
                [hours_weekday; hours_evening; hours_weekend; instagram_url; tiktok_url;
                 site_name; slogan]) as Hapi.
    { unfold api_get_settings. rewrite Hget, Hold. subst settings. unfold new_settings.
      cbn [Settings.hours_weekday Settings.hours_evening Settings.hours_weekend
           Settings.instagram_url Settings.tiktok_url Settings.site_name Settings.slogan
           Settings.kw_hours_weekday Settings.kw_hours_evening Settings.kw_hours_weekend
           Settings.kw_instagram_url Settings.kw_tiktok_url Settings.kw_site_name
           Settings.kw_slogan overlay zip_with fst snd].
      by rewrite !unless_empty_or_None. }
    exists settings, db'. rewrite Hget. split; [done|]. split; [done|].
    split; [|split; [done|by apply Hkeep]].
    cbn [DB.settings DB.set_settings db']. by rewrite Hnil.
Qed.

(** *** Schedule *)

Lemma get_schedule_row_with db i :
  get_schedule db i = row_with Schedule.id i (DB.schedules db).
Proof. reflexivity. Qed.

(** X10.  The schedule forms and the times of a closed day, for a request
    with a session.  A form whose day does not fit 64 bits is refused by the
    driver, and nothing is written: [schedule_create] catches the
    [OverflowError] and answers with the empty form and the error;
    [schedule_update_action], for a known key, catches it and hands the form
    template the error and the object of the row, which the failed commit
    has expired.  Otherwise [schedule_create], on a table that has a key left,
    stores the two times only for the place [Ouvert], and [NULL] for every
    other place; [schedule_update_action] overwrites the times for the place
    [Ouvert], and for every other place leaves the stored times in the row.
    In both cases the row of a place other than [Ouvert] is shown by the
    public API without hours.  [schedule_update_action] answers a key that
    the driver can bind and the table does not hold with a 404, and writes
    nothing. *)
Theorem schedule_forms_and_closed_days (now : Z) (request : Request) (admin : pyval)
    (db : DB.t) (day_of_week : Z) (place start_time end_time : string)
    (is_active : bool) :
  admin_required config now request = Return admin →
  (if decide (sqlite_integer day_of_week) then
     has_next_key Schedule.id (DB.schedules db) →
     ∃ new db',
       schedule_create config now request day_of_week place start_time end_time
         is_active db
       = (Done (Redirected (RedirectResponse "/admin/schedule" 303)), db')
       ∧ DB.schedules db' = DB.schedules db ++ [new]
       ∧ get_schedule db' (Schedule.id new) = Some new
       ∧ sqlite_integer (Schedule.id new)
       ∧ Schedule.day_of_week new = day_of_week
       ∧ Schedule.place new = place
       ∧ Schedule.is_active new = is_active
       ∧ (place = "Ouvert" →
          Schedule.start_time new = Some start_time
          ∧ Schedule.end_time new = Some end_time)
       ∧ (place ≠ "Ouvert" →
          Schedule.start_time new = None ∧ Schedule.end_time new = None
          ∧ slot_hours new = "-")
   else
     schedule_create config now request day_of_week place start_time end_time
       is_active db
     = (Done (schedule_form request admin None (Some OverflowError)), db))
  ∧ ∀ schedule_id,
      sqlite_integer schedule_id →
      match get_schedule db schedule_id with
      | None =>
          schedule_update_action config now request schedule_id day_of_week place
            start_time end_time is_active db
          = (Failed (HTTPError 404 "Schedule not found"), db)
      | Some old =>
          if decide (sqlite_integer day_of_week) then
            ∃ new db',
              schedule_update_action config now request schedule_id day_of_week place
                start_time end_time is_active db
              = (Done (Redirected (RedirectResponse "/admin/schedule" 303)), db')
              ∧ get_schedule db' schedule_id = Some new
              ∧ (∀ j, j ≠ schedule_id → get_schedule db' j = get_schedule db j)
              ∧ Schedule.day_of_week new = day_of_week
              ∧ Schedule.place new = place
              ∧ Schedule.is_active new = is_active
              ∧ (place = "Ouvert" →
                 Schedule.start_time new = Some start_time
                 ∧ Schedule.end_time new = Some end_time)
              ∧ (place ≠ "Ouvert" →
                 Schedule.start_time new = Schedule.start_time old
                 ∧ Schedule.end_time new = Schedule.end_time old
                 ∧ slot_hours new = "-")
          else
            schedule_update_action config now request schedule_id day_of_week place
              start_time end_time is_active db
            = (Done (Rendered "admin/schedule_form.html"
                       [("request", CtxRequest request);
                        ("admin", CtxData admin);
                        ("schedule", CtxExpiredSchedule old);
                        ("day_names", CtxDayNames DAY_NAMES);
                        ("error", CtxError OverflowError)]), db)
      end.
Proof.
  intros Hadmin.
  assert (∀ s, Schedule.place s ≠ "Ouvert" → slot_hours s = "-") as Hclosed.
  { intros s Hs. unfold slot_hours.
    destruct (Schedule.start_time s), (Schedule.end_time s); try done.
    by rewrite bool_decide_eq_false_2. }
  assert (bound (Some day_of_week) = bool_decide (sqlite_integer day_of_week)) as Hbound
    by done.
  split.
  - unfold schedule_create. rewrite (Depends_admin_required_Return _ _ _ _ _ Hadmin).
    unfold create_schedule, schedule_form_kwargs.
    cbn [not_null Schedule.kw_day_of_week Schedule.kw_place Schedule.kw_start_time
         Schedule.kw_end_time Schedule.kw_is_active default].
    rewrite Hbound. destruct (decide (sqlite_integer day_of_week)) as [Hd|Hd].
    2:{ by rewrite bool_decide_eq_false_2. }
    rewrite bool_decide_eq_true_2 by done. cbn [negb]. intros Hnext.
    eexists _, _. split; [reflexivity|].
    cbn [DB.schedules DB.set_schedules]. split; [done|]. split.
    { rewrite get_schedule_row_with. cbn [DB.schedules DB.set_schedules].
      by apply (row_with_snoc_new Schedule.id). }
    split; [exact Hnext|].
    do 3 (split; [done|]). split.
    + intros ->. done.
    + intros Hne. cbn [Schedule.start_time Schedule.end_time].
      rewrite bool_decide_eq_false_2 by done. split; [done|]. split; [done|].
      by apply Hclosed.
  - intros schedule_id _. unfold schedule_update_action.
    rewrite (Depends_admin_required_Return _ _ _ _ _ Hadmin).
    destruct (get_schedule db schedule_id) as [old|] eqn:Hold; [|done].
    unfold update_schedule, schedule_form_kwargs. rewrite Hold.
    cbn [Schedule.kw_day_of_week Schedule.kw_place Schedule.kw_start_time
         Schedule.kw_end_time Schedule.kw_is_active default].
    rewrite Hbound. destruct (decide (sqlite_integer day_of_week)) as [Hd|Hd].
    2:{ by rewrite bool_decide_eq_false_2. }
    rewrite bool_decide_eq_true_2 by done. cbn [negb].
    rewrite get_schedule_row_with in Hold. pose proof Hold as [Hin Hi]%row_with_Some.
    set (new := Schedule.Build_t _ _ _ _ _ _).
    assert (Schedule.id new = schedule_id) as Hnew by done.
    exists new, (DB.set_schedules db (update_row Schedule.id new (DB.schedules db))).
    split; [done|]. rewrite !get_schedule_row_with. cbn [DB.schedules DB.set_schedules].
    split; [rewrite <-Hnew at 1; apply (row_with_update_eq _ _ old); by rewrite Hnew|].
    split; [intros j Hj; rewrite !get_schedule_row_with; apply row_with_update_ne;
            by rewrite Hnew|].
    do 3 (split; [done|]). split.
    + intros ->. done.
    + intros Hne.
      assert (Schedule.start_time new = Schedule.start_time old
              ∧ Schedule.end_time new = Schedule.end_time old) as [Hs He].
      { subst new. cbn [Schedule.start_time Schedule.end_time set_unless_None].
        by rewrite bool_decide_eq_false_2. }
      split; [done|]. split; [done|]. by apply Hclosed.
Qed.

(** *** Contact messages *)

(** X11.  [message_view] shows a message and marks it as read, for a request
    with a session and a key the driver can bind.  A key the table does not
    hold is answered with a 404 and nothing is written.  For a known key the page
    shows the message as read; in the table that message is read afterwards
    and no other row has changed; the number of messages stays and the number
    of unread ones goes down by one when the message was unread; viewing it
    again writes nothing. *)
Theorem message_view_marks_as_read (now : Z) (request : Request) (admin : pyval)
    (db : DB.t) (message_id : Z) :
  admin_required config now request = Return admin →
  keyed ContactMessage.id (DB.contact_messages db) →
  sqlite_integer message_id →
  match get_contact_message db message_id with
  | None =>
      message_view config now request message_id db
      = (Failed (HTTPError 404 "Message not found"), db)
  | Some message =>
      ∃ db',
        message_view config now request message_id db
        = (Done (Rendered "admin/message_view.html"
                   [("request", CtxRequest request);
                    ("admin", CtxData admin);
                    ("message", CtxMessage (read message))]), db')
        ∧ get_contact_message db' message_id = Some (read message)
        ∧ (∀ j, j ≠ message_id → get_contact_message db' j = get_contact_message db j)
        ∧ get_message_count db' = get_message_count db
        ∧ get_unread_message_count db'
          = (get_unread_message_count db
             - (if ContactMessage.is_read message then 0 else 1))%Z
        ∧ snd (message_view config now request message_id db') = db'
  end.
Proof.
  intros Hadmin Hk _.
  destruct (get_contact_message db message_id) as [message|] eqn:Hm.
  - assert (∀ d m, get_contact_message d message_id = Some m →
              ContactMessage.is_read m = true →
              message_view config now request message_id d
              = (Done (Rendered "admin/message_view.html"
                         [("request", CtxRequest request);
                          ("admin", CtxData admin);
                          ("message", CtxMessage (read m))]), d)) as Hread.
    { intros d m Hd Hr. unfold message_view.
      rewrite (Depends_admin_required_Return _ _ _ _ _ Hadmin), Hd, Hr.
      cbn [negb]. by rewrite read_read. }
    destruct (ContactMessage.is_read message) eqn:Hr.
    + exists db. rewrite (Hread db message Hm Hr). repeat split; try done.
      * by rewrite read_read.
      * by rewrite Z.sub_0_r.
    + destruct (mark_message_as_read_Some db message_id message Hk Hm)
        as (Hget & Hframe & Hcount & Hunread & Hk' & _).
      rewrite Hr in Hunread.
      exists (snd (mark_message_as_read db message_id)). split.
      { unfold message_view.
        rewrite (Depends_admin_required_Return _ _ _ _ _ Hadmin), Hm, Hr.
        cbn [negb]. by destruct (mark_message_as_read db message_id). }
      do 4 (split; [done|]).
      by rewrite (Hread _ (read message) Hget eq_refl).
  - unfold message_view.
    by rewrite (Depends_admin_required_Return _ _ _ _ _ Hadmin), Hm.
Qed.

(** *** Statistics *)

(** X12.  The numbers of the dashboard.  For a request with a session the
    dashboard is rendered and the database is left as it was; its six
    counters are consistent: the best sellers are among the active products,
    the active products among the products, the unread messages among the
    messages, and the schedule counter counts the active rows. *)
Theorem dashboard_counters_are_consistent (now : Z) (request : Request)
    (admin : pyval) (db : DB.t) :
  admin_required config now request = Return admin →
  ∃ stats,
    dashboard config now request db
    = (Done (Rendered "admin/dashboard.html"
               [("request", CtxRequest request);
                ("admin", CtxData admin);
                ("stats", CtxStats stats);
                ("location", ctx_option CtxLocation (get_location db))]), db)
    ∧ fst <$> stats
      = ["total_products"; "active_products"; "bestsellers"; "schedules_count";
         "unread_messages"; "total_messages"]
    ∧ (0 ≤ dict_get stats "bestsellers" 0 ≤ dict_get stats "active_products" 0
       ≤ dict_get stats "total_products" 0)%Z
    ∧ (0 ≤ dict_get stats "unread_messages" 0 ≤ dict_get stats "total_messages" 0)%Z
    ∧ dict_get stats "total_products" 0%Z = Z.of_nat (length (DB.products db))
    ∧ dict_get stats "active_products" 0%Z
      = Z.of_nat (length (get_products ilike db None None true false))
    ∧ dict_get stats "bestsellers" 0%Z
      = Z.of_nat (length (get_products ilike db None None true true))
    ∧ dict_get stats "schedules_count" 0%Z
      = Z.of_nat (length (filter (fun s => Schedule.is_active s = true)
                            (DB.schedules db)))
    ∧ dict_get stats "total_messages" 0%Z = Z.of_nat (length (DB.contact_messages db)).
Proof.
  intros Hadmin. unfold dashboard.
  rewrite (Depends_admin_required_Return _ _ _ _ _ Hadmin).
  set (total_products := get_product_count db false).
  set (active_products := get_product_count db true).
  set (bestsellers := get_bestseller_count db).
  set (schedules_count := Z.of_nat (length (get_schedules db true))).
  set (unread_messages := get_unread_message_count db).
  set (total_messages := get_message_count db).
  eexists. split; [reflexivity|]. split; [reflexivity|].
  change (dict_get _ "bestsellers" 0%Z) with bestsellers.
  change (dict_get _ "active_products" 0%Z) with active_products.
  change (dict_get _ "total_products" 0%Z) with total_products.
  change (dict_get _ "unread_messages" 0%Z) with unread_messages.
  change (dict_get _ "total_messages" 0%Z) with total_messages.
  change (dict_get _ "schedules_count" 0%Z) with schedules_count.
  subst total_products active_products bestsellers schedules_count unread_messages
    total_messages.
  rewrite <-(get_product_count_length ilike db true).
  rewrite <-(get_bestseller_count_length ilike db).
  unfold get_product_count, get_bestseller_count, get_unread_message_count,
    get_message_count, get_schedules.
  rewrite order_by_length.
  pose proof (filter_length_le (fun p => Product.is_active p = true) (DB.products db)).
  pose proof (filter_length_le (fun m => ContactMessage.is_read m = false)
                (DB.contact_messages db)).
  assert (length (filter (fun p => Product.is_active p = true
                                   ∧ Product.is_best_seller p = true) (DB.products db))
          ≤ length (filter (fun p => Product.is_active p = true) (DB.products db))).
  { assert (filter (fun p => Product.is_active p = true
                              ∧ Product.is_best_seller p = true) (DB.products db)
            = filter (fun p => Product.is_best_seller p = true)
                (filter (fun p => Product.is_active p = true) (DB.products db))) as ->.
    { rewrite list_filter_filter. apply list_filter_iff. tauto. }
    apply filter_length_le. }
  repeat split; try done; lia.
Qed.

End RouteFacts.

(** * The public API *)

Section ApiFacts.
Import Notions TableFacts OrderFacts.
Variable ilike : string → string → bool.

(** X13.  What [format_product_for_api] makes of a product.  The category
    decides the tag and the label together: a category that has a display
    name has exactly one tag, [sweet] or [savory], and is labelled with that
    name; any other category, which the forms of the dashboard do not
    exclude, has no tag and is labelled with its own key.  The text of the
    image is empty or a path under [assets/img/], and the alternative text
    is the description, or the name when there is no description. *)
Theorem format_product_tags_and_label (product : Product.t) :
  let item := format_product_for_api product in
  let category := Product.category product in
  (category ∈ ["crepes_sucrees"; "gaufres"] ↔ APIProduct.tags item = ["sweet"])
  ∧ (category ∈ ["crepes_salees"; "box"] ↔ APIProduct.tags item = ["savory"])
  ∧ (category ∉ CATEGORY_NAMES.*1 ↔ APIProduct.tags item = [])
  ∧ (category ∈ CATEGORY_NAMES.*1 →
     (category, APIProduct.category_label item) ∈ CATEGORY_NAMES)
  ∧ (category ∉ CATEGORY_NAMES.*1 → APIProduct.category_label item = category)
  ∧ (APIProduct.image item = EmptyString
     ∨ ∃ f, Product.image_filename product = Some f ∧ f ≠ EmptyString
            ∧ APIProduct.image item = ("assets/img/" ++ f)%string)
  ∧ (Product.name product ≠ EmptyString → APIProduct.alt item ≠ EmptyString)
  ∧ (∀ d, Product.description product = Some d → d ≠ EmptyString →
          APIProduct.alt item = d).
Proof.
  intros item category. subst item category.
  unfold format_product_for_api.
  cbn [APIProduct.tags APIProduct.category_label APIProduct.image APIProduct.alt].
  generalize (Product.category product) as c. intros c.
  assert (c ∈ CATEGORY_NAMES.*1
          ↔ c = "crepes_sucrees" ∨ c = "crepes_salees" ∨ c = "gaufres" ∨ c = "box")
    as Hnames.
  { cbn. rewrite !elem_of_cons, elem_of_nil. tauto. }
  assert (c ∈ ["crepes_sucrees"; "gaufres"] ↔ c = "crepes_sucrees" ∨ c = "gaufres")
    as Hsweet.
  { rewrite !elem_of_cons, elem_of_nil. tauto. }
  assert (c ∈ ["crepes_salees"; "box"] ↔ c = "crepes_salees" ∨ c = "box") as Hsavory.
  { rewrite !elem_of_cons, elem_of_nil. tauto. }
  assert (¬ (c ∈ ["crepes_sucrees"; "gaufres"] ∧ c ∈ ["crepes_salees"; "box"])) as Hexcl.
  { rewrite Hsweet, Hsavory. intros [[->| ->] [?|?]]; discriminate. }
  split_and!.
  - destruct (bool_decide (c ∈ ["crepes_sucrees"; "gaufres"])) eqn:H1.
    + apply bool_decide_eq_true in H1. done.
    + apply bool_decide_eq_false in H1. split; [intros Hc; by destruct H1|].
      destruct (bool_decide (c ∈ ["crepes_salees"; "box"])); discriminate.
  - destruct (bool_decide (c ∈ ["crepes_sucrees"; "gaufres"])) eqn:H1.
    + apply bool_decide_eq_true in H1.
      split; [intros Hc; by destruct Hexcl|discriminate].
    + destruct (bool_decide (c ∈ ["crepes_salees"; "box"])) eqn:H2.
      * by apply bool_decide_eq_true in H2.
      * apply bool_decide_eq_false in H2.
        split; [intros Hc; by destruct H2|discriminate].
  - rewrite Hnames.
    destruct (bool_decide (c ∈ ["crepes_sucrees"; "gaufres"])) eqn:H1.
    + apply bool_decide_eq_true in H1. rewrite Hsweet in H1.
      split; [tauto|discriminate].
    + apply bool_decide_eq_false in H1. rewrite Hsweet in H1.
      destruct (bool_decide (c ∈ ["crepes_salees"; "box"])) eqn:H2.
      * apply bool_decide_eq_true in H2. rewrite Hsavory in H2.
        split; [tauto|discriminate].
      * apply bool_decide_eq_false in H2. rewrite Hsavory in H2. split; [done|tauto].
  - rewrite Hnames. unfold CATEGORY_NAMES. cbn [dict_get].
    intros [->|[->|[->| ->]]];
      repeat first [rewrite decide_True by done|rewrite decide_False by done];
      rewrite !elem_of_cons; tauto.
  - rewrite Hnames. intros Hno. cbn [dict_get CATEGORY_NAMES].
    repeat (rewrite decide_False; [|by intros <-; tauto]). done.
  - destruct (Product.image_filename product) as [f|]; [|by left].
    destruct (nonempty f) eqn:Hf; [|by left].
    right. exists f. by apply nonempty_true in Hf.
  - intros Hname. unfold or_else.
    destruct (Product.description product) as [d|]; [|done].
    destruct (nonempty d) eqn:Hd; [|done]. by apply nonempty_true in Hd.
  - intros d -> Hd. unfold or_else. by apply nonempty_true in Hd as ->.
Qed.

(** X14.  The public API shows the active products and no other.  An item of
    [api_get_products] is the formatted row of an active product that passes
    the category and the search asked for, and every such row is shown; the
    items come in the order of [get_products]; the best sellers are listed as
    part of the full list, in the same order; and without a category and a
    search the list is as long as the counter of active products says. *)
Theorem api_shows_active_products_only (category search : option string) (db : DB.t) :
  (∀ item,
     item ∈ api_get_products ilike category search db
     ↔ ∃ p, p ∈ DB.products db ∧ Product.is_active p = true
            ∧ wanted ilike category search true false p
            ∧ item = format_product_for_api p)
  ∧ APIProduct.id <$> api_get_products ilike category search db
    = Product.id <$> get_products ilike db category search true false
  ∧ api_get_best_sellers ilike db `sublist_of` api_get_products ilike None None db
  ∧ Z.of_nat (length (api_get_products ilike None None db)) = get_product_count db true.
Proof.
  split_and!.
  - intros item. unfold api_get_products. rewrite list_elem_of_fmap. split.
    + intros (p & -> & [Hin Hw]%elem_of_get_products).
      exists p. split_and!; try done. by apply Hw.
    + intros (p & Hin & _ & Hw & ->). exists p. split; [done|].
      by apply elem_of_get_products.
  - unfold api_get_products. rewrite <-list_fmap_compose. done.
  - unfold api_get_best_sellers, api_get_products. apply fmap_sublist.
    unfold get_products.
    rewrite <-(filter_order_by product_order product_order_trans product_order_total).
    apply sublist_filter.
  - unfold api_get_products. rewrite length_fmap.
    by rewrite (get_product_count_length ilike).
Qed.

End ApiFacts.

(** ** The weekly schedule *)

Section ScheduleFacts.
Import Notions TableFacts OrderFacts.

Lemma string_app_assoc (a b c : string) : ((a ++ b) ++ c = a ++ (b ++ c))%string.
Proof.
  induction a as [|x a IH]; [done|].
  change (String x ((a ++ b) ++ c) = String x (a ++ (b ++ c)))%string.
  by rewrite IH.
Qed.

Lemma concat_snoc (sep : string) (l : list string) (h : string) :
  l ≠ [] → String.concat sep (l ++ [h]) = (String.concat sep l ++ sep ++ h)%string.
Proof.
  induction l as [|x l IH]; [done|]. intros _.
  destruct l as [|y l]; [done|].
  change (String.concat sep ((x :: y :: l) ++ [h]))
    with (x ++ sep ++ String.concat sep ((y :: l) ++ [h]))%string.
  rewrite IH by done.
  change (String.concat sep (x :: y :: l))
    with (x ++ sep ++ String.concat sep (y :: l))%string.
  by rewrite !string_app_assoc.
Qed.

Lemma filter_none {A} (P : A → Prop) `{!∀ x, Decision (P x)} (l : list A) :
  (∀ x, x ∈ l → ¬ P x) → filter P l = [].
Proof.
  intros Hno. destruct (filter P l) as [|x l'] eqn:Hf; [done|].
  assert (x ∈ filter P l) as [Hx Hin]%list_elem_of_filter
    by (rewrite Hf; apply list_elem_of_here).
  by destruct (Hno x Hin).
Qed.

Local Abbreviation matches s :=
  (fun e => APISchedule.day_index e = Schedule.day_of_week s
            ∧ APISchedule.place e = Schedule.place s).

Lemma matches_key s e : matches s e ↔ entry_key e = slot_key s.
Proof. unfold entry_key, slot_key. split; [by intros [-> ->]|by intros [= -> ->]]. Qed.

Lemma slot_hours_closed s : Schedule.place s ≠ "Ouvert" → slot_hours s = "-".
Proof.
  intros Hs. unfold slot_hours.
  destruct (Schedule.start_time s), (Schedule.end_time s); try done.
  by rewrite bool_decide_eq_false_2.
Qed.

Lemma new_entry_well_formed s : well_formed_entry (new_entry s).
Proof. split; [done|]. split; [done|]. apply slot_hours_closed. Qed.

(** The two ways of one turn of the loop. *)
Lemma add_slot_cases result s :
  (∃ i existing,
     list_find (matches s) result = Some (i, existing)
     ∧ slot_hours s ≠ "-"
     ∧ add_slot result s
       = <[i := APISchedule.add_hours existing (" / " ++ slot_hours s)]> result)
  ∨ ((list_find (matches s) result = None ∨ slot_hours s = "-")
     ∧ add_slot result s = result ++ [new_entry s]).
Proof.
  unfold add_slot. destruct (list_find _ result) as [[i existing]|]; [|by auto].
  destruct (bool_decide (slot_hours s ≠ "-")) eqn:Hh.
  - apply bool_decide_eq_true in Hh. left. by exists i, existing.
  - apply bool_decide_eq_false in Hh. apply dec_stable in Hh. by auto.
Qed.

(** What the loop keeps, whatever the rows. *)
Lemma add_slots_entries rows :
  let result := foldl add_slot [] rows in
  (∀ k, k ∈ entry_key <$> result ↔ k ∈ slot_key <$> rows)
  ∧ length result ≤ length rows
  ∧ Forall well_formed_entry result.
Proof.
  induction rows as [|s rows IH] using rev_ind.
  - cbn. split; [done|]. split; [done|constructor].
  - cbn zeta in *. rewrite foldl_snoc. destruct IH as (Hkeys & Hlen & Hwf).
    set (result := foldl add_slot [] rows) in *.
    rewrite fmap_app, length_app. cbn [fmap list_fmap length].
    destruct (add_slot_cases result s)
      as [(i & existing & Hfind & Hh & ->) | [_ ->]].
    + apply list_find_Some in Hfind as (Hi & Hm & _).
      apply matches_key in Hm.
      assert (entry_key <$> <[i:=APISchedule.add_hours existing (" / " ++ slot_hours s)]> result
              = entry_key <$> result) as Hsame.
      { rewrite list_fmap_insert. apply list_insert_id.
        by rewrite list_lookup_fmap, Hi. }
      rewrite Hsame, length_insert. split; [|split; [lia|]].
      * intros k. rewrite elem_of_app, list_elem_of_singleton, Hkeys.
        split; [by left|]. intros [Hk| ->]; [done|].
        apply Hkeys. rewrite <-Hm. apply list_elem_of_fmap.
        exists existing. split; [done|]. by apply list_elem_of_lookup_2 in Hi.
      * apply Forall_insert; [done|].
        rewrite Forall_forall in Hwf.
        destruct (Hwf existing) as (Hday & Hwe & Hclosed);
          [by apply list_elem_of_lookup_2 in Hi|].
        split; [done|]. split; [done|].
        cbn [APISchedule.add_hours APISchedule.place APISchedule.hours].
        intros Hplace. destruct Hh. apply slot_hours_closed.
        injection Hm as _ <-. done.
    + rewrite fmap_app, length_app. cbn [fmap list_fmap length].
      split; [|split; [lia|]].
      * intros k. rewrite !elem_of_app, !list_elem_of_singleton, Hkeys. done.
      * apply Forall_app. split; [done|].
        constructor; [apply new_entry_well_formed|constructor].
Qed.

(** What the loop does when every row has hours to show: one entry for
    each day and place, with the hours of its rows in their order. *)
Lemma add_slots_merged rows :
  (∀ s, s ∈ rows → slot_hours s ≠ "-") →
  let result := foldl add_slot [] rows in
  NoDup (entry_key <$> result)
  ∧ ∀ j e, result !! j = Some e →
      APISchedule.hours e
      = String.concat " / "
          (slot_hours <$> filter (fun s => slot_key s = entry_key e) rows).
Proof.
  induction rows as [|s rows IH] using rev_ind; intros Hopen.
  - cbn. split; [constructor|done].
  - cbn zeta in *. rewrite foldl_snoc.
    destruct IH as (Hnd & Hhours).
    { intros r Hr. apply Hopen, elem_of_app. by left. }
    assert (slot_hours s ≠ "-") as Hs.
    { apply Hopen, elem_of_app. right. apply list_elem_of_here. }
    destruct (add_slots_entries rows) as (Hkeys & _ & _). cbn zeta in Hkeys.
    set (result := foldl add_slot [] rows) in *.
    destruct (add_slot_cases result s)
      as [(i & existing & Hfind & _ & ->) | [[Hfind|Hdash] ->]]; [| |done].
    + apply list_find_Some in Hfind as (Hi & Hm & _).
      apply matches_key in Hm.
      assert (i < length result) as Hlt by (by apply lookup_lt_Some in Hi).
      split.
      { rewrite list_fmap_insert, list_insert_id; [done|].
        by rewrite list_lookup_fmap, Hi. }
      intros j e. rewrite list_lookup_insert_Some.
      intros [(<- & <- & _) | (Hne & Hj)].
      * cbn [APISchedule.add_hours APISchedule.hours].
        change (entry_key (APISchedule.add_hours existing (" / " ++ slot_hours s)))
          with (entry_key existing).
        rewrite filter_app, filter_cons, filter_nil, decide_True by done.
        rewrite fmap_app. cbn [fmap list_fmap].
        rewrite concat_snoc, <-(Hhours i existing Hi); [done|].
        intros Hnil%fmap_nil_inv.
        assert (slot_key s ∈ slot_key <$> rows) as Hin.
        { apply Hkeys. rewrite <-Hm. apply list_elem_of_fmap.
          exists existing. split; [done|]. by apply list_elem_of_lookup_2 in Hi. }
        apply list_elem_of_fmap in Hin as (r & Hr1 & Hr2).
        assert (r ∈ filter (fun s0 => slot_key s0 = entry_key existing) rows) as Hf.
        { apply list_elem_of_filter. split; [congruence|done]. }
        rewrite Hnil in Hf. by apply elem_of_nil in Hf.
      * rewrite (Hhours j e Hj).
        rewrite filter_app, filter_cons, filter_nil, decide_False, app_nil_r; [done|].
        intros Heq. apply Hne.
        apply (NoDup_lookup (entry_key <$> result) i j (entry_key e)); [done| |].
        -- rewrite list_lookup_fmap, Hi. cbn. congruence.
        -- by rewrite list_lookup_fmap, Hj.
    + apply list_find_None in Hfind. rewrite Forall_forall in Hfind.
      assert (slot_key s ∉ entry_key <$> result) as Hfresh.
      { intros (e & He1 & He2)%list_elem_of_fmap.
        apply (Hfind e He2). by apply matches_key. }
      split.
      { rewrite fmap_app. apply NoDup_app. split; [done|]. split.
        - intros k Hk [->|[]%elem_of_nil]%elem_of_cons. done.
        - apply NoDup_singleton. }
      intros j e Hj. apply lookup_app_Some in Hj as [Hj|[Hge Hj]].
      * rewrite (Hhours j e Hj).
        rewrite filter_app, filter_cons, filter_nil, decide_False, app_nil_r; [done|].
        intros Heq. apply Hfresh. rewrite Heq. apply list_elem_of_fmap.
        exists e. split; [done|]. by apply list_elem_of_lookup_2 in Hj.
      * apply list_lookup_singleton_Some in Hj as [_ <-].
        change (entry_key (new_entry s)) with (slot_key s).
        rewrite filter_app, filter_cons, filter_nil, decide_True by done.
        assert (filter (fun s0 => slot_key s0 = slot_key s) rows = []) as ->; [|done].
        apply filter_none. intros r Hr Heq.
        apply Hfresh, Hkeys. rewrite <-Heq. apply list_elem_of_fmap. by exists r.
Qed.

Lemma elem_of_get_schedules db active_only s :
  s ∈ get_schedules db active_only
  ↔ s ∈ DB.schedules db ∧ (active_only = true → Schedule.is_active s = true).
Proof.
  unfold get_schedules. rewrite elem_of_order_by.
  destruct active_only; rewrite ?list_elem_of_filter; intuition congruence.
Qed.

Global Instance day_index_le_trans :
  Transitive (fun a b => (APISchedule.day_index a ≤ APISchedule.day_index b)%Z).
Proof. intros a b c. lia. Qed.

(** X15.  The public schedule, whatever the table holds.  Its entries are
    ordered by day; the days and places it shows are those of the active rows
    of the table, all of them and no other, in no more entries than there are
    such rows; every entry carries the name of its day and the week-end flag
    of Saturday and Sunday; and an entry whose place is not [Ouvert] shows no
    hours. *)
Theorem api_schedule_days_and_places (db : DB.t) :
  let out := api_get_schedule db in
  StronglySorted (fun a b => (APISchedule.day_index a ≤ APISchedule.day_index b)%Z) out
  ∧ (∀ k, k ∈ entry_key <$> out
          ↔ ∃ s, s ∈ DB.schedules db ∧ Schedule.is_active s = true ∧ slot_key s = k)
  ∧ length out
    ≤ length (filter (fun s => Schedule.is_active s = true) (DB.schedules db))
  ∧ Forall well_formed_entry out.
Proof.
  intros out. subst out. unfold api_get_schedule, sorted.
  destruct (add_slots_entries (get_schedules db true)) as (Hkeys & Hlen & Hwf).
  cbn zeta in *. split_and!.
  - apply order_by_sorted; [apply _| |]; intros a b Hab; lia.
  - intros k. rewrite order_by_Permutation, Hkeys, list_elem_of_fmap.
    split.
    + intros (s & -> & [Hin Hact]%elem_of_get_schedules). exists s. auto.
    + intros (s & Hin & Hact & <-). exists s. split; [done|].
      by apply elem_of_get_schedules.
  - rewrite order_by_length. etrans; [exact Hlen|].
    unfold get_schedules. by rewrite order_by_length.
  - by rewrite order_by_Permutation.
Qed.

(** X16.  The public schedule when every active row has hours to show, which is
    the case when each is at the place [Ouvert] with its two times: a day and
    a place are shown once, with the hours of all their rows, joined by a
    slash in the order of [get_schedules], that is by starting time. *)
Theorem api_schedule_merges_slots (db : DB.t) :
  (∀ s, s ∈ DB.schedules db → Schedule.is_active s = true → slot_hours s ≠ "-") →
  let out := api_get_schedule db in
  NoDup (entry_key <$> out)
  ∧ ∀ e, e ∈ out →
      APISchedule.hours e
      = String.concat " / "
          (slot_hours <$> filter (fun s => slot_key s = entry_key e)
                            (get_schedules db true)).
Proof.
  intros Hopen out. subst out. unfold api_get_schedule, sorted.
  destruct (add_slots_merged (get_schedules db true)) as (Hnd & Hhours).
  { intros s [Hin Hact]%elem_of_get_schedules. by apply Hopen, Hact. }
  cbn zeta in *. split.
  - by rewrite order_by_Permutation.
  - intros e. rewrite elem_of_order_by. intros (j & Hj)%list_elem_of_lookup_1.
    by apply (Hhours j).
Qed.

End ScheduleFacts.

(** * Passwords *)

Module BcryptFacts.
Import Bcrypt Notions.

(** ** The cost field *)

Lemma digit_not_sign c : is_decimal c → c ≠ "+"%char ∧ c ≠ "$"%char.
Proof. intros [d Hd]. split; intros ->; discriminate Hd. Qed.

Lemma uint_digits u : Forall is_decimal (list_ascii_of_string (NilEmpty.string_of_uint u)).
Proof.
  induction u; cbn [NilEmpty.string_of_uint list_ascii_of_string];
    [constructor|..]; (constructor; [by eexists|done]).
Qed.

Local Notation "'step'" :=
  (fun (acc : option N) (c : ascii) => a ← acc; d ← digit_value c; Some (10 * a + d)%N).

Lemma step_digit a c d : digit_value c = Some d → step (Some a) c = Some (10 * a + d)%N.
Proof. cbn. by intros ->. Qed.

Lemma parse_digits_acc u acc :
  foldl step (Some (N.pos acc)) (list_ascii_of_string (NilEmpty.string_of_uint u))
  = Some (N.pos (Pos.of_uint_acc u acc)).
Proof.
  revert acc.
  induction u as [|u IH|u IH|u IH|u IH|u IH|u IH|u IH|u IH|u IH|u IH]; intros acc;
    [done|..]; cbn [NilEmpty.string_of_uint list_ascii_of_string foldl Pos.of_uint_acc];
    rewrite <-IH; f_equal.
  all: erewrite step_digit by reflexivity.
  all: f_equal.
  all: match goal with
       | |- context [(N_of_byte ?c - 48)%N] =>
           let v := eval vm_compute in (N_of_byte c - 48)%N in
           change (N_of_byte c - 48)%N with v
       end; lia.
Qed.

Lemma parse_digits_uint u :
  parse_digits (list_ascii_of_string (NilEmpty.string_of_uint u)) = Some (N.of_uint u).
Proof.
  unfold parse_digits, N.of_uint.
  induction u as [|u IH|u IH|u IH|u IH|u IH|u IH|u IH|u IH|u IH|u IH];
    [done|exact IH|..];
    cbn [NilEmpty.string_of_uint list_ascii_of_string foldl Pos.of_uint];
    rewrite <-parse_digits_acc; f_equal.
Qed.

(** The decimal digits of a number, as [format_cost] writes them. *)
Lemma decimal_digits cost :
  let d := list_ascii_of_string (NilZero.string_of_uint (N.to_uint cost)) in
  Forall is_decimal d ∧ d ≠ [] ∧ parse_digits d = Some cost.
Proof.
  intros d. subst d. pose proof (DecimalN.Unsigned.of_to cost) as Hcost.
  destruct (N.to_uint cost) as [|u|u|u|u|u|u|u|u|u|u] eqn:Hu.
  { cbn. split; [constructor; [by eexists|constructor]|].
    split; [done|]. by rewrite <-Hcost. }
  all: split; [apply uint_digits|]; split; [done|].
  all: rewrite <-Hcost; apply parse_digits_uint.
Qed.

Lemma format_cost_digits cost :
  Forall is_decimal (format_cost cost) ∧ format_cost cost ≠ [].
Proof.
  destruct (decimal_digits cost) as (Hd & Hne & _). unfold format_cost.
  destruct (decide (cost < 10)%N); [|done].
  split; [|done]. constructor; [by eexists|done].
Qed.

(** The cost is read back as it was written. *)
Lemma parse_u32_format_cost cost :
  (cost < 2 ^ 32)%N → parse_u32 (format_cost cost) = Some cost.
Proof.
  intros Hcost. destruct (decimal_digits cost) as (Hd & Hne & Hparse).
  assert (parse_digits (format_cost cost) = Some cost) as Hp.
  { unfold format_cost. destruct (decide (cost < 10)%N); [|done]. exact Hparse. }
  destruct (format_cost_digits cost) as [Hdigits Hnonempty].
  unfold parse_u32. destruct (format_cost cost) as [|c rest]; [done|].
  apply Forall_cons in Hdigits as [[Hplus _]%digit_not_sign _].
  rewrite decide_False by done. rewrite Hp. cbn. by rewrite decide_True.
Qed.

(** ** The fields of a hash string *)

Lemma split_on_whole c s : c ∉ s → split_on c s = [s].
Proof.
  induction s as [|x s IH]; [done|].
  intros [Hx Hs]%not_elem_of_cons. cbn [split_on].
  rewrite decide_False by done. by rewrite IH.
Qed.

Lemma split_on_field c a rest :
  c ∉ a → split_on c (a ++ c :: rest) = a :: split_on c rest.
Proof.
  induction a as [|x a IH].
  - intros _. cbn [app split_on]. by rewrite decide_True.
  - intros [Hx Ha]%not_elem_of_cons. cbn [app split_on].
    rewrite decide_False by done. by rewrite IH.
Qed.

Lemma version_field version :
  version ∈ versions → ("$"%char ∉ version) ∧ version ≠ [].
Proof.
  unfold versions. rewrite !elem_of_cons, elem_of_nil.
  intros [->|[->|[->|[->|[]]]]];
    apply (bool_decide_unpack _); vm_compute; reflexivity.
Qed.

Lemma parse_salt_Some salt version cost remaining :
  parse_salt salt = Some (version, cost, remaining) →
  version ∈ versions ∧ (cost < 2 ^ 32)%N ∧ 22 ≤ length remaining.
Proof.
  unfold parse_salt.
  destruct (filter _ (split_on "$" salt)) as [|v [|c [|r [|? ?]]]]; try done.
  destruct (decide (v ∈ _)) as [Hv|]; [|done].
  destruct (parse_u32 c) as [n|] eqn:Hc; [|done]. cbn.
  destruct (decide (22 ≤ length r)); [|done]. intros [= <- <- <-].
  split; [done|]. split; [|done].
  unfold parse_u32 in Hc.
  destruct (match c with [] => c | _ => _ end); [done|].
  destruct (parse_digits _); [|done]. cbn in Hc.
  destruct (decide (n0 < 2 ^ 32)%N); [|done]. by injection Hc as <-.
Qed.

(** A hash string as [hashpw] writes it is read back field by field. *)
Lemma parse_salt_written version cost out :
  version ∈ versions → (cost < 2 ^ 32)%N → 22 ≤ length out → "$"%char ∉ out →
  parse_salt (b["$"] ++ version ++ b["$"] ++ format_cost cost ++ b["$"] ++ out)
  = Some (version, cost, out).
Proof.
  intros Hv Hcost Hlen Hout.
  destruct (version_field version Hv) as [Hv1 Hv2].
  destruct (format_cost_digits cost) as [Hdigits Hnonempty].
  assert ("$"%char ∉ format_cost cost) as Hf.
  { intros Hin. rewrite Forall_forall in Hdigits.
    by destruct (digit_not_sign _ (Hdigits _ Hin)). }
  assert (out ≠ []) as Ho by (intros ->; cbn in Hlen; lia).
  unfold parse_salt.
  change (b["$"] ++ version ++ b["$"] ++ format_cost cost ++ b["$"] ++ out)
    with ([] ++ "$"%char :: (version ++ "$"%char :: (format_cost cost ++ "$"%char :: out))).
  rewrite (split_on_field _ []) by apply not_elem_of_nil.
  rewrite !split_on_field, split_on_whole by done.
  rewrite !filter_cons, filter_nil.
  rewrite (decide_False (P := [] ≠ [])) by (by intros ?).
  rewrite !decide_True by done.
  rewrite parse_u32_format_cost by done. cbn. by rewrite decide_True.
Qed.

(** ** [hashpw] and [checkpw] *)

Section Hashing.
Context `{Platform}.

(** A hash that [hashpw] wrote, checked against any password. *)
Lemma checkpw_hashpw password salt hashed :
  hashpw password salt = Return hashed →
  rehashes password →
  ∃ version cost out,
    hashed = b["$"] ++ version ++ b["$"] ++ format_cost cost ++ b["$"] ++ out
    ∧ bcrypt_core cost (take 22 out) password = Some out
    ∧ ∀ other,
        checkpw other hashed
        = match bcrypt_core cost (take 22 out) other with
          | Some out' => Return (bool_decide (out' = out))
          | None => Raise ValueError
          end.
Proof.
  unfold hashpw. intros Hhash Hre.
  destruct (parse_salt salt) as [[[version cost] remaining]|] eqn:Hsalt; [|done].
  apply parse_salt_Some in Hsalt as (Hv & Hcost & Hlen).
  destruct (bcrypt_core cost (take 22 remaining) password) as [out|] eqn:Hcore; [|done].
  assert (hashed = b["$"] ++ version ++ b["$"] ++ format_cost cost ++ b["$"] ++ out)
    as -> by congruence.
  clear Hhash.
  destruct (Hre cost _ out Hcore Hcost) as (Hlen' & Hout & Hagain).
  exists version, cost, out. split; [done|]. split; [done|].
  intros other. unfold checkpw, hashpw.
  rewrite (parse_salt_written version cost out) by done.
  destruct (bcrypt_core cost (take 22 out) other) as [out'|]; [|done].
  cbn. f_equal. apply bool_decide_ext. split; [|by intros ->].
  intros Heq. injection Heq as Heq. apply app_inv_head in Heq.
  injection Heq as Heq. apply app_inv_head in Heq. by injection Heq.
Qed.

End Hashing.
End BcryptFacts.

Section PasswordFacts2.
Import Notions BcryptFacts.
Context `{Platform}.

Lemma hash_password_Return gensalt password hashed :
  hash_password gensalt password = Return hashed →
  ∃ h, Bcrypt.hashpw (want_bytes password) gensalt = Return h
       ∧ hashed = decode_utf8 h ∧ want_bytes hashed = h.
Proof.
  unfold hash_password.
  destruct (Bcrypt.hashpw (want_bytes password) gensalt) as [h|] eqn:Hh; [|done].
  cbn. intros [= <-]. exists h. split; [done|]. split; [done|].
  apply SerializerFacts.want_bytes_decode.
Qed.

(** X17.  A password verifies against the hash that [hash_password] made of it,
    whatever the salt; and against that hash [verify_password] compares, for
    any password, the digest bcrypt derives from it under the cost and the
    salt of the hash with the stored digest, raising when bcrypt refuses the
    password. *)
Theorem hash_then_verify (gensalt : bytes) (password hashed : string) :
  hash_password gensalt password = Return hashed →
  rehashes (want_bytes password) →
  verify_password password hashed = Return true
  ∧ ∃ cost salt digest,
      bcrypt_core cost salt (want_bytes password) = Some digest
      ∧ ∀ other,
          verify_password other hashed
          = match bcrypt_core cost salt (want_bytes other) with
            | Some digest' => Return (bool_decide (digest' = digest))
            | None => Raise ValueError
            end.
Proof.
  intros (h & Hh & _ & Hbytes)%hash_password_Return Hre.
  destruct (checkpw_hashpw _ _ _ Hh Hre) as (version & cost & out & _ & Hcore & Hcheck).
  assert (∀ other,
            verify_password other hashed
            = match bcrypt_core cost (take 22 out) (want_bytes other) with
              | Some digest' => Return (bool_decide (digest' = out))
              | None => Raise ValueError
              end) as Hverify.
  { intros other. unfold verify_password. rewrite Hbytes. apply Hcheck. }
  split.
  - rewrite Hverify, Hcore. by rewrite bool_decide_eq_true_2.
  - by exists cost, (take 22 out), out.
Qed.

End PasswordFacts2.

(** ** Administrators *)

Section AdminFacts.
Import Notions BcryptFacts.
Context `{Platform}.

Lemma find_head_filter {A} (P : A → Prop) `{!∀ x, Decision (P x)} (l : list A) :
  find (fun a => bool_decide (P a)) l = head (filter P l).
Proof.
  induction l as [|x l IH]; [done|].
  cbn [find]. rewrite filter_cons. destruct (decide (P x)).
  - by rewrite bool_decide_eq_true_2.
  - by rewrite bool_decide_eq_false_2.
Qed.

Lemma head_filter_None {A} (P : A → Prop) `{!∀ x, Decision (P x)} (l : list A) :
  head (filter P l) = None ↔ ∀ x, x ∈ l → ¬ P x.
Proof.
  rewrite head_None. split.
  - intros Hnil x Hx HP.
    assert (x ∈ filter P l) as Hin by by apply list_elem_of_filter.
    rewrite Hnil in Hin. by apply elem_of_nil in Hin.
  - intros Hno. destruct (filter P l) as [|x l'] eqn:Hf; [done|].
    assert (x ∈ filter P l) as [HP Hx]%list_elem_of_filter by (rewrite Hf; left).
    by destruct (Hno x Hx).
Qed.

Lemma get_admin_by_username_None db u :
  get_admin_by_username db u = None ↔ u ∉ username <$> DB.admins db.
Proof.
  unfold get_admin_by_username. rewrite head_filter_None, list_elem_of_fmap.
  split.
  - intros Hno (a & -> & Ha). by apply (Hno a).
  - intros Hno a Ha Hu. apply Hno. by exists a.
Qed.


Lemma head_filter_snoc_new {A} (P : A → Prop) `{!∀ x, Decision (P x)} (l : list A) x :
  (∀ y, y ∈ l → ¬ P y) → P x → head (filter P (l ++ [x])) = Some x.
Proof.
  intros Hno Hx. rewrite filter_app.
  assert (filter P l = []) as ->.
  { apply head_None. by apply head_filter_None. }
  rewrite filter_cons. by destruct (decide (P x)).
Qed.

Lemma head_filter_snoc_old {A} (P : A → Prop) `{!∀ x, Decision (P x)} (l : list A) x :
  ¬ P x → head (filter P (l ++ [x])) = head (filter P l).
Proof.
  intros Hx. rewrite filter_app, filter_cons.
  destruct (decide (P x)); [done|]. by rewrite filter_nil, app_nil_r.
Qed.

(** What a call of [create_admin] that returns has done. *)
Lemma create_admin_Done gensalt db u p a db' :
  create_admin gensalt db u p = (Done a, db') →
  hash_password gensalt p = Return (password_hash a)
  ∧ a = {| id := next_id id (DB.admins db); username := u;
           password_hash := password_hash a; is_active := true |}
  ∧ (u ∉ username <$> DB.admins db)
  ∧ db' = DB.set_admins db (DB.admins db ++ [a]).
Proof.
  unfold create_admin.
  destruct (hash_password gensalt p) as [hashed|e]; [|done].
  case_bool_decide as Hu; [done|].
  by intros [= <- <-].
Qed.

(** What a call that raises has left. *)
Lemma create_admin_Failed gensalt db u p e db' :
  create_admin gensalt db u p = (Failed e, db') →
  db' = db
  ∧ ((e = IntegrityError ∧ (u ∈ username <$> DB.admins db))
     ∨ (∃ x, e = PyError x ∧ hash_password gensalt p = Raise x)).
Proof.
  unfold create_admin.
  destruct (hash_password gensalt p) as [hashed|x].
  - case_bool_decide as Hu; [|done]. intros [= <- <-]. split; [done|]. by left.
  - intros [= <- <-]. split; [done|]. right. by exists x.
Qed.

(** The administrator [create_admin] has stored logs in with the password
    that was hashed. *)
Lemma authenticate_created gensalt (admins : Session) u p a :
  hash_password gensalt p = Return (password_hash a) →
  rehashes (want_bytes p) →
  username a = u → is_active a = true →
  u ∉ username <$> admins →
  authenticate_admin (admins ++ [a]) u p = Return (Some a).
Proof.
  intros Hhash Hre Hu Hactive Hfresh.
  unfold authenticate_admin.
  rewrite (find_head_filter (fun a => username a = u)).
  rewrite head_filter_snoc_new; [|intros y Hy Hyu|done].
  2:{ apply Hfresh. apply list_elem_of_fmap. by exists y. }
  rewrite Hactive. cbn [negb].
  destruct (checkpw_hashpw (want_bytes p) gensalt (want_bytes (password_hash a)))
    as (version & cost & out & _ & Hcore & Hcheck); [|done|].
  { apply hash_password_Return in Hhash as (h & Hh & _ & <-). done. }
  unfold verify_password. rewrite Hcheck, Hcore. cbn.
  by rewrite bool_decide_eq_true_2.
Qed.

(** X18.  [create_admin] followed by a login: the new administrator is the one
    [get_admin_by_username] finds under that name and the one
    [authenticate_admin] returns for the password that was given; the other
    names find what they found, and there is one administrator more. *)
Theorem create_admin_then_authenticate gensalt db username_ password admin db' :
  create_admin gensalt db username_ password = (Done admin, db') →
  rehashes (want_bytes password) →
  get_admin_by_username db username_ = None
  ∧ get_admin_by_username db' username_ = Some admin
  ∧ authenticate_admin (DB.admins db') username_ password = Return (Some admin)
  ∧ (∀ other, other ≠ username_ →
       get_admin_by_username db' other = get_admin_by_username db other)
  ∧ get_admin_count db' = (get_admin_count db + 1)%Z.
Proof.
  intros (Hhash & Hrow & Hfresh & ->)%create_admin_Done Hre.
  assert (username admin = username_) as Hu by (by rewrite Hrow).
  assert (is_active admin = true) as Hactive by (by rewrite Hrow).
  split_and!.
  - by apply get_admin_by_username_None.
  - unfold get_admin_by_username. cbn [DB.admins DB.set_admins].
    apply head_filter_snoc_new; [|done].
    intros y Hy Hyu. apply Hfresh, list_elem_of_fmap. by exists y.
  - cbn [DB.admins DB.set_admins]. by eapply authenticate_created.
  - intros other Hother. unfold get_admin_by_username. cbn [DB.admins DB.set_admins].
    apply head_filter_snoc_old. congruence.
  - unfold get_admin_count. cbn [DB.admins DB.set_admins].
    rewrite length_app. cbn. lia.
Qed.


End AdminFacts.

(** ** Seeding and the administrator script *)

Section SeedFacts.
Import Notions BcryptFacts.
Context `{Platform}.
Variable init : InitAdmin.

Lemma seed_products db :
  (if (get_product_count db false =? 0)%Z
   then create_each create_product INITIAL_PRODUCTS db
   else (Done tt, db))
  = (Done tt, DB.set_products db (if_empty (DB.products db) first_products)).
Proof. destruct db as [a [|p0 p] s l st c]; reflexivity. Qed.

Lemma seed_schedules db :
  (if (Z.of_nat (length (get_schedules db false)) =? 0)%Z
   then create_each create_schedule INITIAL_SCHEDULE db
   else (Done tt, db))
  = (Done tt, DB.set_schedules db (if_empty (DB.schedules db) first_schedules)).
Proof.
  unfold get_schedules. cbv zeta. rewrite OrderFacts.order_by_length.
  destruct db as [a p [|s0 s] l st c]; reflexivity.
Qed.

Lemma ensure_settings_exist_if_empty db :
  (ensure_settings_exist db).2
  = DB.set_settings db (if_empty (DB.settings db) [first_settings]).
Proof. destruct db as [a p s l [|st0 st] c]; reflexivity. Qed.

Lemma ensure_location_exists_if_empty db :
  (ensure_location_exists db).2
  = DB.set_location db (if_empty (DB.location db) [first_location]).
Proof. destruct db as [a p s [|l0 l] st c]; reflexivity. Qed.

(** [seed_database], table by table. *)
Lemma seed_database_tables gensalt db :
  seed_database init gensalt db
  = let db4 :=
      {| DB.admins := DB.admins db;
         DB.products := if_empty (DB.products db) first_products;
         DB.schedules := if_empty (DB.schedules db) first_schedules;
         DB.location := if_empty (DB.location db) [first_location];
         DB.settings := if_empty (DB.settings db) [first_settings];
         DB.contact_messages := DB.contact_messages db |} in
    match DB.admins db with
    | [] =>
        match create_admin gensalt db4 (INIT_ADMIN_USERNAME init)
                (INIT_ADMIN_PASSWORD init) with
        | (Done _, db) => (Done tt, db)
        | (Failed e, db) => (Failed e, db)
        end
    | _ => (Done tt, db4)
    end.
Proof.
  unfold seed_database. rewrite seed_products, seed_schedules.
  destruct (ensure_settings_exist _) as [x db2] eqn:H2.
  apply (f_equal snd) in H2. cbn [snd] in H2.
  rewrite ensure_settings_exist_if_empty in H2. subst db2.
  destruct (ensure_location_exists _) as [y db3] eqn:H3.
  apply (f_equal snd) in H3. cbn [snd] in H3.
  rewrite ensure_location_exists_if_empty in H3. subst db3.
  unfold get_admin_count. destruct db as [[|a0 a] p s l st c]; reflexivity.
Qed.

Lemma if_empty_nonempty {A} (rows new : list A) :
  new ≠ [] → if_empty rows new ≠ [].
Proof. by destruct rows. Qed.

Lemma first_rows_nonempty db :
  if_empty (DB.products db) first_products ≠ []
  ∧ if_empty (DB.schedules db) first_schedules ≠ []
  ∧ if_empty (DB.settings db) [first_settings] ≠ []
  ∧ if_empty (DB.location db) [first_location] ≠ [].
Proof.
  split_and!; apply if_empty_nonempty.
  - vm_compute. discriminate.
  - vm_compute. discriminate.
  - discriminate.
  - discriminate.
Qed.

Lemma if_empty_id {A} (rows new : list A) : rows ≠ [] → if_empty rows new = rows.
Proof. by destruct rows. Qed.

(** X20.  [seed_database] fills the tables that are empty and leaves the others
    as they are: an empty table of products or of schedule entries takes the
    initial rows, keyed from 1 in their order, an empty table of settings or
    of the location its one default row; the messages are never touched.
    An administrator is created only when there is none, active and under
    the configured name, and only the hashing of the configured password
    can make the call raise, after the other tables were filled. *)
Theorem seed_database_fills_empty_tables gensalt db r db' :
  seed_database init gensalt db = (r, db') →
  DB.products db' = if_empty (DB.products db) first_products
  ∧ DB.schedules db' = if_empty (DB.schedules db) first_schedules
  ∧ DB.settings db' = if_empty (DB.settings db) [first_settings]
  ∧ DB.location db' = if_empty (DB.location db) [first_location]
  ∧ DB.contact_messages db' = DB.contact_messages db
  ∧ (DB.admins db ≠ [] → r = Done tt ∧ DB.admins db' = DB.admins db)
  ∧ (DB.admins db = [] →
       (∃ admin,
          r = Done tt ∧ DB.admins db' = [admin] ∧ id admin = 1%Z
          ∧ username admin = INIT_ADMIN_USERNAME init ∧ is_active admin = true
          ∧ hash_password gensalt (INIT_ADMIN_PASSWORD init)
            = Return (password_hash admin))
       ∨ (∃ e,
            r = Failed (PyError e) ∧ DB.admins db' = []
            ∧ hash_password gensalt (INIT_ADMIN_PASSWORD init) = Raise e)).
Proof.
  rewrite seed_database_tables. cbv zeta.
  destruct (DB.admins db) as [|a0 a] eqn:Hadmins.
  - destruct (create_admin _ _ _ _) as [[admin|e] db5] eqn:Hcreate.
    + intros [= <- <-].
      apply create_admin_Done in Hcreate as (Hhash & Hrow & _ & ->).
      cbn [DB.admins DB.set_admins app] in *.
      split_and!; try done.
      intros _. left. exists admin.
      split_and!; try done; by rewrite Hrow.
    + intros [= <- <-].
      apply create_admin_Failed in Hcreate as [-> [[_ Hin]|(x & -> & Hhash)]].
      { cbn in Hin. by apply elem_of_nil in Hin. }
      cbn [DB.admins DB.products DB.schedules DB.settings DB.location
           DB.contact_messages].
      split_and!; try done.
      intros _. right. by exists x.
  - intros [= <- <-].
    cbn [DB.admins DB.products DB.schedules DB.settings DB.location
         DB.contact_messages].
    split_and!; done.
Qed.

(** X21.  Once [seed_database] has returned, no table it fills is empty, and
    calling it again, at every start of the application, returns and
    changes nothing. *)
Theorem seed_database_idempotent gensalt db db' :
  seed_database init gensalt db = (Done tt, db') →
  DB.products db' ≠ [] ∧ DB.schedules db' ≠ [] ∧ DB.settings db' ≠ []
  ∧ DB.location db' ≠ [] ∧ DB.admins db' ≠ []
  ∧ ∀ gensalt', seed_database init gensalt' db' = (Done tt, db').
Proof.
  intros Hseed.
  assert (DB.products db' ≠ [] ∧ DB.schedules db' ≠ [] ∧ DB.settings db' ≠ []
          ∧ DB.location db' ≠ [] ∧ DB.admins db' ≠ []) as Hfull.
  { revert Hseed. rewrite seed_database_tables. cbv zeta.
    destruct (DB.admins db) as [|a0 a] eqn:Hadmins.
    - destruct (create_admin _ _ _ _) as [[admin|e] db5] eqn:Hcreate; [|done].
      intros [= <-].
      apply create_admin_Done in Hcreate as (_ & _ & _ & ->).
      cbn [DB.admins DB.products DB.schedules DB.settings DB.location DB.set_admins].
      destruct (first_rows_nonempty db) as (? & ? & ? & ?).
      split_and!; try assumption.
      by destruct (DB.admins db).
    - intros [= <-].
      cbn [DB.admins DB.products DB.schedules DB.settings DB.location].
      destruct (first_rows_nonempty db) as (? & ? & ? & ?).
      split_and!; try assumption. done. }
  destruct Hfull as (Hp & Hs & Hst & Hl & Ha).
  split_and!; try done.
  intros gensalt'. rewrite seed_database_tables. cbv zeta.
  rewrite !if_empty_id by done.
  destruct db' as [a p s l st c]. cbn in *. by destruct a.
Qed.

(** X22.  The first start: when there is no administrator and [seed_database]
    returns, there is exactly one, and [authenticate_admin] accepts the
    configured name and password for it. *)
Theorem seed_database_then_login gensalt db db' :
  DB.admins db = [] →
  seed_database init gensalt db = (Done tt, db') →
  rehashes (want_bytes (INIT_ADMIN_PASSWORD init)) →
  ∃ admin,
    DB.admins db' = [admin]
    ∧ get_admin_by_username db' (INIT_ADMIN_USERNAME init) = Some admin
    ∧ authenticate_admin (DB.admins db') (INIT_ADMIN_USERNAME init)
        (INIT_ADMIN_PASSWORD init) = Return (Some admin).
Proof.
  intros Hadmins Hseed Hre. revert Hseed.
  rewrite seed_database_tables. cbv zeta. rewrite Hadmins.
  destruct (create_admin _ _ _ _) as [[admin|e] db5] eqn:Hcreate; [|done].
  intros [= <-].
  apply create_admin_Done in Hcreate as (Hhash & Hrow & _ & ->).
  cbn [DB.admins DB.set_admins app].
  assert (username admin = INIT_ADMIN_USERNAME init) as Hu by (by rewrite Hrow).
  assert (is_active admin = true) as Hactive by (by rewrite Hrow).
  exists admin. split_and!; [done| |].
  - unfold get_admin_by_username. cbn [DB.admins DB.set_admins].
    change (head (filter (fun a => username a = INIT_ADMIN_USERNAME init)
                    ([] ++ [admin])) = Some admin).
    apply head_filter_snoc_new; [|done]. by intros y ?%elem_of_nil.
  - apply (authenticate_created gensalt []); try done. apply not_elem_of_nil.
Qed.

Lemma not_warning_suffix (out0 : list string) line :
  line ≠ "          Please change it immediately after first login!" →
  ¬ password_warning `suffix_of` out0 ++ [line].
Proof.
  intros Hne [k Hk]. unfold password_warning in Hk.
  change [?x; ?y] with ([x] ++ [y]) in Hk.
  rewrite !app_assoc in Hk. apply app_inj_tail in Hk as [_ Hk]. congruence.
Qed.

Lemma not_warning_short (out0 : list string) :
  length out0 ≤ 1 → ¬ password_warning `suffix_of` out0.
Proof.
  intros Hlen [k Hk]. apply (f_equal length) in Hk.
  rewrite length_app in Hk. cbn in Hk. lia.
Qed.

(** X23.  [python -m app.create_admin]: under a name that is taken the script
    exits with status 1, and only then; whenever it does not return, the
    database is as it was.  When it returns it has added one administrator
    under the name it was given, who can log in with the password it was
    given, and it prints its warning exactly when that password is
    ["admin123"]. *)
Theorem create_admin_script gensalt argv db out r db' :
  main init gensalt argv db = (out, r, db') →
  let username_ := (credentials init argv).1 in
  let password := (credentials init argv).2 in
  (is_Some (get_admin_by_username db username_) ↔ r = Failed (SystemExit 1))
  ∧ (r ≠ Done tt → db' = db)
  ∧ (r = Done tt →
       ∃ admin,
         db' = DB.set_admins db (DB.admins db ++ [admin])
         ∧ username admin = username_
         ∧ (rehashes (want_bytes password) →
              authenticate_admin (DB.admins db') username_ password
              = Return (Some admin)))
  ∧ (password_warning `suffix_of` out ↔ r = Done tt ∧ password = "admin123").
Proof.
  unfold main.
  assert (∃ u p out0,
            match argv with
            | _ :: u :: p :: _ => (u, p, [])
            | _ => (INIT_ADMIN_USERNAME init, INIT_ADMIN_PASSWORD init,
                    ["Using default credentials from environment/settings"])
            end = (u, p, out0)
            ∧ credentials init argv = (u, p)
            ∧ length out0 ≤ 1)
    as (u & p & out0 & -> & -> & Hout0).
  { destruct argv as [|a0 [|a1 [|a2 argv]]]; eexists _, _, _;
      (split; [reflexivity|]); (split; [reflexivity|]); cbn; lia. }
  cbv zeta. cbn [fst snd].
  destruct (get_admin_by_username db u) as [existing|] eqn:Hexisting.
  - intros [= <- <- <-]. split_and!.
    + done.
    + done.
    + done.
    + split; [|by intros [? _]]. intros Hsuf. exfalso.
      by apply not_warning_suffix in Hsuf.
  - destruct (create_admin gensalt db u p) as [[admin|e] db5] eqn:Hcreate.
    + intros [= <- <- <-].
      pose proof Hcreate as (Hhash & Hrow & Hfresh & Hdb)%create_admin_Done.
      assert (username admin = u) as Hu by (by rewrite Hrow).
      assert (is_active admin = true) as Hactive by (by rewrite Hrow).
      split_and!.
      * split; [by intros [? ?]|done].
      * done.
      * intros _. exists admin. split_and!; try done.
        intros Hre. rewrite Hdb. cbn [DB.admins DB.set_admins].
        by eapply authenticate_created.
      * case_bool_decide as Hp.
        -- split; [done|]. intros _. by apply suffix_app_r.
        -- split; [|by intros [_ ?]]. intros Hsuf. exfalso.
           change [?x; ?y] with ([x] ++ [y]) in Hsuf. rewrite app_assoc in Hsuf.
           by apply not_warning_suffix in Hsuf.
    + intros [= <- <- <-].
      apply create_admin_Failed in Hcreate as [-> [[-> Hin]|(x & -> & Hhash)]].
      * by apply get_admin_by_username_None in Hexisting.
      * split_and!.
        -- split; [by intros [? ?]|done].
        -- done.
        -- done.
        -- split; [|by intros [? _]]. intros Hsuf. exfalso.
           by apply not_warning_short in Hsuf.
Qed.

End SeedFacts.

(** ** The contact form *)

Section ContactFacts.
Import Notions TableFacts OrderFacts.



End ContactFacts.

(** ** Requests that name a row *)

Section RowFacts.
Import Notions TableFacts.
Context `{Platform}.
Variable config : Settings.
Variable ilike : string → string → bool.

Lemma row_with_is_Some {A} (id : A → Z) i rows :
  is_Some (row_with id i rows) ↔ i ∈ id <$> rows.
Proof.
  rewrite list_elem_of_fmap. split.
  - intros [r [Hin Hi]%row_with_Some]. by exists r.
  - intros (r & -> & Hin). destruct (row_with id (id r) rows) eqn:Hr; [done|].
    by destruct (row_with_None id _ _ r Hr Hin).
Qed.

Lemma row_with_None_iff {A} (id : A → Z) i rows :
  row_with id i rows = None ↔ i ∉ id <$> rows.
Proof. rewrite <-row_with_is_Some, eq_None_not_Some. done. Qed.

Lemma delete_row_by_key {A} (id : A → Z) (r : A) i rows :
  id r = i → delete_row id r rows = filter (fun x => id x ≠ i) rows.
Proof. by intros <-. Qed.

(** What the four writes that take a form raise is caught by
    [except Exception], and leaves the database as it was. *)
Lemma create_product_Failed db kwargs e db' :
  create_product db kwargs = (Failed e, db') → is_Exception e = true ∧ db' = db.
Proof.
  unfold create_product.
  destruct (bound _); cbn [negb]; [|by intros [= <- <-]].
  destruct (Product.kw_name kwargs), (Product.kw_category kwargs),
    (Product.kw_price kwargs ≫= bind_float); cbn; by intros [= <- <-].
Qed.

Lemma update_product_Failed db i kwargs e db' :
  update_product db i kwargs = (Failed e, db') → is_Exception e = true ∧ db' = db.
Proof.
  unfold update_product. destruct (get_product db i); [|done].
  destruct (bound _); cbn [negb]; [|by intros [= <- <-]].
  destruct (Product.kw_price kwargs) as [price|]; [|done].
  destruct (bind_float price); cbn; [done|by intros [= <- <-]].
Qed.

Lemma create_schedule_Failed db kwargs e db' :
  create_schedule db kwargs = (Failed e, db') → is_Exception e = true ∧ db' = db.
Proof.
  unfold create_schedule.
  destruct (bound _); cbn [negb]; [|by intros [= <- <-]].
  destruct (Schedule.kw_day_of_week kwargs), (Schedule.kw_place kwargs); cbn;
    by intros [= <- <-].
Qed.

Lemma update_schedule_Failed db i kwargs e db' :
  update_schedule db i kwargs = (Failed e, db') → is_Exception e = true ∧ db' = db.
Proof.
  unfold update_schedule. destruct (get_schedule db i); [|done].
  destruct (bound _); cbn [negb]; [|by intros [= <- <-]]. done.
Qed.

(** X25.  An authenticated request fails only when the row it names is
    missing.  Every route that takes a key answers a key that the driver can
    bind and that its table does not hold with a 404 that names the kind of
    the row, and leaves the database as it was; every other request to a
    protected route is answered, but for an update whose form the database
    refuses, where the route hands its template an expired row. *)
Theorem missing_rows_are_not_found (now : Z) (request : Request) (admin : pyval)
    (r : protected_request) (db : DB.t) :
  admin_required config now request = Return admin →
  (∀ i, named_key r = Some i → sqlite_integer i) →
  match named_row r db with
  | Some (kind, false) =>
      handle config ilike now request r db
      = (Failed (HTTPError 404 (kind ++ " not found")), db)
  | _ =>
      refused_update r = false →
      ∃ reply, (handle config ilike now request r db).1 = Done reply
  end.
Proof.
  intros Hadmin _.
  assert (∀ i, bool_decide (i ∈ Product.id <$> DB.products db)
               = bool_decide (is_Some (get_product db i))) as Hp.
  { intros i. apply bool_decide_ext. symmetry. apply row_with_is_Some. }
  assert (∀ i, bool_decide (i ∈ Schedule.id <$> DB.schedules db)
               = bool_decide (is_Some (get_schedule db i))) as Hs.
  { intros i. apply bool_decide_ext. symmetry. apply row_with_is_Some. }
  assert (∀ i, bool_decide (i ∈ ContactMessage.id <$> DB.contact_messages db)
               = bool_decide (is_Some (get_contact_message db i))) as Hm.
  { intros i. apply bool_decide_ext. symmetry. apply row_with_is_Some. }
  destruct r; cbn [named_row handle]; rewrite ?Hp, ?Hs, ?Hm;
    autounfold with routes; rewrite (Depends_admin_required_Return _ _ _ _ _ _ Hadmin);
    unfold delete_product, delete_schedule, delete_contact_message,
      mark_message_as_read;
    repeat match goal with
           | |- context [get_product db ?i] => destruct (get_product db i) eqn:?
           | |- context [get_schedule db ?i] => destruct (get_schedule db i) eqn:?
           | |- context [get_contact_message db ?i] =>
               destruct (get_contact_message db i) eqn:?
           | |- context [ContactMessage.is_read ?m] =>
               destruct (ContactMessage.is_read m) eqn:?
           end;
    cbn; try done; try (intros _; eexists; reflexivity).
  - intros _. destruct (create_product _ _) as [[?|e] ?] eqn:Hcall; [by eexists|].
    apply create_product_Failed in Hcall as [-> _]. by eexists.
  - intros _. destruct (update_product _ _ _) as [[?|e] ?] eqn:Hcall; [by eexists|].
    apply update_product_Failed in Hcall as [-> _]. by eexists.
  - intros _. destruct (update_location _ _). eexists; reflexivity.
  - intros _. destruct (create_schedule _ _) as [[?|e] ?] eqn:Hcall; [by eexists|].
    apply create_schedule_Failed in Hcall as [-> _]. by eexists.
  - intros _. destruct (update_schedule _ _ _) as [[?|e] ?] eqn:Hcall; [by eexists|].
    apply update_schedule_Failed in Hcall as [-> _]. by eexists.
  - intros _. destruct (update_settings _ _). eexists; reflexivity.
Qed.

(** X26.  The three delete actions: for a key its table holds, an authenticated
    request is redirected to the list, and the table has lost the rows under
    that key and nothing else, the other rows staying in their order; the
    other tables are as they were. *)
Theorem delete_actions_remove_the_row (now : Z) (request : Request) (admin : pyval)
    (db : DB.t) (i : Z) :
  admin_required config now request = Return admin →
  (i ∈ Product.id <$> DB.products db →
   product_delete_action config now request i db
   = (Done (Redirected (RedirectResponse "/admin/products" 303)),
      DB.set_products db (filter (fun p => Product.id p ≠ i) (DB.products db))))
  ∧ (i ∈ Schedule.id <$> DB.schedules db →
     schedule_delete_action config now request i db
     = (Done (Redirected (RedirectResponse "/admin/schedule" 303)),
        DB.set_schedules db (filter (fun s => Schedule.id s ≠ i) (DB.schedules db))))
  ∧ (i ∈ ContactMessage.id <$> DB.contact_messages db →
     message_delete_action config now request i db
     = (Done (Redirected (RedirectResponse "/admin/messages" 303)),
        DB.set_contact_messages db
          (filter (fun m => ContactMessage.id m ≠ i) (DB.contact_messages db)))).
Proof.
  intros Hadmin. split_and!; intros [row Hrow]%row_with_is_Some;
    pose proof (proj2 (row_with_Some _ _ _ _ Hrow)) as Hid;
    autounfold with routes; rewrite (Depends_admin_required_Return _ _ _ _ _ _ Hadmin).
  - unfold delete_product, get_product. fold (row_with Product.id i (DB.products db)).
    rewrite Hrow. cbn [negb]. by rewrite (delete_row_by_key _ row i).
  - unfold delete_schedule, get_schedule.
    fold (row_with Schedule.id i (DB.schedules db)).
    rewrite Hrow. cbn [negb]. by rewrite (delete_row_by_key _ row i).
  - unfold delete_contact_message, get_contact_message.
    fold (row_with ContactMessage.id i (DB.contact_messages db)).
    rewrite Hrow. cbn [negb]. by rewrite (delete_row_by_key _ row i).
Qed.

End RowFacts.

(** ** The session token and the defaults of the settings *)

Section TokenFacts.
Import Notions Encoding ItsDangerous EncodingFacts SerializerFacts.
Context `{Platform}.
Variable config : Settings.

(** X27.  A session token is safe in a cookie and in a URL: whoever the
    administrator, [create_session_token] returns at every time that fits
    the eight bytes of a timestamp, and its token is not empty and is made
    of letters, digits, ['-'], ['_'] and the separating dots only, whatever
    the user name holds. *)
Theorem session_token_is_url_safe (now admin_id : Z) (username_ : string) :
  (0 ≤ now < 2 ^ 64)%Z →
  ∃ token,
    create_session_token config now admin_id username_ = Return token
    ∧ token ≠ EmptyString
    ∧ Forall (fun c => c ∈ alphabet ∨ c = sep) (want_bytes token).
Proof.
  intros Hnow.
  destruct (TimestampFacts.int_to_bytes_range now Hnow) as [ts Hts].
  unfold create_session_token.
  set (obj := PyDict _).
  assert (∃ token, dumps (serializer_key config) now obj = Return token)
    as [token Htoken].
  { unfold dumps, sign. rewrite Hts. cbn. eauto. }
  exists token. split; [done|]. split; [by eapply dumps_nonempty|].
  apply dumps_inv in Htoken as (signed & Hs & -> & _).
  rewrite want_bytes_decode.
  unfold sign in Hs. rewrite Hts in Hs. cbn in Hs. injection Hs as <-.
  assert (∀ bs, Forall (fun c => c ∈ alphabet ∨ c = sep) (base64_encode bs)) as Henc.
  { intros bs. eapply Forall_impl; [apply encode_alphabet|]. by left. }
  assert (Forall (fun c => c ∈ alphabet ∨ c = sep) [sep]) as Hsep.
  { constructor; [by right|constructor]. }
  assert (Forall (fun c => c ∈ alphabet ∨ c = sep) (dump_payload obj)) as Hpayload.
  { unfold dump_payload. destruct (decide _); [|apply Henc].
    constructor; [by right|apply Henc]. }
  unfold get_signature. rewrite !Forall_app.
  split_and!; try done; (constructor; [by right|apply Henc]).
Qed.

End TokenFacts.

Section DefaultFacts.
Import Notions.
Context `{Platform}.
Variable init : InitAdmin.

(** X28.  The settings the public API falls back on are the defaults of the
    columns: creating the row of the settings, as [ensure_settings_exist]
    and [seed_database] do, changes nothing of what [api_get_settings]
    answers. *)
Theorem api_settings_defaults_agree (db : DB.t) :
  api_get_settings (ensure_settings_exist db).2 = api_get_settings db
  ∧ ∀ gensalt, api_get_settings (seed_database init gensalt db).2 = api_get_settings db.
Proof.
  assert (∀ st, api_get_settings
                  (DB.set_settings db (if_empty st [first_settings]))
                = match st with
                  | [] => api_get_settings (DB.set_settings db [])
                  | _ => api_get_settings (DB.set_settings db st)
                  end) as Hset.
  { intros [|s st]; reflexivity. }
  split.
  - rewrite ensure_settings_exist_if_empty, Hset.
    unfold api_get_settings, get_settings. cbn [DB.settings DB.set_settings].
    by destruct (DB.settings db).
  - intros gensalt. rewrite seed_database_tables. cbv zeta.
    assert (∀ db1 db2, DB.settings db1 = DB.settings db2 →
              api_get_settings db1 = api_get_settings db2) as Hsame.
    { intros db1 db2 Heq. unfold api_get_settings, get_settings. by rewrite Heq. }
    transitivity (api_get_settings (DB.set_settings db
                                      (if_empty (DB.settings db) [first_settings]))).
    + apply Hsame. destruct (DB.admins db) as [|a0 a]; [|done].
      destruct (create_admin _ _ _ _) as [[admin|e] db5] eqn:Hcreate.
      * by apply create_admin_Done in Hcreate as (_ & _ & _ & ->).
      * by apply create_admin_Failed in Hcreate as [-> _].
    + rewrite Hset. unfold api_get_settings, get_settings.
      cbn [DB.settings DB.set_settings]. by destruct (DB.settings db).
Qed.

End DefaultFacts.

(** * The statements on an example *)

Section Examples.
Import Sample Notions Example.

Local Notation "'rp'" := reference_platform.
Local Notation "'cfg'" := default_settings.

(** ** The example *)

Lemma example_products_keyed : keyed Product.id (DB.products db).
Proof. unfold keyed. cbn. repeat (constructor; [repeat constructor; done|]). constructor. Qed.

Lemma example_messages_keyed : keyed ContactMessage.id (DB.contact_messages db).
Proof. unfold keyed. cbn. repeat (constructor; [repeat constructor; done|]). constructor. Qed.


Lemma alice_authenticated :
  admin_required (H := rp) cfg login_time request = Return (session_data alice).
Proof. vm_compute. reflexivity. Qed.

Lemma visitor_has_no_session : no_session (H := rp) cfg login_time Sample.no_session.
Proof. apply no_cookie. apply lookup_empty. Qed.

Lemma example_slots_have_hours :
  ∀ s, s ∈ DB.schedules db → Schedule.is_active s = true → slot_hours s ≠ "-".
Proof.
  intros s Hin Hactive. cbn in Hin.
  repeat (apply elem_of_cons in Hin as [->|Hin]); try done.
  by apply elem_of_nil in Hin.
Qed.

(** The stand-in for the bcrypt derivation hashes again to the same
    digest, as bcrypt does. *)
Lemma reference_rehashes password : rehashes (H := rp) password.
Proof.
  intros cost salt out Hcore _. cbn [bcrypt_core reference_platform] in *.
  unfold BcryptStandIn.core in *.
  destruct (decide _) as [(Hcost & Hlen & Halpha)|]; [|done].
  injection Hcore as <-.
  assert (∀ rest, take 22 (salt ++ rest) = salt) as Htake.
  { intros rest. rewrite <-Hlen. apply take_app_length. }
  split_and!.
  - rewrite length_app. lia.
  - intros [Hin|Hin]%elem_of_app.
    + rewrite Forall_forall in Halpha. apply Halpha in Hin.
      revert Hin. apply (bool_decide_unpack _). vm_compute. reflexivity.
    + pose proof (EncodingFacts.encode_alphabet
                    (SHA1.hmac (salt ++ [byte_of_N cost]) password
                     ++ take 3 (SHA1.digest
                                  (SHA1.hmac (salt ++ [byte_of_N cost]) password))))
        as Henc.
      rewrite Forall_forall in Henc. apply Henc in Hin.
      revert Hin. apply (bool_decide_unpack _). vm_compute. reflexivity.
  - rewrite Htake. by rewrite decide_True.
Qed.

Lemma admin123_hashed :
  hash_password (H := rp) salt "admin123" = Return admin123_hash.
Proof. vm_compute. reflexivity. Qed.

Lemma carol_created :
  create_admin (H := rp) salt db "carol" "admin123"
  = (Done carol, DB.set_admins db (DB.admins db ++ [carol])).
Proof. vm_compute. reflexivity. Qed.


Lemma first_start_done :
  seed_database (H := rp) default_init_admin salt DB.empty = (Done tt, first_start).
Proof. vm_compute. reflexivity. Qed.

Lemma restarted_done :
  seed_database (H := rp) default_init_admin salt db = (Done tt, restarted).
Proof. vm_compute. reflexivity. Qed.

Lemma carol_script :
  main (H := rp) default_init_admin salt ["create_admin.py"; "carol"; "admin123"] db
  = (["[OK] Admin 'carol' created successfully!";
      "     You can now login at /admin/login"] ++ password_warning,
     Done tt, DB.set_admins db (DB.admins db ++ [carol])).
Proof. vm_compute. reflexivity. Qed.

Lemma example_products_next_key : has_next_key Product.id (DB.products db).
Proof. by vm_compute. Qed.

Lemma example_schedules_next_key : has_next_key Schedule.id (DB.schedules db).
Proof. by vm_compute. Qed.

(** The keys of the example are integers that the driver binds. *)
Lemma example_key (i : Z) : (0 ≤ i ≤ 9)%Z → sqlite_integer i.
Proof. unfold sqlite_integer. lia. Qed.

Lemma key_1 : sqlite_integer 1.
Proof. apply example_key. lia. Qed.

Lemma key_2 : sqlite_integer 2.
Proof. apply example_key. lia. Qed.

Lemma key_3 : sqlite_integer 3.
Proof. apply example_key. lia. Qed.

Lemma key_4 : sqlite_integer 4.
Proof. apply example_key. lia. Qed.

Lemma product_3_is_named :
  ∀ i, named_key (GET_product_edit 3) = Some i → sqlite_integer i.
Proof. intros i [= <-]. exact key_3. Qed.

Lemma login_time_in_range : (0 ≤ login_time < 2 ^ 64)%Z.
Proof. unfold login_time. lia. Qed.

(** ** Products *)

(** X1 on the example: the active gaufres of the example, in the order of the menu. *)
Lemma get_products_filtered_and_ordered_witness :
  keyed Product.id (DB.products db)
  ∧ let result := get_products whole_name db (Some "gaufres") None true false in
    (∀ p, p ∈ result
          ↔ p ∈ DB.products db ∧ wanted whole_name (Some "gaufres") None true false p)
    ∧ NoDup result
    ∧ StronglySorted by_display_order result.
Proof.
  exact (conj example_products_keyed
           (get_products_filtered_and_ordered whole_name db (Some "gaufres") None true
              false example_products_keyed)).
Defined.

(** X2 on the example: a new product takes the key 5 and is found under
    it. *)
Lemma create_product_then_get_witness :
  keyed Product.id (DB.products db)
  ∧ has_next_key Product.id (DB.products db)
  ∧ ∃ product db',
      create_product db
        (product_form_kwargs "Crepe caramel" "crepes_sucrees" price_3_50 EmptyString
           EmptyString true false 3)
      = (Done product, db')
      ∧ Product.id product = 5%Z
      ∧ get_product db' (Product.id product) = Some product.
Proof.
  pose proof (create_product_then_get db
                (product_form_kwargs "Crepe caramel" "crepes_sucrees" price_3_50
                   EmptyString EmptyString true false 3)
                example_products_keyed example_products_next_key) as Hthm.
  split; [exact example_products_keyed|]. split; [exact example_products_next_key|].
  eexists _, _. split; [reflexivity|]. split; [reflexivity|]. exact (proj1 Hthm).
Defined.

(** X3 on the example: updating the gaufre with no value changes nothing. *)
Lemma update_product_in_place_witness :
  keyed Product.id (DB.products db)
  ∧ sqlite_integer 2
  ∧ ∃ new,
      (update_product db 2 no_product_kwargs).1 = Done (Some new)
      ∧ get_product (update_product db 2 no_product_kwargs).2 2 = Some new
      ∧ (no_product_kwargs = no_product_kwargs →
         new = gaufre ∧ (update_product db 2 no_product_kwargs).2 = db).
Proof.
  pose proof (update_product_in_place db 2 no_product_kwargs example_products_keyed
                key_2) as Hthm.
  destruct Hthm as (new & Hnew & Hget & _ & _ & _ & _ & _ & _ & _ & _ & _ & _ & _ & _
                    & Hsame).
  split; [exact example_products_keyed|]. split; [exact key_2|].
  exists new. exact (conj (f_equal Done Hnew) (conj Hget Hsame)).
Defined.

(** X4 on the example: deleting the box. *)
Lemma delete_product_only_that_row_witness :
  keyed Product.id (DB.products db)
  ∧ sqlite_integer 4
  ∧ ∃ db',
      delete_product db 4 = (true, db')
      ∧ get_product db' 4 = None
      ∧ get_product_count db' false = (get_product_count db false - 1)%Z.
Proof.
  pose proof (delete_product_only_that_row db 4 example_products_keyed key_4) as Hthm.
  destruct Hthm as (db' & Hdelete & Hget & _ & _ & Hcount & _).
  split; [exact example_products_keyed|]. split; [exact key_4|].
  exists db'. exact (conj Hdelete (conj Hget Hcount)).
Defined.

(** ** The dashboard *)

(** X5 on the example: a visitor without a cookie cannot delete a product. *)
Lemma protected_routes_need_a_session_witness :
  no_session (H := rp) cfg login_time Sample.no_session
  ∧ handle (H := rp) cfg whole_name login_time Sample.no_session
      (POST_product_delete_action 1) db
    = (Failed (PyError (HTTPException 303 "/admin/login")), db).
Proof.
  exact (conj visitor_has_no_session
           (protected_routes_need_a_session (H := rp) cfg whole_name login_time
              Sample.no_session (POST_product_delete_action 1) db
              visitor_has_no_session)).
Defined.

(** X6 on the example: alice opens the form of the crepe. *)
Lemma get_requests_write_nothing_witness :
  is_GET (GET_product_edit 1) = true
  ∧ (snd (handle (H := rp) cfg whole_name login_time request (GET_product_edit 1) db)
     = db
     ∨ ∃ message_id message,
         GET_product_edit 1 = GET_message_view message_id
         ∧ get_contact_message db message_id = Some message
         ∧ ContactMessage.is_read message = false
         ∧ snd (handle (H := rp) cfg whole_name login_time request
                  (GET_product_edit 1) db)
           = snd (mark_message_as_read db message_id)).
Proof.
  exact (conj eq_refl
           (get_requests_write_nothing (H := rp) cfg whole_name login_time request
              (GET_product_edit 1) db eq_refl)).
Defined.

(** X7 on the example: alice adds a product and leaves the image and the
    description empty; and she gives a NaN as the price. *)
Lemma product_forms_and_empty_fields_witness :
  admin_required (H := rp) cfg login_time request = Return (session_data alice)
  ∧ has_next_key Product.id (DB.products db)
  ∧ (∃ new db',
       product_create (H := rp) cfg login_time request "Crepe caramel"
         "crepes_sucrees" price_3_50 EmptyString EmptyString true false 3 db
       = (Done (Redirected (RedirectResponse "/admin/products" 303)), db')
       ∧ DB.products db' = DB.products db ++ [new]
       ∧ get_product db' (Product.id new) = Some new
       ∧ sqlite_integer (Product.id new)
       ∧ Product.name new = "Crepe caramel"
       ∧ Product.category new = "crepes_sucrees"
       ∧ bind_float price_3_50 = Some (Product.price new)
       ∧ Product.display_order new = 3%Z
       ∧ Product.image_filename new = or_None EmptyString
       ∧ Product.description new = or_None EmptyString)
  ∧ product_create (H := rp) cfg login_time request "Crepe caramel" "crepes_sucrees"
      SpecFloat.S754_nan EmptyString EmptyString true false 3 db
    = (Done (product_form request (session_data alice) None (Some IntegrityError)), db).
Proof.
  split; [exact alice_authenticated|]. split; [exact example_products_next_key|].
  split.
  - exact (proj1 (product_forms_and_empty_fields (H := rp) cfg login_time request
                    (session_data alice) db "Crepe caramel" "crepes_sucrees"
                    price_3_50 EmptyString EmptyString true false 3
                    alice_authenticated)
             example_products_next_key).
  - exact (proj1 (product_forms_and_empty_fields (H := rp) cfg login_time request
                    (session_data alice) db "Crepe caramel" "crepes_sucrees"
                    SpecFloat.S754_nan EmptyString EmptyString true false 3
                    alice_authenticated)).
Defined.

(** X8 on the example: alice sets the place of the day and no message. *)
Lemma location_update_then_api_witness :
  admin_required (H := rp) cfg login_time request = Return (session_data alice)
  ∧ ∃ location db',
      location_update (H := rp) cfg login_time request "Marche du Centre"
        "10h00 - 14h00" EmptyString db
      = (Done (location_form request (session_data alice) (Some location) true), db')
      ∧ get_location db' = Some location
      ∧ Location.today_location location = or_None "Marche du Centre"
      ∧ Location.today_hours location = or_None "10h00 - 14h00"
      ∧ Location.daily_message location = or_None EmptyString
      ∧ length (DB.location db') = Nat.max 1 (length (DB.location db))
      ∧ api_get_location_today db'
        = {| APILocation.place := unless_empty "Marche du Centre" "Emplacement non defini";
             APILocation.hours := "10h00 - 14h00";
             APILocation.message := or_None EmptyString |}.
Proof.
  exact (conj alice_authenticated
           (location_update_then_api (H := rp) cfg login_time request
              (session_data alice) db "Marche du Centre" "10h00 - 14h00" EmptyString
              alice_authenticated)).
Defined.

(** X9 on the example: alice changes the slogan and leaves the other fields empty. *)
Lemma settings_update_then_api_witness :
  admin_required (H := rp) cfg login_time request = Return (session_data alice)
  ∧ ∃ settings db',
      settings_update (H := rp) cfg login_time request EmptyString EmptyString
        EmptyString EmptyString EmptyString EmptyString "Fait minute." db
      = (Done (settings_form request (session_data alice) (Some settings) true), db')
      ∧ get_settings db' = Some settings
      ∧ length (DB.settings db') = Nat.max 1 (length (DB.settings db))
      ∧ api_get_settings db'
        = overlay (api_get_settings db)
            [EmptyString; EmptyString; EmptyString; EmptyString; EmptyString;
             EmptyString; "Fait minute."]
      ∧ (Forall (fun kv => kv.2 ≠ EmptyString) (api_get_settings db) →
         Forall (fun kv => kv.2 ≠ EmptyString) (api_get_settings db')).
Proof.
  exact (conj alice_authenticated
           (settings_update_then_api (H := rp) cfg login_time request
              (session_data alice) db EmptyString EmptyString EmptyString EmptyString
              EmptyString EmptyString "Fait minute." alice_authenticated)).
Defined.

(** X10 on the example: alice adds a closed Sunday: the times of the form
    are dropped. *)
Lemma schedule_forms_and_closed_days_witness :
  admin_required (H := rp) cfg login_time request = Return (session_data alice)
  ∧ has_next_key Schedule.id (DB.schedules db)
  ∧ ∃ new db',
      schedule_create (H := rp) cfg login_time request 6 "Ferme" "10:00" "14:00" true
        db
      = (Done (Redirected (RedirectResponse "/admin/schedule" 303)), db')
      ∧ DB.schedules db' = DB.schedules db ++ [new]
      ∧ get_schedule db' (Schedule.id new) = Some new
      ∧ sqlite_integer (Schedule.id new)
      ∧ Schedule.day_of_week new = 6%Z
      ∧ Schedule.place new = "Ferme"
      ∧ Schedule.is_active new = true
      ∧ ("Ferme" = "Ouvert" →
         Schedule.start_time new = Some "10:00" ∧ Schedule.end_time new = Some "14:00")
      ∧ ("Ferme" ≠ "Ouvert" →
         Schedule.start_time new = None ∧ Schedule.end_time new = None
         ∧ slot_hours new = "-").
Proof.
  exact (conj alice_authenticated
           (conj example_schedules_next_key
              (proj1 (schedule_forms_and_closed_days (H := rp) cfg login_time request
                        (session_data alice) db 6 "Ferme" "10:00" "14:00" true
                        alice_authenticated)
                 example_schedules_next_key))).
Defined.

(** X11 on the example: alice reads the message of the example. *)
Lemma message_view_marks_as_read_witness :
  admin_required (H := rp) cfg login_time request = Return (session_data alice)
  ∧ keyed ContactMessage.id (DB.contact_messages db)
  ∧ sqlite_integer 1
  ∧ ∃ db',
      message_view (H := rp) cfg login_time request 1 db
      = (Done (Rendered "admin/message_view.html"
                 [("request", CtxRequest request);
                  ("admin", CtxData (session_data alice));
                  ("message", CtxMessage (read hello))]), db')
      ∧ get_contact_message db' 1 = Some (read hello)
      ∧ get_message_count db' = get_message_count db.
Proof.
  pose proof (message_view_marks_as_read (H := rp) cfg login_time request
                (session_data alice) db 1 alice_authenticated example_messages_keyed
                key_1)
    as Hthm.
  destruct Hthm as (db' & Hview & Hget & _ & Hcount & _).
  split; [exact alice_authenticated|]. split; [exact example_messages_keyed|].
  split; [exact key_1|].
  exists db'. exact (conj Hview (conj Hget Hcount)).
Defined.

(** X12 on the example: alice opens the dashboard. *)
Lemma dashboard_counters_are_consistent_witness :
  admin_required (H := rp) cfg login_time request = Return (session_data alice)
  ∧ ∃ stats,
      dashboard (H := rp) cfg login_time request db
      = (Done (Rendered "admin/dashboard.html"
                 [("request", CtxRequest request);
                  ("admin", CtxData (session_data alice));
                  ("stats", CtxStats stats);
                  ("location", ctx_option CtxLocation (get_location db))]), db)
      ∧ fst <$> stats
        = ["total_products"; "active_products"; "bestsellers"; "schedules_count";
           "unread_messages"; "total_messages"]
      ∧ (0 ≤ dict_get stats "bestsellers" 0 ≤ dict_get stats "active_products" 0
         ≤ dict_get stats "total_products" 0)%Z.
Proof.
  pose proof (dashboard_counters_are_consistent (H := rp) cfg whole_name login_time
                request (session_data alice) db alice_authenticated) as Hthm.
  destruct Hthm as (stats & Hpage & Hkeys & Hproducts & _).
  split; [exact alice_authenticated|].
  exists stats. exact (conj Hpage (conj Hkeys Hproducts)).
Defined.

(** ** The public schedule *)

(** X16 on the example: the two slots of the Monday of the example are one entry. *)
Lemma api_schedule_merges_slots_witness :
  (∀ s, s ∈ DB.schedules db → Schedule.is_active s = true → slot_hours s ≠ "-")
  ∧ NoDup (entry_key <$> api_get_schedule db)
  ∧ ∀ e, e ∈ api_get_schedule db →
      APISchedule.hours e
      = String.concat " / "
          (slot_hours <$> filter (fun s => slot_key s = entry_key e)
                            (get_schedules db true)).
Proof.
  exact (conj example_slots_have_hours
           (api_schedule_merges_slots db example_slots_have_hours)).
Defined.

(** ** Passwords and administrators *)

(** X17 on the example. *)
Lemma hash_then_verify_witness :
  hash_password (H := rp) salt "admin123" = Return admin123_hash
  ∧ rehashes (H := rp) (want_bytes "admin123")
  ∧ verify_password (H := rp) "admin123" admin123_hash = Return true.
Proof.
  exact (conj admin123_hashed
           (conj (reference_rehashes (want_bytes "admin123"))
              (proj1 (hash_then_verify (H := rp) salt "admin123" admin123_hash
                        admin123_hashed (reference_rehashes (want_bytes "admin123")))))).
Defined.

(** X18 on the example: carol is added to the example and logs in. *)
Lemma create_admin_then_authenticate_witness :
  create_admin (H := rp) salt db "carol" "admin123"
  = (Done carol, DB.set_admins db (DB.admins db ++ [carol]))
  ∧ rehashes (H := rp) (want_bytes "admin123")
  ∧ get_admin_by_username db "carol" = None
  ∧ get_admin_by_username (DB.set_admins db (DB.admins db ++ [carol])) "carol"
    = Some carol
  ∧ authenticate_admin (H := rp)
      (DB.admins (DB.set_admins db (DB.admins db ++ [carol]))) "carol" "admin123"
    = Return (Some carol).
Proof.
  pose proof (create_admin_then_authenticate (H := rp) salt db "carol" "admin123"
                carol _ carol_created (reference_rehashes (want_bytes "admin123")))
    as (Hnew & Hfound & Hlogin & _).
  exact (conj carol_created
           (conj (reference_rehashes (want_bytes "admin123"))
              (conj Hnew (conj Hfound Hlogin)))).
Defined.


(** ** Seeding *)

(** X20 on the example: the example is started again: its products stay, its settings are
    created. *)
Lemma seed_database_fills_empty_tables_witness :
  seed_database (H := rp) default_init_admin salt db = (Done tt, restarted)
  ∧ DB.products restarted = if_empty (DB.products db) first_products
  ∧ DB.schedules restarted = if_empty (DB.schedules db) first_schedules
  ∧ DB.settings restarted = if_empty (DB.settings db) [first_settings]
  ∧ DB.location restarted = if_empty (DB.location db) [first_location]
  ∧ DB.contact_messages restarted = DB.contact_messages db.
Proof.
  pose proof (seed_database_fills_empty_tables (H := rp) default_init_admin salt db
                _ _ restarted_done) as (Hp & Hs & Hst & Hl & Hm & _).
  exact (conj restarted_done (conj Hp (conj Hs (conj Hst (conj Hl Hm))))).
Defined.

(** X21 on the example: the first start, and the second. *)
Lemma seed_database_idempotent_witness :
  seed_database (H := rp) default_init_admin salt DB.empty = (Done tt, first_start)
  ∧ DB.products first_start ≠ [] ∧ DB.schedules first_start ≠ []
  ∧ DB.settings first_start ≠ [] ∧ DB.location first_start ≠ []
  ∧ DB.admins first_start ≠ []
  ∧ ∀ gensalt',
      seed_database (H := rp) default_init_admin gensalt' first_start
      = (Done tt, first_start).
Proof.
  exact (conj first_start_done
           (seed_database_idempotent (H := rp) default_init_admin salt DB.empty
              first_start first_start_done)).
Defined.

(** X22 on the example: after the first start, [admin] logs in with [admin123]. *)
Lemma seed_database_then_login_witness :
  DB.admins DB.empty = []
  ∧ seed_database (H := rp) default_init_admin salt DB.empty = (Done tt, first_start)
  ∧ rehashes (H := rp) (want_bytes (INIT_ADMIN_PASSWORD default_init_admin))
  ∧ ∃ admin,
      DB.admins first_start = [admin]
      ∧ get_admin_by_username first_start (INIT_ADMIN_USERNAME default_init_admin)
        = Some admin
      ∧ authenticate_admin (H := rp) (DB.admins first_start)
          (INIT_ADMIN_USERNAME default_init_admin)
          (INIT_ADMIN_PASSWORD default_init_admin)
        = Return (Some admin).
Proof.
  exact (conj eq_refl
           (conj first_start_done
              (conj (reference_rehashes _)
                 (seed_database_then_login (H := rp) default_init_admin salt DB.empty
                    first_start eq_refl first_start_done (reference_rehashes _))))).
Defined.

(** X23 on the example: the script is run for carol with the default password. *)
Lemma create_admin_script_witness :
  main (H := rp) default_init_admin salt ["create_admin.py"; "carol"; "admin123"] db
  = (["[OK] Admin 'carol' created successfully!";
      "     You can now login at /admin/login"] ++ password_warning,
     Done tt, DB.set_admins db (DB.admins db ++ [carol]))
  ∧ (is_Some (get_admin_by_username db "carol") ↔ Done tt = Failed (SystemExit 1))
  ∧ (password_warning
       `suffix_of` ["[OK] Admin 'carol' created successfully!";
                    "     You can now login at /admin/login"] ++ password_warning
     ↔ Done tt = Done tt ∧ "admin123" = "admin123").
Proof.
  pose proof (create_admin_script (H := rp) default_init_admin salt
                ["create_admin.py"; "carol"; "admin123"] db _ _ _ carol_script)
    as (Hexit & _ & _ & Hwarning).
  exact (conj carol_script (conj Hexit Hwarning)).
Defined.

(** ** Requests that name a row *)

(** X25 on the example: there is no product 3 in the example. *)
Lemma missing_rows_are_not_found_witness :
  admin_required (H := rp) cfg login_time request = Return (session_data alice)
  ∧ (∀ i, named_key (GET_product_edit 3) = Some i → sqlite_integer i)
  ∧ handle (H := rp) cfg whole_name login_time request (GET_product_edit 3) db
    = (Failed (HTTPError 404 "Product not found"), db).
Proof.
  exact (conj alice_authenticated
           (conj product_3_is_named
              (missing_rows_are_not_found (H := rp) cfg whole_name login_time request
                 (session_data alice) (GET_product_edit 3) db alice_authenticated
                 product_3_is_named))).
Defined.

(** X26 on the example: alice deletes the gaufre. *)
Lemma delete_actions_remove_the_row_witness :
  admin_required (H := rp) cfg login_time request = Return (session_data alice)
  ∧ (2%Z ∈ Product.id <$> DB.products db →
     product_delete_action (H := rp) cfg login_time request 2 db
     = (Done (Redirected (RedirectResponse "/admin/products" 303)),
        DB.set_products db (filter (fun p => Product.id p ≠ 2%Z) (DB.products db)))).
Proof.
  exact (conj alice_authenticated
           (proj1 (delete_actions_remove_the_row (H := rp) cfg login_time request
                     (session_data alice) db 2 alice_authenticated))).
Defined.

(** ** The session token *)

(** X27 on the example. *)
Lemma session_token_is_url_safe_witness :
  (0 ≤ login_time < 2 ^ 64)%Z
  ∧ ∃ token,
      create_session_token (H := rp) cfg login_time 1 "alice" = Return token
      ∧ token ≠ EmptyString
      ∧ Forall (fun c => c ∈ Encoding.alphabet ∨ c = ItsDangerous.sep)
          (want_bytes token).
Proof.
  exact (conj login_time_in_range
           (session_token_is_url_safe (H := rp) cfg login_time 1 "alice"
              login_time_in_range)).
Defined.

End Examples.
